(** * websource-browser: session store, session daemon and client session
      resolution

    A shallow embedding of [src/websource-browser-module.js]
    (classes [SessionManager], [SessionDaemon] and the session part of
    [WebSourceBrowser]) together with the properties of the session
    life cycle; further on, the page commands [navigate] and [refreshPage]
    with the scan [navigate] runs in the page, and the session tools of
    the MCP server.

    Conventions of the embedding.
    - A process is a computation in the monad [M]: it threads a [world]
      (the sessions directory, the wall clock, the log of externally visible
      actions) and may throw a JavaScript [Error], kept as its message.
    - Everything outside the process (Chrome, puppeteer, the network, other
      processes) is an oracle of the record [Env].
    - The files the store can reach are a finite map.  A file of the
      sessions directory is kept under its entry name, a file below that
      directory under its path relative to it, any other file under its
      absolute path; [path.join] normalises the path of a session file as
      Node does on POSIX.  A file is kept as the value [JSON.parse] yields on
      it, or as [FCorrupt] when [JSON.parse] throws on it.  Writes are
      total: the directory a file is written to exists and can be written,
      as the sessions directory does once the manager is built.  Only
      regular files are kept: no directory bears the name of a session file.
    - Console output of [WebSourceLogger] is not part of the model. *)

From Stdlib Require Import ZArith NArith String Ascii List Lia Bool.
From Stdlib Require Import Sorted Permutation.
From stdpp Require Import gmap strings list fin_maps pretty.
Import ListNotations.

Local Open Scope Z_scope.
Local Open Scope string_scope.

(** ** JavaScript values *)

(** Values that [JSON.parse] can return.  Numbers are the integers the
    program stores (process ids, ports, epoch milliseconds); an object keeps
    its properties in insertion order. *)
#[warnings="-register-all"]
Inductive json : Type :=
| JNull
| JBool (b : bool)
| JNum (n : Z)
| JStr (s : string)
| JArr (items : list json)
| JObj (props : list (string * json)).

Definition jsobj : Type := list (string * json).

(** [!v] is [negb (truthy v)]. *)
Definition truthy (v : json) : bool :=
  match v with
  | JNull => false
  | JBool b => b
  | JNum n => negb (n =? 0)%Z
  | JStr s => negb (String.eqb s EmptyString)
  | JArr _ => true
  | JObj _ => true
  end.

(** [o[k]] on an object literal; [None] is [undefined]. *)
Fixpoint obj_get (k : string) (o : jsobj) : option json :=
  match o with
  | [] => None
  | (k', v) :: rest => if String.eqb k k' then Some v else obj_get k rest
  end.

(** Assignment [o[k] = v]: an existing key keeps its position. *)
Fixpoint obj_set (k : string) (v : json) (o : jsobj) : jsobj :=
  match o with
  | [] => [(k, v)]
  | (k', v') :: rest =>
      if String.eqb k k' then (k', v) :: rest else (k', v') :: obj_set k v rest
  end.

(** Property read [v.k] on an arbitrary non-null value ([None] is
    [undefined]); only plain objects carry the named properties the program
    reads. *)
Definition get_prop (v : json) (k : string) : option json :=
  match v with
  | JObj o => obj_get k o
  | _ => None
  end.

(** [!v.k] for a possibly undefined property. *)
Definition prop_truthy (v : json) (k : string) : bool :=
  match get_prop v k with
  | Some x => truthy x
  | None => false
  end.

Fixpoint index_from (i : nat) (l : list json) : jsobj :=
  match l with
  | [] => []
  | x :: rest => (pretty i, x) :: index_from (S i) rest
  end.

Fixpoint chars_of (s : string) : list json :=
  match s with
  | EmptyString => []
  | String c rest => JStr (String c EmptyString) :: chars_of rest
  end.

(** The own enumerable properties copied by a spread [{...v}]. *)
Definition own_props (v : json) : jsobj :=
  match v with
  | JObj o => o
  | JArr l => index_from 0 l
  | JStr s => index_from 0 (chars_of s)
  | _ => []
  end.

(** [{ ...a, ...b }]. *)
Definition spread (a : json) (b : jsobj) : jsobj :=
  fold_left (fun acc kv => obj_set (fst kv) (snd kv) acc) b (own_props a).

(** ** The world a process runs in *)

(** Content of one file of the sessions directory. *)
Inductive file : Type :=
| FJson (v : json)          (* [JSON.parse] succeeds and yields [v] *)
| FCorrupt (raw : string).  (* [JSON.parse] throws *)

(** Externally visible actions, in the order they happen. *)
Inductive event : Type :=
| EvWrite (entry : string) (content : file)     (* writeFileSync *)
| EvUnlink (entry : string)                     (* unlinkSync *)
| EvSpawnDaemon (name : string) (headless : bool)
| EvSpawnChrome (debugPort : Z) (headless : bool)
| EvBrowserConnected (wsEndpoint : option json)
| EvListening (port : Z)                        (* control server accepts *)
| EvMonitorStarted
| EvSignalHandlers
| EvSleep (ms : Z)
| EvServerClosed
| EvBrowserClosed
| EvExit (code : Z).

Record world : Type := World {
  files : gmap string file;   (* the files, each under its [file_key] *)
  now : Z;                    (* Date.now(), epoch milliseconds *)
  trace : list event          (* oldest first *)
}.

(** How a computation ends: a value, a thrown [Error] (its message), or an
    'error' event nobody listens to, which kills the process on the spot and
    which no [catch] sees. *)
Inductive outcome (A : Type) : Type :=
| Ok (a : A)
| Throw (msg : string)
| Crash (msg : string).
Arguments Ok {A} a.
Arguments Throw {A} msg.
Arguments Crash {A} msg.

Definition M (A : Type) : Type := world -> outcome A * world.

Definition ret {A} (a : A) : M A := fun w => (Ok a, w).

Definition bind {A B} (m : M A) (k : A -> M B) : M B :=
  fun w => match m w with
           | (Ok a, w') => k a w'
           | (Throw e, w') => (Throw e, w')
           | (Crash e, w') => (Crash e, w')
           end.

Definition throw {A} (msg : string) : M A := fun w => (Throw msg, w).

(** [try { m } catch (error) { h error.message }]. *)
Definition try_catch {A} (m : M A) (h : string -> M A) : M A :=
  fun w => match m w with
           | (Ok a, w') => (Ok a, w')
           | (Throw e, w') => h e w'
           | (Crash e, w') => (Crash e, w')
           end.

Notation "'let!' x ':=' m 'in' k" := (bind m (fun x => k))
  (at level 10, x pattern, m at level 100, k at level 200).
Notation "m ';;' k" := (bind m (fun _ => k))
  (at level 100, k at level 200, right associativity).

Definition emit (e : event) : M unit :=
  fun w => (Ok tt, World (files w) (now w) (trace w ++ [e])).

Definition Date_now : M Z := fun w => (Ok (now w), w).

(** [await new Promise(resolve => setTimeout(resolve, ms))]. *)
Definition sleep (ms : Z) : M unit :=
  fun w => (Ok tt, World (files w) (now w + ms) (trace w ++ [EvSleep ms])).

(** *** Paths *)

(** [os.homedir()], an absolute path; the embedding fixes one. *)
Definition homedir : string := "/home/user".

(** The pieces of a path between its separators. *)
Fixpoint segments (s : string) : list string :=
  match s with
  | EmptyString => [EmptyString]
  | String c rest =>
      if Ascii.eqb c "/" then EmptyString :: segments rest
      else match segments rest with
           | seg :: more => String c seg :: more
           | [] => [String c EmptyString]
           end
  end.

(** One piece met by [path.normalize] on an absolute path; [kept] holds the
    segments of the result so far, the last one first.  An empty piece and
    [.] are skipped, [..] drops the last segment kept (none at the root). *)
Definition normalize_step (kept : list string) (seg : string) : list string :=
  if String.eqb seg EmptyString then kept
  else if String.eqb seg "." then kept
  else if String.eqb seg ".." then tail kept
  else seg :: kept.

Definition normalize_segments (segs : list string) : list string :=
  rev (fold_left normalize_step segs []).

Fixpoint join_segments (segs : list string) : string :=
  match segs with
  | [] => EmptyString
  | [seg] => seg
  | seg :: rest => seg +:+ "/" +:+ join_segments rest
  end.

(** [path.join(...parts)] on POSIX, as the segments of the normalised path:
    the non-empty parts are joined with separators and the result is
    normalised.  The first part is absolute in every call of the program,
    and no joined path ends in a separator. *)
Definition path_join_segments (parts : list string) : list string :=
  normalize_segments
    (segments (join_segments
                 (List.filter (fun part => negb (String.eqb part EmptyString)) parts))).

Definition path_join (parts : list string) : string :=
  "/" +:+ join_segments (path_join_segments parts).

(** [this.sessionsDir] of the [SessionManager]. *)
Definition sessionsDir : string :=
  Eval vm_compute in
    path_join [homedir; ".local"; "lib"; "websource-browser"; "sessions"].

Definition sessionsDir_segments : list string :=
  Eval vm_compute in path_join_segments [sessionsDir].

Fixpoint strip_prefix (pre l : list string) : option (list string) :=
  match pre, l with
  | [], _ => Some l
  | p :: pre', x :: l' => if String.eqb p x then strip_prefix pre' l' else None
  | _ :: _, [] => None
  end.

(** The key under which [files] keeps the file at an absolute normalised
    path: the path relative to the sessions directory for a file in or
    below it, the absolute path for any other. *)
Definition file_key (segs : list string) : string :=
  match strip_prefix sessionsDir_segments segs with
  | Some rest => join_segments rest
  | None => "/" +:+ join_segments segs
  end.

Fixpoint slash_free (s : string) : bool :=
  match s with
  | EmptyString => true
  | String c rest => negb (Ascii.eqb c "/") && slash_free rest
  end.

(** *** File system primitives *)

Definition existsSync (entry : string) : M bool :=
  fun w => (Ok (bool_decide (is_Some (files w !! entry))), w).

Definition readFileSync (entry : string) : M file :=
  fun w => match files w !! entry with
           | Some f => (Ok f, w)
           | None => (Throw ("ENOENT: no such file or directory, open '" +:+ entry +:+ "'"), w)
           end.

Definition JSON_parse (f : file) : M json :=
  match f with
  | FJson v => ret v
  | FCorrupt _ => throw "Unexpected token in JSON"
  end.

Definition writeFileSync (entry : string) (content : file) : M unit :=
  fun w => (Ok tt, World (<[entry := content]> (files w)) (now w)
                         (trace w ++ [EvWrite entry content])).

Definition unlinkSync (entry : string) : M unit :=
  fun w => match files w !! entry with
           | Some _ => (Ok tt, World (delete entry (files w)) (now w)
                                     (trace w ++ [EvUnlink entry]))
           | None => (Throw ("ENOENT: no such file or directory, unlink '" +:+ entry +:+ "'"), w)
           end.

(** [readdirSync(this.sessionsDir)]: the files that lie in the sessions
    directory itself.  (A sub-directory would be listed as well; it adds
    nothing to [listSessions], where reading it as a file fails.) *)
Definition readdirSync : M (list string) :=
  fun w => (Ok (List.filter slash_free (map fst (map_to_list (files w)))), w).

(** ** Oracles for everything outside the process *)

(** Handle of a puppeteer connection. *)
Definition browser : Type := N.
Definition page : Type := N.

(** What a [ping] on a control port meets. *)
Inductive ping_reply : Type :=
| PingError (msg : string)         (* the socket emits 'error' (refused, reset) *)
| PingData (chunks : list (list N)).
     (* the ['data'] events that arrive before the 5 s timer, decoded *)

(** Answer of an external call: it returns (resolves) or throws (rejects). *)
Inductive answer (A : Type) : Type :=
| Resolved (a : A)
| Rejected (msg : string).
Arguments Resolved {A} a.
Arguments Rejected {A} msg.

Record Env : Type := {
  env_iso : Z -> string;                       (* new Date(t).toISOString() *)
  env_pid : Z;                                 (* process.pid *)
  env_random100 : Z;                           (* Math.floor(Math.random() * 100) *)
  env_port_free : Z -> bool;                   (* the probe listener can bind *)
  env_listen_ok : Z -> bool;                   (* the control server can bind *)
  env_any_port : Z;                            (* the port listen(null) is given *)
  env_executablePath : answer string;         (* puppeteer.executablePath() *)
  env_spawn_ok : string -> bool;
      (* spawn(path, ...) starts the child; otherwise the child object emits
         'error' *)
  env_debugger_url : Z -> answer (option json);
      (* fetch /json/version on the debug port, then data.webSocketDebuggerUrl *)
  env_connect : option json -> answer browser;   (* puppeteer.connect *)
  env_disconnect : browser -> answer unit;       (* browser.disconnect() *)
  env_close : browser -> answer unit;            (* browser.close() *)
  env_first_page : browser -> answer (option page);  (* (await browser.pages())[0] *)
  env_newPage : browser -> answer page;
  env_location : page -> answer string;          (* window.location.href *)
  env_ping : option json -> ping_reply;           (* by control port *)
  env_others : nat -> gmap string file -> gmap string file
      (* what other processes do to the sessions directory while this one
         sleeps for the n-th time *)
}.

(** Lift an oracle answer into the monad. *)
Definition ask {A} (o : answer A) : M A :=
  fun w => match o with
           | Resolved a => (Ok a, w)
           | Rejected msg => (Throw msg, w)
           end.

(** ** SessionManager *)

(** [join(this.sessionsDir, `${sessionName}.json`)], as the key of the file. *)
Definition getSessionFile (sessionName : string) : string :=
  file_key (path_join_segments [sessionsDir; sessionName +:+ ".json"]).

Definition sessionExists (sessionName : string) : M bool :=
  existsSync (getSessionFile sessionName).

(** Properties whose value is [undefined] ([None]) do not survive
    [JSON.stringify]. *)
Fixpoint defined_props (o : list (string * option json)) : jsobj :=
  match o with
  | [] => []
  | (k, Some v) :: rest => (k, v) :: defined_props rest
  | (_, None) :: rest => defined_props rest
  end.

(** Both [new Date()] of the literal are read at the same instant. *)
Definition createSession (env : Env) (sessionName : string)
    (wsEndpoint : option json) (pid : Z) (headless : bool) : M jsobj :=
  let! t := Date_now in
  let sessionData := defined_props
    [ ("name", Some (JStr sessionName));
      ("wsEndpoint", wsEndpoint);
      ("pid", Some (JNum pid));
      ("headless", Some (JBool headless));
      ("created", Some (JStr (env_iso env t)));
      ("lastActivity", Some (JStr (env_iso env t)));
      ("currentUrl", Some JNull) ] in
  writeFileSync (getSessionFile sessionName) (FJson (JObj sessionData));;
  ret sessionData.

(** Returns [JNull] for JavaScript's [null]. *)
Definition getSession (sessionName : string) : M json :=
  let sessionFile := getSessionFile sessionName in
  let! present := existsSync sessionFile in
  if negb present then ret JNull
  else
    try_catch
      (let! f := readFileSync sessionFile in JSON_parse f)
      (fun _ => ret JNull).

Definition updateSession (sessionName : string) (updates : jsobj) : M bool :=
  let! session := getSession sessionName in
  if negb (truthy session) then ret false
  else
    let updatedSession := spread session updates in
    writeFileSync (getSessionFile sessionName) (FJson (JObj updatedSession));;
    ret true.

Definition updateSessionActivity (env : Env) (sessionName : string) : M bool :=
  let! t := Date_now in
  updateSession sessionName [("lastActivity", JStr (env_iso env t))].

Definition deleteSession (sessionName : string) : M bool :=
  let sessionFile := getSessionFile sessionName in
  let! present := existsSync sessionFile in
  if present then unlinkSync sessionFile;; ret true
  else ret false.

(** [s.endsWith(suffix)]. *)
Definition endsWith (s suffix : string) : bool :=
  let n := String.length s in
  let m := String.length suffix in
  (m <=? n)%nat && String.eqb (substring (n - m) m s) suffix.

(** [s.replace(pat, rep)] with a string pattern: the first occurrence only. *)
Definition replace_first (pat rep s : string) : string :=
  match index 0 pat s with
  | Some i =>
      substring 0 i s +:+ rep +:+
      substring (i + String.length pat) (String.length s - (i + String.length pat)) s
  | None => s
  end.

Fixpoint listSessions_loop (entries : list string) (sessions : list json)
  : M (list json) :=
  match entries with
  | [] => ret sessions
  | entry :: rest =>
      if endsWith entry ".json" then
        let sessionName := replace_first ".json" EmptyString entry in
        let! session := getSession sessionName in
        if truthy session then listSessions_loop rest (sessions ++ [session])
        else listSessions_loop rest sessions
      else listSessions_loop rest sessions
  end.

(** The sessions directory itself always exists once the manager is built
    ([ensureSessionsDir]). *)
Definition listSessions : M (list json) :=
  let! entries := readdirSync in
  listSessions_loop entries [].

Definition isSessionActive (env : Env) (sessionName : string) : M bool :=
  let! session := getSession sessionName in
  if negb (truthy session) then ret false
  else
    try_catch
      (let! b := ask (env_connect env (get_prop session "wsEndpoint")) in
       ask (env_disconnect env b);;
       ret true)
      (fun _ => ret false).

(** ** Text on the control channel *)

Definition nl : string := String (ascii_of_nat 10) EmptyString.
Definition dquote : string := String (ascii_of_nat 34) EmptyString.
Definition backslash : string := String (ascii_of_nat 92) EmptyString.

Definition hex_digit (n : N) : ascii :=
  if (n <? 10)%N then ascii_of_N (48 + n) else ascii_of_N (87 + n).

(** Escaping done by [JSON.stringify] inside a string literal. *)
Definition escape_char (c : ascii) : string :=
  let n := N_of_ascii c in
  if (n =? 34)%N then backslash +:+ dquote
  else if (n =? 92)%N then backslash +:+ backslash
  else if (n =? 8)%N then backslash +:+ "b"
  else if (n =? 9)%N then backslash +:+ "t"
  else if (n =? 10)%N then backslash +:+ "n"
  else if (n =? 12)%N then backslash +:+ "f"
  else if (n =? 13)%N then backslash +:+ "r"
  else if (n <? 32)%N then
    backslash +:+ "u00" +:+
    String (hex_digit (n / 16)) (String (hex_digit (n mod 16)) EmptyString)
  else String c EmptyString.

Fixpoint escape (s : string) : string :=
  match s with
  | EmptyString => EmptyString
  | String c rest => escape_char c +:+ escape rest
  end.

Definition quote (s : string) : string := dquote +:+ escape s +:+ dquote.

Fixpoint join_comma (l : list string) : string :=
  match l with
  | [] => EmptyString
  | [x] => x
  | x :: rest => x +:+ "," +:+ join_comma rest
  end.

(** [JSON.stringify(v)], compact form. *)
Fixpoint JSON_stringify (v : json) : string :=
  match v with
  | JNull => "null"
  | JBool true => "true"
  | JBool false => "false"
  | JNum n => pretty n
  | JStr s => quote s
  | JArr l => "[" +:+ join_comma (map JSON_stringify l) +:+ "]"
  | JObj o =>
      "{" +:+
      join_comma (map (fun '(k, x) => quote k +:+ ":" +:+ JSON_stringify x) o)
      +:+ "}"
  end.

(** A received chunk after [data.toString()]: UTF-16 code units. *)
Definition jsstring : Type := list N.

Definition units (s : string) : jsstring :=
  map N_of_ascii (list_ascii_of_string s).

(** WhiteSpace and LineTerminator of ECMAScript, the code units
    [String.prototype.trim] strips. *)
Definition is_js_space (c : N) : bool :=
  ((9 <=? c) && (c <=? 13) || (c =? 32) || (c =? 160) || (c =? 5760)
   || (8192 <=? c) && (c <=? 8202) || (c =? 8232) || (c =? 8233)
   || (c =? 8239) || (c =? 8287) || (c =? 12288) || (c =? 65279))%N.

Fixpoint trimStart (l : jsstring) : jsstring :=
  match l with
  | [] => []
  | c :: rest => if is_js_space c then trimStart rest else l
  end.

Definition trim (l : jsstring) : jsstring :=
  rev (trimStart (rev (trimStart l))).

(** [a === b] on strings. *)
Definition str_eq (a b : jsstring) : bool := bool_decide (a = b).

(** ** SessionDaemon *)

(** The fields of [this], then what the Node runtime knows about the
    daemon: whether the interval timer is still armed and since when,
    whether the control server still accepts, whether the process exited. *)
Record SessionDaemon : Type := Daemon {
  sessionName : string;
  options_headless : bool;
  this_browser : option browser;
  lastActivity : Z;
  timeoutMs : Z;
  checkInterval : Z;
  monitorTimer : option Z;       (* the interval handle: when it was armed *)
  controlServer : option Z;      (* the net.Server: the port it listens on *)
  controlPort : option Z;
  timer_armed : bool;
  accepting : bool;
  exited : bool
}.

Definition SessionDaemon_new (name : string) (headless : bool) : M SessionDaemon :=
  let! t := Date_now in
  ret (Daemon name headless None t (15 * 60 * 1000) (60 * 1000)
              None None None false false false).

Definition set_lastActivity (t : Z) (d : SessionDaemon) : SessionDaemon :=
  Daemon (sessionName d) (options_headless d) (this_browser d) t (timeoutMs d)
         (checkInterval d) (monitorTimer d) (controlServer d) (controlPort d)
         (timer_armed d) (accepting d) (exited d).

Definition set_controlPort (p : Z) (d : SessionDaemon) : SessionDaemon :=
  Daemon (sessionName d) (options_headless d) (this_browser d) (lastActivity d)
         (timeoutMs d) (checkInterval d) (monitorTimer d) (controlServer d)
         (Some p) (timer_armed d) (accepting d) (exited d).

Definition set_browser (b : browser) (d : SessionDaemon) : SessionDaemon :=
  Daemon (sessionName d) (options_headless d) (Some b) (lastActivity d)
         (timeoutMs d) (checkInterval d) (monitorTimer d) (controlServer d)
         (controlPort d) (timer_armed d) (accepting d) (exited d).

Definition set_controlServer (p : Z) (d : SessionDaemon) : SessionDaemon :=
  Daemon (sessionName d) (options_headless d) (this_browser d) (lastActivity d)
         (timeoutMs d) (checkInterval d) (monitorTimer d) (Some p)
         (controlPort d) (timer_armed d) true (exited d).

Definition set_monitorTimer (t : Z) (d : SessionDaemon) : SessionDaemon :=
  Daemon (sessionName d) (options_headless d) (this_browser d) (lastActivity d)
         (timeoutMs d) (checkInterval d) (Some t) (controlServer d)
         (controlPort d) true (accepting d) (exited d).

Definition set_runtime (armed acc ex : bool) (d : SessionDaemon) : SessionDaemon :=
  Daemon (sessionName d) (options_headless d) (this_browser d) (lastActivity d)
         (timeoutMs d) (checkInterval d) (monitorTimer d) (controlServer d)
         (controlPort d) armed acc ex.

(** [server.listen(port, cb)] calls [cb] on 'listening' only, without an
    argument; a failed bind is an 'error' event on a server that has no
    'error' listener. *)
Definition findAvailablePort (env : Env) (startPort : Z) : M Z :=
  if env_port_free env startPort then ret startPort
  else fun w => (Crash "listen EADDRINUSE", w).

Definition updateActivity (env : Env) (d : SessionDaemon) : M SessionDaemon :=
  let! t := Date_now in
  let d' := set_lastActivity t d in
  updateSessionActivity env (sessionName d');;
  ret d'.

(** What the daemon does to a client socket. *)
Inductive sock_action : Type :=
| SockWrite (text : string)
| SockEnd.

(** The ['data'] listener the control server installs on every socket. *)
Definition on_data (env : Env) (d : SessionDaemon) (data : jsstring)
  : M (SessionDaemon * list sock_action) :=
  let message := trim data in
  if str_eq message (units "ping") then
    let! d' := updateActivity env d in
    ret (d', [SockWrite ("pong" +:+ nl)])
  else if str_eq message (units "status") then
    let! t := Date_now in
    let status :=
      JObj [ ("active", JBool true);
             ("lastActivity", JNum (lastActivity d));
             ("timeUntilShutdown",
              JNum (Z.max 0 (timeoutMs d - (t - lastActivity d)))) ] in
    ret (d, [SockWrite (JSON_stringify status +:+ nl)])
  else ret (d, []).

Definition startControlServer (env : Env) (d : SessionDaemon) : M SessionDaemon :=
  match controlPort d with
  | Some p =>
      if env_listen_ok env p then
        emit (EvListening p);; ret (set_controlServer p d)
      else fun w => (Crash "listen EADDRINUSE", w)
  | None =>
      emit (EvListening (env_any_port env));;
      ret (set_controlServer (env_any_port env) d)
  end.

Definition startMonitoring (d : SessionDaemon) : M SessionDaemon :=
  let! t := Date_now in
  emit EvMonitorStarted;;
  ret (set_monitorTimer t d).

Definition shutdown (env : Env) (d : SessionDaemon) : M SessionDaemon :=
  let armed := match monitorTimer d with Some _ => false | None => timer_armed d end in
  (match controlServer d with
   | Some _ => emit EvServerClosed
   | None => ret tt
   end);;
  let acc := match controlServer d with Some _ => false | None => accepting d end in
  (match this_browser d with
   | Some b => try_catch (ask (env_close env b);; emit EvBrowserClosed)
                         (fun _ => ret tt)
   | None => ret tt
   end);;
  deleteSession (sessionName d);;
  emit (EvExit 0);;
  ret (set_runtime armed acc true d).

(** The callback of [setInterval] in [startMonitoring]. *)
Definition monitor_tick (env : Env) (d : SessionDaemon) : M SessionDaemon :=
  let! t := Date_now in
  let idleTime := t - lastActivity d in
  if idleTime >? timeoutMs d then shutdown env d
  else ret d.

(** The value [start] resolves to. *)
Record start_result : Type := StartResult {
  sr_controlPort : option Z;
  sr_debugPort : Z;
  sr_wsEndpoint : option json
}.

(** [spawn(executablePath, chromeArgs, ...)].  A child that cannot be
    started emits 'error' on the next turn of the event loop, while [start]
    waits; the daemon has no listener for it. *)
Definition spawn_chrome (env : Env) (executablePath : string) (debugPort : Z)
    (headless : bool) : M unit :=
  emit (EvSpawnChrome debugPort headless);;
  if env_spawn_ok env executablePath then ret tt
  else fun w => (Crash ("spawn " +:+ executablePath +:+ " ENOENT"), w).

Definition start (env : Env) (d : SessionDaemon) : M (SessionDaemon * start_result) :=
  try_catch
    (let debugPort := 9220 + env_random100 env in
     let! port := findAvailablePort env 9320 in
     let d := set_controlPort port d in
     let! executablePath := ask (env_executablePath env) in
     spawn_chrome env executablePath debugPort (options_headless d);;
     sleep 2000;;
     let! wsEndpoint :=
       try_catch (ask (env_debugger_url env debugPort))
         (fun msg => throw ("Failed to get Chrome debugging endpoint: " +:+ msg)) in
     let! b := ask (env_connect env wsEndpoint) in
     emit (EvBrowserConnected wsEndpoint);;
     let d := set_browser b d in
     let! d := startControlServer env d in
     let! d := startMonitoring d in
     createSession env (sessionName d) wsEndpoint (env_pid env) (options_headless d);;
     updateSession (sessionName d)
       [ ("controlPort", JNum port); ("debugPort", JNum debugPort) ];;
     emit EvSignalHandlers;;
     ret (d, StartResult (controlPort d) debugPort wsEndpoint))
    (fun msg =>
       throw ("Failed to start session daemon '" +:+ sessionName d +:+ "': " +:+ msg)).

(** The event loop runs a callback at time [t]. *)
Definition at_time {A} (t : Z) (m : M A) : M A :=
  fun w => m (World (files w) t (trace w)).

(** One accepted connection: the ['data'] events it delivers, each with its
    arrival time, handled in order. *)
Fixpoint serve_connection (env : Env) (d : SessionDaemon)
    (chunks : list (Z * jsstring)) : M (SessionDaemon * list sock_action) :=
  match chunks with
  | [] => ret (d, [])
  | (t, data) :: rest =>
      let! (d1, out1) := at_time t (on_data env d data) in
      let! (d2, out2) := serve_connection env d1 rest in
      ret (d2, (out1 ++ out2)%list)
  end.

(** The interval timer, last run at [t]: up to [n] further ticks, one
    every [checkInterval], with nothing else happening in between.  The
    callback runs only while the timer is armed ([setInterval] was called
    and [clearInterval] was not).  Returns the time of the tick that shut
    the daemon down, if one did. *)
Fixpoint monitor_run (env : Env) (n : nat) (t : Z) (d : SessionDaemon)
  : M (SessionDaemon * option Z) :=
  match n with
  | O => ret (d, None)
  | S n' =>
      if timer_armed d then
        let t' := t + checkInterval d in
        let! d' := at_time t' (monitor_tick env d) in
        if exited d' then ret (d', Some t')
        else monitor_run env n' t' d'
      else ret (d, None)
  end.

(** The timer of the daemon from the moment [startMonitoring] armed it:
    its first [n] ticks.  A daemon on which [startMonitoring] never ran has
    no timer. *)
Definition run_timer (env : Env) (n : nat) (d : SessionDaemon)
  : M (SessionDaemon * option Z) :=
  match monitorTimer d with
  | Some armed_at => monitor_run env n armed_at d
  | None => ret (d, None)
  end.

(** A chunk that carries [word] and nothing but white space around it. *)
Definition padded (word : string) (data : jsstring) : Prop :=
  exists pre post,
    Forall (fun c => is_js_space c = true) pre /\
    Forall (fun c => is_js_space c = true) post /\
    data = (pre ++ units word ++ post)%list.

(** ** WebSourceBrowser: starting and resolving a session *)

Record WebSourceBrowser : Type := Client {
  wb_browser : option browser;
  wb_page : option page;
  wb_currentSession : option json
}.

(** The value [startSession] resolves to:
    [{ success: true, sessionName, pid, controlPort }]. *)
Record session_info : Type := SessionInfo {
  si_sessionName : string;
  si_pid : option json;
  si_controlPort : option json
}.

(** The timer of the poll loop; while this process waits for the [n]-th
    time the other processes run. *)
Definition sleep_yield (env : Env) (n : nat) (ms : Z) : M unit :=
  fun w => (Ok tt, World (env_others env n (files w)) (now w + ms)
                         (trace w ++ [EvSleep ms])).

Definition maxAttempts : nat := 60.

(** The sessions directory after the waits numbered [a], [a+1], ...,
    [a+n-1] of this process. *)
Fixpoint dir_from (env : Env) (a n : nat) (fs : gmap string file)
  : gmap string file :=
  match n with
  | O => fs
  | S n' => dir_from env (S a) n' (env_others env a fs)
  end.

(** [while (attempts < maxAttempts) { ...; attempts++ }] followed by the
    [throw]; [remaining] is [maxAttempts - attempts]. *)
Fixpoint poll_session (env : Env) (name : string) (remaining attempts : nat)
  : M session_info :=
  match remaining with
  | O => throw "Daemon failed to start within timeout period"
  | S remaining' =>
      sleep_yield env attempts 1000;;
      let! present := sessionExists name in
      if present then
        let! session := getSession name in
        if truthy session && prop_truthy session "controlPort" then
          ret (SessionInfo name (get_prop session "pid")
                           (get_prop session "controlPort"))
        else poll_session env name remaining' (S attempts)
      else poll_session env name remaining' (S attempts)
  end.

Definition startSession (env : Env) (name : string) (headless : bool)
  : M session_info :=
  let! present := sessionExists name in
  (if present then
     let! isActive := isSessionActive env name in
     if isActive then
       throw ("Session '" +:+ name +:+ "' already exists and is active")
     else
       deleteSession name;; ret tt
   else ret tt);;
  try_catch
    (emit (EvSpawnDaemon name headless);;
     poll_session env name maxAttempts 0)
    (fun msg =>
       throw ("Failed to start session daemon '" +:+ name +:+ "': " +:+ msg)).

Definition pingDaemon (env : Env) (name : string) : M unit :=
  let! session := getSession name in
  if negb (truthy session) || negb (prop_truthy session "controlPort") then
    throw ("Session '" +:+ name +:+ "' has no control port")
  else
    match env_ping env (get_prop session "controlPort") with
    | PingError msg => throw msg
    | PingData chunks =>
        if existsb (fun data => str_eq (trim data) (units "pong")) chunks
        then ret tt
        else sleep 5000;; throw "Daemon ping timeout"
    end.

Definition connectToSession (env : Env) (wb : WebSourceBrowser) (name : string)
  : M (WebSourceBrowser * bool) :=
  let! session := getSession name in
  if negb (truthy session) then
    throw ("Session '" +:+ name +:+
           "' does not exist. Use --start to create a session first.")
  else
    pingDaemon env name;;
    let! isActive := isSessionActive env name in
    if negb isActive then
      deleteSession name;;
      throw ("Session '" +:+ name +:+
             "' is no longer active. Use --start to create a new session.")
    else
      try_catch
        (let! b := ask (env_connect env (get_prop session "wsEndpoint")) in
         let! first := ask (env_first_page env b) in
         let! p := match first with
                   | Some p => ret p
                   | None => ask (env_newPage env b)
                   end in
         try_catch (ask (env_location env p);; ret tt) (fun _ => ret tt);;
         ret (Client (Some b) (Some p) (Some session), true))
        (fun msg =>
           deleteSession name;;
           throw ("Failed to connect to session '" +:+ name +:+ "': " +:+ msg)).

(** ** Sequences of store operations *)

Inductive store_op : Type :=
| OpExists (name : string)
| OpCreate (name : string) (wsEndpoint : option json) (pid : Z) (headless : bool)
| OpGet (name : string)
| OpUpdate (name : string) (updates : jsobj)
| OpUpdateActivity (name : string)
| OpDelete (name : string)
| OpList
| OpIsActive (name : string).

Definition run_op (env : Env) (op : store_op) : M unit :=
  match op with
  | OpExists name => sessionExists name;; ret tt
  | OpCreate name ws pid headless => createSession env name ws pid headless;; ret tt
  | OpGet name => getSession name;; ret tt
  | OpUpdate name updates => updateSession name updates;; ret tt
  | OpUpdateActivity name => updateSessionActivity env name;; ret tt
  | OpDelete name => deleteSession name;; ret tt
  | OpList => listSessions;; ret tt
  | OpIsActive name => isSessionActive env name;; ret tt
  end.

Fixpoint run_ops (env : Env) (ops : list store_op) : M unit :=
  match ops with
  | [] => ret tt
  | op :: rest => run_op env op;; run_ops env rest
  end.

(** The record of [name] as the directory holds it. *)
Definition record_of (w : world) (name : string) : option file :=
  files w !! getSessionFile name.

Definition present (w : world) (name : string) : bool :=
  bool_decide (is_Some (record_of w name)).

(** Two session names whose session file is the same file. *)
Definition same_file (a b : string) : bool :=
  String.eqb (getSessionFile a) (getSessionFile b).

(** What one operation does to the existence of [name]'s record. *)
Definition live_step (name : string) (op : store_op) (b : bool) : bool :=
  match op with
  | OpCreate n _ _ _ => if same_file n name then true else b
  | OpDelete n => if same_file n name then false else b
  | _ => b
  end.

Definition live (name : string) (ops : list store_op) (b : bool) : bool :=
  fold_left (fun acc op => live_step name op acc) ops b.

(** The value [getSession] returns, read off the directory. *)
Definition parsed (o : option file) : json :=
  match o with
  | Some (FJson v) => v
  | _ => JNull
  end.

(** The world in which [startSession] begins to poll: a stale record, if
    there was one, is removed and the daemon process is spawned. *)
Definition after_spawn (w : world) (name : string) (headless : bool) : world :=
  World (delete (getSessionFile name) (files w)) (now w)
        (trace w ++
         (if present w name then [EvUnlink (getSessionFile name)] else []) ++
         [EvSpawnDaemon name headless]).

(** The test of the poll loop: the record parses to a usable value whose
    [controlPort] is set. *)
Definition record_ready (fs : gmap string file) (name : string) : bool :=
  truthy (parsed (fs !! getSessionFile name)) &&
  prop_truthy (parsed (fs !! getSessionFile name)) "controlPort".

(** [ops] contains a create on the session file of [name] with no delete on
    that file after it. *)
Definition created_since (name : string) (ops : list store_op) : Prop :=
  exists pre n ws pid h post,
    ops = (pre ++ OpCreate n ws pid h :: post)%list /\
    getSessionFile n = getSessionFile name /\
    forall n', In (OpDelete n') post -> getSessionFile n' <> getSessionFile name.

(** The same read by name, as the specification words it: [ops] contains a
    create of [name] with no delete of [name] after it. *)
Definition created_since_by_name (name : string) (ops : list store_op) : Prop :=
  exists pre ws pid h post,
    ops = (pre ++ OpCreate name ws pid h :: post)%list /\
    forall op, In op post -> op <> OpDelete name.


(** The time after which an idle daemon is shut down by its monitor. *)
Definition deadline (d : SessionDaemon) : Z := lastActivity d + timeoutMs d.


(** A chunk the control server answers. *)
Definition recognised (data : jsstring) : bool :=
  str_eq (trim data) (units "ping") || str_eq (trim data) (units "status").

(** ** Sample environments and worlds *)

(** Every external call succeeds; the daemon on the control port answers. *)
Definition env_up : Env := {|
  env_iso := fun t => pretty t;
  env_pid := 4242;
  env_random100 := 7;
  env_port_free := fun _ => true;
  env_listen_ok := fun _ => true;
  env_any_port := 40001;
  env_executablePath := Resolved "/usr/bin/chrome";
  env_spawn_ok := fun _ => true;
  env_debugger_url := fun _ => Resolved (Some (JStr "ws://127.0.0.1:9227/devtools/browser/abc"));
  env_connect := fun _ => Resolved 1%N;
  env_disconnect := fun _ => Resolved tt;
  env_close := fun _ => Resolved tt;
  env_first_page := fun _ => Resolved (Some 1%N);
  env_newPage := fun _ => Resolved 2%N;
  env_location := fun _ => Resolved "about:blank";
  env_ping := fun _ => PingData [units ("pong" +:+ nl)];
  env_others := fun _ fs => fs
|}.

(** The browser and the daemon are gone: nothing connects. *)
Definition env_down : Env := {|
  env_iso := fun t => pretty t;
  env_pid := 4243;
  env_random100 := 7;
  env_port_free := fun _ => true;
  env_listen_ok := fun _ => true;
  env_any_port := 40001;
  env_executablePath := Resolved "/usr/bin/chrome";
  env_spawn_ok := fun _ => true;
  env_debugger_url := fun _ => Rejected "fetch failed";
  env_connect := fun _ => Rejected "connect ECONNREFUSED";
  env_disconnect := fun _ => Resolved tt;
  env_close := fun _ => Rejected "Target closed";
  env_first_page := fun _ => Rejected "Target closed";
  env_newPage := fun _ => Rejected "Target closed";
  env_location := fun _ => Rejected "Target closed";
  env_ping := fun _ => PingError "connect ECONNREFUSED 127.0.0.1:9320";
  env_others := fun _ fs => fs
|}.

(** An empty sessions directory at time [t]. *)
Definition fresh (t : Z) : world := World ∅ t [].

(** The record a daemon leaves for session [s1]. *)
Definition s1_record : json :=
  JObj [ ("name", JStr "s1");
         ("wsEndpoint", JStr "ws://127.0.0.1:9227/devtools/browser/abc");
         ("pid", JNum 4242);
         ("headless", JBool true);
         ("created", JStr "1000");
         ("lastActivity", JStr "1000");
         ("currentUrl", JNull);
         ("controlPort", JNum 9320);
         ("debugPort", JNum 9227) ].

Definition world_s1 (t : Z) : world :=
  World {[ getSessionFile "s1" := FJson s1_record ]} t [].

(** The daemon object of [s1] as the constructor builds it at time 1000. *)
Definition daemon_s1_new : SessionDaemon :=
  Daemon "s1" true None 1000 (15 * 60 * 1000) (60 * 1000)
         None None None false false false.

(** The daemon of [s1] while it runs: armed at 1000, listening on 9320. *)
Definition daemon_s1 : SessionDaemon :=
  Daemon "s1" true (Some 1%N) 1000 (15 * 60 * 1000) (60 * 1000)
         (Some 1000) (Some 9320) (Some 9320) true true false.

(** ** Notions used by the properties of the rest of the code *)

(** The session a store operation works on, if it works on one. *)
Definition op_target (op : store_op) : option string :=
  match op with
  | OpExists n | OpGet n | OpUpdate n _ | OpUpdateActivity n | OpDelete n
  | OpIsActive n => Some n
  | OpCreate n _ _ _ => Some n
  | OpList => None
  end.

(** What [listSessions] pushes for one directory entry. *)
Definition entry_sessions (w : world) (entry : string) : list json :=
  if endsWith entry ".json" then
    let session := parsed (record_of w (replace_first ".json" EmptyString entry)) in
    if truthy session then [session] else []
  else [].

(** No full stop in a session name. *)
Fixpoint dotless (s : string) : bool :=
  match s with
  | EmptyString => true
  | String c rest => negb (Ascii.eqb c ".") && dotless rest
  end.

(** The record [start] leaves behind: what [createSession] writes at time
    [t], completed by the two ports. *)
Definition started_record (env : Env) (d : SessionDaemon) (ws : option json)
    (t : Z) : jsobj :=
  (defined_props
     [ ("name", Some (JStr (sessionName d)));
       ("wsEndpoint", ws);
       ("pid", Some (JNum (env_pid env)));
       ("headless", Some (JBool (options_headless d)));
       ("created", Some (JStr (env_iso env t)));
       ("lastActivity", Some (JStr (env_iso env t)));
       ("currentUrl", Some JNull) ] ++
   [ ("controlPort", JNum 9320);
     ("debugPort", JNum (9220 + env_random100 env)) ])%list.

(** The daemon object [start] resolves with. *)
Definition started_daemon (d : SessionDaemon) (b : browser) (t : Z) : SessionDaemon :=
  Daemon (sessionName d) (options_headless d) (Some b) (lastActivity d)
         (timeoutMs d) (checkInterval d) (Some t) (Some 9320) (Some 9320)
         true true (exited d).

(** Every external step of [start] goes through. *)
Definition start_steps_ok (env : Env) (ws : option json) (b : browser) : Prop :=
  env_port_free env 9320 = true /\
  (exists path, env_executablePath env = Resolved path /\
                env_spawn_ok env path = true) /\
  env_debugger_url env (9220 + env_random100 env) = Resolved ws /\
  env_connect env ws = Resolved b /\
  env_listen_ok env 9320 = true.

(** An awaited call of [start] rejects, with [cause] the error the [catch]
    of [start] sees: the Chrome path, the debugging endpoint (whose error
    [start] wraps once already) or the puppeteer connection. *)
Definition start_rejected (env : Env) (cause : string) : Prop :=
  env_port_free env 9320 = true /\
  (env_executablePath env = Rejected cause \/
   exists path,
     env_executablePath env = Resolved path /\
     env_spawn_ok env path = true /\
     ((exists e,
         env_debugger_url env (9220 + env_random100 env) = Rejected e /\
         cause = "Failed to get Chrome debugging endpoint: " +:+ e) \/
      (exists ws,
         env_debugger_url env (9220 + env_random100 env) = Resolved ws /\
         env_connect env ws = Rejected cause))).

(** A step of [start] ends in an 'error' event nobody listens to: port 9320
    is taken (at the probe or, later, at the bind of the control server), or
    Chrome cannot be spawned. *)
Definition start_dies (env : Env) (msg : string) : Prop :=
  (env_port_free env 9320 = false /\ msg = "listen EADDRINUSE") \/
  (env_port_free env 9320 = true /\
   exists path,
     env_executablePath env = Resolved path /\
     ((env_spawn_ok env path = false /\
       msg = "spawn " +:+ path +:+ " ENOENT") \/
      (env_spawn_ok env path = true /\
       exists ws b,
         env_debugger_url env (9220 + env_random100 env) = Resolved ws /\
         env_connect env ws = Resolved b /\
         env_listen_ok env 9320 = false /\
         msg = "listen EADDRINUSE"))).

(** ** WebSourceBrowser: the other session commands *)

(** [cs.name === sessionName]. *)
Definition name_is (cs : json) (name : string) : bool :=
  match get_prop cs "name" with
  | Some (JStr n) => String.eqb n name
  | _ => false
  end.

(** [this.currentSession?.name === sessionName]. *)
Definition current_is (wb : WebSourceBrowser) (name : string) : bool :=
  match wb_currentSession wb with
  | Some cs => name_is cs name
  | None => false
  end.

(** Resolves to [{ success: true, sessionName }]; the new fields of [this]
    come with it. *)
Definition stopSession (env : Env) (wb : WebSourceBrowser) (name : string)
  : M (WebSourceBrowser * string) :=
  let! session := getSession name in
  if negb (truthy session) then
    throw ("Session '" +:+ name +:+ "' does not exist")
  else
    try_catch
      (let! b := ask (env_connect env (get_prop session "wsEndpoint")) in
       ask (env_close env b);;
       emit EvBrowserClosed)
      (fun _ => ret tt);;
    deleteSession name;;
    ret (if current_is wb name then Client None None None else wb, name).

Definition join_with (sep : string) (parts : list string) : string :=
  match parts with
  | [] => EmptyString
  | x :: rest => fold_left (fun acc p => acc +:+ sep +:+ p) rest x
  end.

(** The string a value becomes inside a template literal ([None] is
    [undefined]). *)
Fixpoint js_string (v : json) : string :=
  match v with
  | JNull => "null"
  | JBool true => "true"
  | JBool false => "false"
  | JNum n => pretty n
  | JStr s => s
  | JArr l =>
      join_with ","
        (map (fun x => match x with
                       | JNull => EmptyString
                       | _ => js_string x
                       end) l)
  | JObj _ => "[object Object]"
  end.

Definition template (v : option json) : string :=
  match v with
  | Some x => js_string x
  | None => "undefined"
  end.

(** [sessions.map(async session => ({ ...session, active: ... }))] under
    [Promise.all]; the probes only read, so their order does not matter. *)
Fixpoint with_active (env : Env) (sessions : list json) : M (list jsobj) :=
  match sessions with
  | [] => ret []
  | session :: rest =>
      let! active := isSessionActive env (template (get_prop session "name")) in
      let! others := with_active env rest in
      ret (spread session [("active", JBool active)] :: others)
  end.

(** [WebSourceBrowser.listSessions]. *)
Definition listSessions_with_status (env : Env) : M (list jsobj) :=
  let! sessions := listSessions in
  with_active env sessions.

(** [cleanup]; [this.currentSession] is left as it is. *)
Definition cleanup (env : Env) (wb : WebSourceBrowser) : M WebSourceBrowser :=
  match wb_browser wb with
  | Some b =>
      ask (env_close env b);;
      emit EvBrowserClosed;;
      ret (Client None None (wb_currentSession wb))
  | None => ret wb
  end.

(** ** WebSourceBrowser: navigation *)

(** One element as the in-page scan sees it. *)
Record element : Type := Element {
  el_tag : list N;                (* el.tagName.toLowerCase() *)
  el_id : list N;                 (* el.id *)
  el_className : option (list N)  (* el.className when it is a string *)
}.

(** The document a [page.evaluate] callback runs in. *)
Record document : Type := Document {
  doc_href : string;              (* window.location.href *)
  doc_title : string;             (* document.title *)
  doc_complete : bool;            (* document.readyState === 'complete' *)
  doc_elements : list element     (* document.querySelectorAll('*') *)
}.

(** The page operations of puppeteer, as oracles. *)
Record PageEnv : Type := {
  pe_goto : page -> string -> answer unit;
      (* page.goto(url, { waitUntil: 'domcontentloaded', timeout: 30000 }) *)
  pe_document : page -> answer document;
      (* the document page.evaluate runs its callback in, or its rejection *)
  pe_reload : page -> bool -> answer unit;
      (* page.reload: [true] with { waitUntil: 'networkidle0', timeout: 15000 },
         [false] the plain one with { timeout: 10000 } *)
  pe_reloaded : page -> bool -> answer document
      (* the document page.evaluate meets after that reload *)
}.

(** [s.split(sep)] for a one-unit separator; [cur] is the piece being read,
    last unit first. *)
Fixpoint split_on (sep : N) (s : list N) (cur : list N) : list (list N) :=
  match s with
  | [] => [rev cur]
  | c :: rest =>
      if (c =? sep)%N then rev cur :: split_on sep rest []
      else split_on sep rest (c :: cur)
  end.

Definition nonempty (s : list N) : bool :=
  match s with
  | [] => false
  | _ :: _ => true
  end.

(** The default order of [Array.prototype.sort] on strings: code unit by
    code unit. *)
Fixpoint lex_leb (a b : list N) : bool :=
  match a, b with
  | [], _ => true
  | _ :: _, [] => false
  | x :: a', y :: b' =>
      if (x <? y)%N then true
      else if (y <? x)%N then false
      else lex_leb a' b'
  end.

Fixpoint insert_sorted (x : list N) (l : list (list N)) : list (list N) :=
  match l with
  | [] => [x]
  | y :: rest => if lex_leb x y then x :: l else y :: insert_sorted x rest
  end.

(** [array.sort()] on an array of strings.  The order is total and only
    equal strings compare equal, so every sorting algorithm returns this
    list. *)
Definition js_sort (l : list (list N)) : list (list N) :=
  fold_right insert_sorted [] l.

(** The body of [className.split(' ').forEach(cls => ...)]. *)
Definition add_class (classSelectors : list (list N)) (cls : list N)
  : list (list N) :=
  if nonempty (trim cls) then
    let selector := (46%N :: trim cls) in
    if existsb (str_eq selector) classSelectors then classSelectors
    else (classSelectors ++ [selector])%list
  else classSelectors.

(** The three accumulators of the scan. *)
Record scan : Type := Scan {
  tagCounts : gmap (list N) nat;
  ids_found : list (list N);
  classes_found : list (list N)
}.

(** The body of [allElements.forEach(el => ...)]. *)
Definition scan_element (st : scan) (el : element) : scan :=
  Scan
    (<[el_tag el := S (default 0%nat (tagCounts st !! el_tag el))]> (tagCounts st))
    (if nonempty (el_id el) then (ids_found st ++ [35%N :: el_id el])%list
     else ids_found st)
    (match el_className el with
     | Some className =>
         if nonempty className then
           fold_left add_class (split_on 32 className []) (classes_found st)
         else classes_found st
     | None => classes_found st
     end).

Definition common_tags : list (list N) :=
  map units
    [ "body"; "main"; "header"; "footer"; "nav"; "section"; "article";
      "div"; "p"; "h1"; "h2"; "h3"; "h4"; "h5"; "h6";
      "a"; "img"; "ul"; "ol"; "li"; "table"; "tr"; "td"; "th";
      "form"; "input"; "button"; "textarea"; "select" ].

Record page_info : Type := PageInfo {
  pi_url : string;
  pi_title : string;
  pi_ready : bool
}.

Record selector_summary : Type := Selectors {
  totalElements : nat;
  commonSelectors : list (list N);
  idSelectors : list (list N);
  classSelectors : list (list N)
}.

(** The callback [navigate] evaluates in the page.  Of [tagCounts] only the
    entries of the fixed tags are read back. *)
Definition page_data (doc : document) : page_info * selector_summary :=
  let st := fold_left scan_element (doc_elements doc) (Scan ∅ [] []) in
  (PageInfo (doc_href doc) (doc_title doc) (doc_complete doc),
   Selectors
     (length (doc_elements doc))
     (List.filter (fun tag => (0 <? default 0 (tagCounts st !! tag))%nat) common_tags)
     (js_sort (ids_found st))
     (js_sort (classes_found st))).

(** The test every page command starts with:
    [!this.currentSession || this.currentSession.name !== sessionName]. *)
Definition must_connect (wb : WebSourceBrowser) (name : string) : bool :=
  match wb_currentSession wb with
  | None => true
  | Some cs => negb (truthy cs) || negb (name_is cs name)
  end.

Definition require_session (env : Env) (wb : WebSourceBrowser) (name : string)
  : M WebSourceBrowser :=
  if must_connect wb name then
    let! (wb', _) := connectToSession env wb name in
    ret wb'
  else ret wb.

(** Resolves to [{ success: true, pageInfo, selectors }]; [this.currentUrl]
    becomes [pageInfo.url]. *)
Definition navigate (env : Env) (penv : PageEnv) (wb : WebSourceBrowser)
    (url name : string) (waitTime : Z)
  : M (WebSourceBrowser * (page_info * selector_summary)) :=
  let! wb := require_session env wb name in
  match wb_page wb with
  | None => throw "No active page. Session may have been corrupted."
  | Some p =>
      try_catch
        (ask (pe_goto penv p url);;
         (if waitTime >? 0 then sleep waitTime else ret tt);;
         let! doc := ask (pe_document penv p) in
         let pageData := page_data doc in
         updateSession name [("currentUrl", JStr (pi_url (fst pageData)))];;
         ret (wb, pageData))
        (fun msg => throw ("Failed to navigate to " +:+ url +:+ ": " +:+ msg))
  end.

(** Resolves to [{ success: true, pageInfo }].  The second attempt waits
    with [setTimeout(resolve, waitTime)] whatever [waitTime] is; a timer
    with a delay that is not positive fires at once. *)
Definition refreshPage (env : Env) (penv : PageEnv) (wb : WebSourceBrowser)
    (name : string) (waitTime : Z) : M (WebSourceBrowser * page_info) :=
  let! wb := require_session env wb name in
  match wb_page wb with
  | None => throw "No active session. Use --start to create a session first."
  | Some p =>
      try_catch
        (ask (pe_reload penv p true);;
         (if waitTime >? 0 then sleep waitTime else ret tt);;
         let! doc := ask (pe_reloaded penv p true) in
         let pageInfo := PageInfo (doc_href doc) (doc_title doc) (doc_complete doc) in
         updateSession name [("currentUrl", JStr (pi_url pageInfo))];;
         ret (wb, pageInfo))
        (fun _ =>
           try_catch
             (ask (pe_reload penv p false);;
              sleep (Z.max 0 waitTime);;
              let! doc := ask (pe_reloaded penv p false) in
              let pageInfo :=
                PageInfo (doc_href doc) (doc_title doc) (doc_complete doc) in
              updateSession name [("currentUrl", JStr (pi_url pageInfo))];;
              ret (wb, pageInfo))
             (fun msg => throw ("Failed to refresh page: " +:+ msg)))
  end.

(** The file name [takeScreenshot] uses: the given one, or one made from
    the time of the call with [replace(/[:.]/g, '-')]. *)
Fixpoint dashes (s : string) : string :=
  match s with
  | EmptyString => EmptyString
  | String c rest =>
      String (if Ascii.eqb c ":" || Ascii.eqb c "." then "-"%char else c)
             (dashes rest)
  end.

Definition screenshot_filename (env : Env) (filename : option string) : M string :=
  match filename with
  | Some f =>
      if negb (String.eqb f EmptyString) then ret f
      else
        let! t := Date_now in
        ret ("websource-browser-screenshot-" +:+ dashes (env_iso env t) +:+ ".png")
  | None =>
      let! t := Date_now in
      ret ("websource-browser-screenshot-" +:+ dashes (env_iso env t) +:+ ".png")
  end.

(** ** The MCP server: the session tools *)

(** What a tool handler returns: one text item, and [isError]. *)
Record tool_reply : Type := ToolReply {
  reply_text : string;
  reply_isError : bool
}.

(** [args.sessionName || 'default']. *)
Definition name_or_default (sessionName : option string) : string :=
  match sessionName with
  | Some s => if String.eqb s EmptyString then "default" else s
  | None => "default"
  end.

(** The handler of the [startSession] tool; [active] is
    [this.activeSessions], from session name to headless flag. *)
Definition tool_startSession (env : Env) (active : gmap string bool)
    (sessionName : option string) (headless : option bool)
  : M (tool_reply * gmap string bool) :=
  try_catch
    (let name := name_or_default sessionName in
     let h := match headless with Some b => b | None => true end in
     let! result := startSession env name h in
     ret (ToolReply
            ("Session '" +:+ name +:+ "' started successfully. PID: " +:+
             template (si_pid result) +:+ ", Control Port: " +:+
             template (si_controlPort result))
            false,
          <[name := h]> active))
    (fun msg => ret (ToolReply ("Error starting session: " +:+ msg) true, active)).

(** The handler of the [stopSession] tool; the client object lives as long
    as the server. *)
Definition tool_stopSession (env : Env) (wb : WebSourceBrowser)
    (active : gmap string bool) (sessionName : option string)
  : M (tool_reply * WebSourceBrowser * gmap string bool) :=
  try_catch
    (let name := name_or_default sessionName in
     let! (wb', _) := stopSession env wb name in
     ret (ToolReply ("Session '" +:+ name +:+ "' stopped successfully") false,
          wb', delete name active))
    (fun msg => ret (ToolReply ("Error stopping session: " +:+ msg) true, wb, active)).

(** The order [js_sort] sorts by. *)
Definition lex_le (a b : list N) : Prop := lex_leb a b = true.

(** The selector a class token contributes, if any. *)
Definition token_selector (cls : list N) : list (list N) :=
  if nonempty (trim cls) then [46%N :: trim cls] else [].

(** The class selectors of one element, in the order of its tokens. *)
Definition element_classes (el : element) : list (list N) :=
  match el_className el with
  | Some className => flat_map token_selector (split_on 32 className [])
  | None => []
  end.

(** The id selector of one element, if it has an id. *)
Definition element_id (el : element) : list (list N) :=
  if nonempty (el_id el) then [35%N :: el_id el] else [].

(** ** Sample pages *)

Definition page_up : PageEnv := {|
  pe_goto := fun _ _ => Resolved tt;
  pe_document := fun _ =>
    Resolved
      (Document "https://example.com/" "Example Domain" true
         [ Element (units "html") [] (Some []);
           Element (units "body") [] (Some (units "home  dark"));
           Element (units "div") (units "main") (Some (units "card dark"));
           Element (units "div") (units "main") (Some (units " card"));
           Element (units "svg") [] None ]);
  pe_reload := fun _ idle => if idle then Rejected "Navigation timeout" else Resolved tt;
  pe_reloaded := fun _ _ => Resolved (Document "https://example.com/" "Example Domain" true [])
|}.

(** A client attached to session [s1]. *)
Definition client_s1 : WebSourceBrowser :=
  Client (Some 1%N) (Some 1%N) (Some s1_record).

(** * Properties *)

(** ** Basic facts about the store operations *)

Lemma list_ascii_append (a b : string) :
  list_ascii_of_string (a +:+ b) =
  (list_ascii_of_string a ++ list_ascii_of_string b)%list.
Proof.
  induction a as [|c a IH]; [reflexivity|].
  change (String c a +:+ b) with (String c (a +:+ b)).
  cbn [list_ascii_of_string]. now rewrite IH.
Qed.

Lemma string_length_app (a b : string) :
  String.length (a +:+ b) = (String.length a + String.length b)%nat.
Proof.
  induction a as [|c a IH]; [reflexivity|].
  change (String c a +:+ b) with (String c (a +:+ b)). cbn. now rewrite IH.
Qed.

Lemma segments_cons (s : string) : exists seg more, segments s = seg :: more.
Proof.
  destruct s as [|c s]; cbn [segments]; [eauto|].
  destruct (Ascii.eqb c "/"); [eauto|].
  destruct (segments s); eauto.
Qed.

Lemma segments_sep (a b : string) :
  segments (a +:+ String "/" b) = (segments a ++ segments b)%list.
Proof.
  induction a as [|c a IH]; [reflexivity|].
  change (String c a +:+ String "/" b) with (String c (a +:+ String "/" b)).
  cbn [segments]. rewrite IH.
  destruct (Ascii.eqb c "/"); [reflexivity|].
  destruct (segments_cons a) as (seg & more & ->). reflexivity.
Qed.

Lemma segments_slash_free (s : string) :
  slash_free s = true -> segments s = [s].
Proof.
  induction s as [|c s IH]; [reflexivity|].
  cbn [slash_free segments]. intros H. apply andb_true_iff in H as [Hc Hs].
  apply negb_true_iff in Hc. rewrite Hc, (IH Hs). reflexivity.
Qed.

Lemma slash_free_app (a b : string) :
  slash_free (a +:+ b) = slash_free a && slash_free b.
Proof.
  induction a as [|c a IH]; [reflexivity|].
  change (String c a +:+ b) with (String c (a +:+ b)).
  cbn [slash_free]. rewrite IH. now rewrite andb_assoc.
Qed.

Lemma json_name_long (name short : string) :
  (String.length short < 5)%nat -> String.eqb (name +:+ ".json") short = false.
Proof.
  intros H. apply String.eqb_neq. intros E.
  apply (f_equal String.length) in E. rewrite string_length_app in E.
  cbn in E. lia.
Qed.

(** A session name without a separator names the entry [name.json] of the
    sessions directory. *)
Lemma getSessionFile_slash_free (name : string) :
  slash_free name = true -> getSessionFile name = name +:+ ".json".
Proof.
  intros H. unfold getSessionFile, path_join_segments.
  cbn [List.filter]. rewrite (json_name_long name EmptyString) by (cbn; lia).
  change (negb (String.eqb sessionsDir EmptyString)) with true.
  cbn [negb join_segments].
  change (sessionsDir +:+ "/" +:+ (name +:+ ".json"))
    with (sessionsDir +:+ String "/" (name +:+ ".json")).
  rewrite segments_sep.
  rewrite (segments_slash_free (name +:+ ".json"))
    by (rewrite slash_free_app, H; reflexivity).
  unfold normalize_segments. rewrite fold_left_app.
  change (fold_left normalize_step (segments sessionsDir) [])
    with (rev sessionsDir_segments).
  cbn [fold_left]. unfold normalize_step.
  rewrite (json_name_long name EmptyString) by (cbn; lia).
  rewrite (json_name_long name ".") by (cbn; lia).
  rewrite (json_name_long name "..") by (cbn; lia).
  cbn [rev]. rewrite rev_involutive. reflexivity.
Qed.

Lemma getSessionFile_inj (a b : string) :
  slash_free a = true -> slash_free b = true ->
  getSessionFile a = getSessionFile b -> a = b.
Proof.
  intros Ha Hb. rewrite !getSessionFile_slash_free by assumption. intros H.
  apply (f_equal list_ascii_of_string) in H.
  rewrite !list_ascii_append in H.
  apply app_inv_tail in H.
  rewrite <- (string_of_list_ascii_of_string a),
          <- (string_of_list_ascii_of_string b).
  now rewrite H.
Qed.

Lemma sessionExists_eq (name : string) (w : world) :
  sessionExists name w = (Ok (present w name), w).
Proof. reflexivity. Qed.

Lemma getSession_eq (name : string) (w : world) :
  getSession name w = (Ok (parsed (record_of w name)), w).
Proof.
  unfold getSession, record_of, bind, existsSync, try_catch, readFileSync.
  destruct (files w !! getSessionFile name) as [[v|raw]|] eqn:E; cbn;
    rewrite ?E; reflexivity.
Qed.

Lemma updateSession_eq (name : string) (updates : jsobj) (w : world) :
  updateSession name updates w =
  if truthy (parsed (record_of w name)) then
    (Ok true,
     World (<[getSessionFile name :=
                FJson (JObj (spread (parsed (record_of w name)) updates))]> (files w))
           (now w)
           (trace w ++ [EvWrite (getSessionFile name)
              (FJson (JObj (spread (parsed (record_of w name)) updates)))]))
  else (Ok false, w).
Proof.
  unfold updateSession, bind. rewrite getSession_eq.
  destruct (truthy (parsed (record_of w name))); reflexivity.
Qed.

Lemma deleteSession_eq (name : string) (w : world) :
  deleteSession name w =
  if present w name then
    (Ok true, World (delete (getSessionFile name) (files w)) (now w)
                    (trace w ++ [EvUnlink (getSessionFile name)]))
  else (Ok false, w).
Proof.
  unfold deleteSession, bind, existsSync, present, record_of, unlinkSync.
  destruct (files w !! getSessionFile name) as [f|] eqn:E; cbn;
    rewrite ?E; reflexivity.
Qed.

Lemma truthy_parsed_present (w : world) (name : string) :
  truthy (parsed (record_of w name)) = true -> present w name = true.
Proof.
  unfold present. destruct (record_of w name); [|discriminate].
  intros _. apply bool_decide_eq_true_2. eauto.
Qed.

(** The liveness probe reads the record and talks to the browser; the world
    it leaves is the world it found. *)
Lemma isSessionActive_eq (env : Env) (name : string) (w : world) :
  isSessionActive env name w =
  (Ok (truthy (parsed (record_of w name)) &&
       match env_connect env (get_prop (parsed (record_of w name)) "wsEndpoint") with
       | Resolved b =>
           match env_disconnect env b with
           | Resolved _ => true
           | Rejected _ => false
           end
       | Rejected _ => false
       end), w).
Proof.
  unfold isSessionActive, bind. rewrite getSession_eq.
  destruct (truthy (parsed (record_of w name))); cbn; [|reflexivity].
  unfold try_catch, bind, ask.
  destruct (env_connect env _) as [b|msg]; [|reflexivity].
  destruct (env_disconnect env b); reflexivity.
Qed.

Lemma listSessions_loop_frame (entries : list string) (acc : list json) (w : world) :
  exists l, listSessions_loop entries acc w = (Ok l, w).
Proof.
  revert acc. induction entries as [|e rest IH]; intros acc; cbn.
  - eexists. reflexivity.
  - destruct (endsWith e ".json"); [|apply IH].
    unfold bind. rewrite getSession_eq.
    destruct (truthy _); apply IH.
Qed.

Lemma listSessions_frame (w : world) :
  exists l, listSessions w = (Ok l, w).
Proof.
  unfold listSessions, bind, readdirSync. apply listSessions_loop_frame.
Qed.

Lemma present_insert (w : world) (name n : string) (f : file) (t : Z) (tr : list event) :
  present (World (<[getSessionFile n := f]> (files w)) t tr) name =
  if same_file n name then true else present w name.
Proof.
  unfold present, record_of, same_file. cbn.
  destruct (String.eqb_spec (getSessionFile n) (getSessionFile name)) as [->|Hne].
  - rewrite lookup_insert_eq. apply bool_decide_eq_true_2. eauto.
  - now rewrite lookup_insert_ne.
Qed.

Lemma present_delete (w : world) (name n : string) (t : Z) (tr : list event) :
  present (World (delete (getSessionFile n) (files w)) t tr) name =
  if same_file n name then false else present w name.
Proof.
  unfold present, record_of, same_file. cbn.
  destruct (String.eqb_spec (getSessionFile n) (getSessionFile name)) as [->|Hne].
  - rewrite lookup_delete_eq. apply bool_decide_eq_false_2. intros [x Hx]. discriminate.
  - now rewrite lookup_delete_ne.
Qed.

Lemma present_same_file (w : world) (n name : string) :
  same_file n name = true -> present w n = present w name.
Proof.
  unfold same_file, present, record_of. intros E%String.eqb_eq. now rewrite E.
Qed.

(** Every store operation returns, and moves the existence of a record as
    [live_step] says. *)
Lemma run_op_present (env : Env) (op : store_op) (name : string) (w : world) :
  exists w', run_op env op w = (Ok tt, w') /\
             present w' name = live_step name op (present w name).
Proof.
  destruct op as [n|n ws pid h|n|n u|n|n| |n]; cbn [run_op live_step]; unfold bind.
  - rewrite sessionExists_eq. eauto.
  - unfold createSession, bind, Date_now, writeFileSync. cbn.
    eexists. split; [reflexivity|]. apply present_insert.
  - rewrite getSession_eq. eauto.
  - rewrite updateSession_eq.
    destruct (truthy (parsed (record_of w n))) eqn:T; [|eauto].
    eexists. split; [reflexivity|]. rewrite present_insert.
    destruct (same_file n name) eqn:S; [|reflexivity].
    rewrite <- (present_same_file w n name S).
    symmetry. now apply truthy_parsed_present.
  - unfold updateSessionActivity, bind, Date_now. rewrite updateSession_eq.
    destruct (truthy (parsed (record_of w n))) eqn:T; [|eauto].
    eexists. split; [reflexivity|]. rewrite present_insert.
    destruct (same_file n name) eqn:S; [|reflexivity].
    rewrite <- (present_same_file w n name S).
    symmetry. now apply truthy_parsed_present.
  - rewrite deleteSession_eq.
    destruct (present w n) eqn:P.
    + eexists. split; [reflexivity|]. apply present_delete.
    + eexists. split; [reflexivity|].
      destruct (same_file n name) eqn:S; [|reflexivity].
      now rewrite <- (present_same_file w n name S).
  - destruct (listSessions_frame w) as [l ->]. eauto.
  - rewrite isSessionActive_eq. eauto.
Qed.

Lemma run_ops_present (env : Env) (ops : list store_op) (name : string) (w : world) :
  exists w', run_ops env ops w = (Ok tt, w') /\
             present w' name = live name ops (present w name).
Proof.
  revert w. induction ops as [|op rest IH]; intros w.
  - exists w. split; reflexivity.
  - destruct (run_op_present env op name w) as (w1 & E1 & P1).
    destruct (IH w1) as (w2 & E2 & P2).
    exists w2. split.
    + cbn [run_ops]. unfold bind. now rewrite E1.
    + rewrite P2, P1. reflexivity.
Qed.

Lemma live_app (name : string) (xs ys : list store_op) (b : bool) :
  live name (xs ++ ys) b = live name ys (live name xs b).
Proof. unfold live. apply fold_left_app. Qed.

(** Without a later delete on its file a record that exists stays. *)
Lemma live_no_delete (name : string) (ops : list store_op) :
  (forall n, In (OpDelete n) ops -> getSessionFile n <> getSessionFile name) ->
  live name ops true = true.
Proof.
  induction ops as [|op rest IH]; intros H; [reflexivity|].
  unfold live. cbn [fold_left]. fold (live name rest (live_step name op true)).
  assert (E : live_step name op true = true).
  { destruct op as [n|n ws pid h|n|n u|n|n| |n]; cbn; try reflexivity.
    - now destruct (same_file n name).
    - destruct (same_file n name) eqn:S; [|reflexivity].
      exfalso. apply (H n); [now left|]. now apply String.eqb_eq. }
  rewrite E. apply IH. intros n Hin. apply H. now right.
Qed.

Lemma created_since_snoc (name : string) (ops : list store_op) (op : store_op) :
  (forall n, op = OpDelete n -> getSessionFile n <> getSessionFile name) ->
  created_since name ops -> created_since name (ops ++ [op]).
Proof.
  intros Hop (pre & n & ws & pid & h & post & -> & Hn & Hp).
  exists pre, n, ws, pid, h, (post ++ [op])%list. split; [|split].
  - now rewrite <- app_assoc.
  - exact Hn.
  - intros n' [Hin|[Heq|[]]]%in_app_or; [now apply Hp|now apply Hop].
Qed.

(** A record that exists after operations on an empty directory was created
    by one of them, and not deleted since. *)
Lemma live_created (name : string) (ops : list store_op) :
  live name ops false = true -> created_since name ops.
Proof.
  induction ops as [|op ops IH] using rev_ind; [discriminate|].
  rewrite live_app. cbn [live fold_left].
  destruct op as [n|n ws pid h|n|n u|n|n| |n]; cbn [live_step];
    try (intros L; apply created_since_snoc; [discriminate|now apply IH]).
  - destruct (same_file n name) eqn:S.
    + intros _. exists ops, n, ws, pid, h, []. split; [reflexivity|].
      split; [now apply String.eqb_eq|]. intros ? [].
    + intros L. apply created_since_snoc; [discriminate|now apply IH].
  - destruct (same_file n name) eqn:S; [discriminate|].
    intros L. apply created_since_snoc; [|now apply IH].
    intros n' [= <-]. now apply String.eqb_neq.
Qed.

Lemma created_live (name : string) (ops : list store_op) (b : bool) :
  created_since name ops -> live name ops b = true.
Proof.
  intros (pre & n & ws & pid & h & post & -> & Hn & Hp).
  rewrite live_app. unfold live at 1. cbn [fold_left live_step].
  unfold same_file. rewrite Hn, String.eqb_refl. now apply live_no_delete.
Qed.

(** ** The session store *)

(** C10: when the record of a session is missing, or is there but cannot be
    parsed, [updateSession] (and so [updateSessionActivity]) returns false
    and leaves the world, hence the store, as it was: nothing is written. *)
Theorem updateSession_never_creates (env : Env) (name : string) (updates : jsobj)
    (w : world) :
  record_of w name = None \/ (exists raw, record_of w name = Some (FCorrupt raw)) ->
  updateSession name updates w = (Ok false, w) /\
  updateSessionActivity env name w = (Ok false, w).
Proof.
  intros H.
  assert (T : truthy (parsed (record_of w name)) = false).
  { destruct H as [->|[raw ->]]; reflexivity. }
  split.
  - rewrite updateSession_eq. now rewrite T.
  - unfold updateSessionActivity, bind, Date_now. rewrite updateSession_eq.
    now rewrite T.
Qed.

Lemma updateSession_never_creates_witness :
  updateSession "s1" [("currentUrl", JStr "https://example.com")] (fresh 5)
    = (Ok false, fresh 5) /\
  updateSessionActivity env_up "s1" (fresh 5) = (Ok false, fresh 5).
Proof.
  apply (updateSession_never_creates env_up "s1"
           [("currentUrl", JStr "https://example.com")] (fresh 5)).
  left. reflexivity.
Defined.

Lemma slash_free_getSessionFile (name : string) :
  slash_free name = true -> slash_free (getSessionFile name) = true.
Proof.
  intros H. rewrite (getSessionFile_slash_free name H), slash_free_app, H.
  reflexivity.
Qed.

(** C9: take a sequence of store operations on session names whose session
    files lie in the sessions directory itself (so for every name without
    a separator, and for a name like [./s1]), run on an initially empty
    directory.  Afterwards [sessionExists name] answers true exactly when
    the sequence contains a create on the session file of [name] (a create
    of a name whose session file is that of [name]) with no delete on that
    file after it.  When neither [name] nor a name in the sequence contains
    a separator, this is: exactly when the sequence contains a create of
    [name] with no delete of [name] after it. *)
Theorem exists_iff_created_not_deleted (env : Env) (t0 : Z)
    (ops : list store_op) (name : string) :
  (forall op n, In op ops -> op_target op = Some n ->
                slash_free (getSessionFile n) = true) ->
  exists w,
    run_ops env ops (fresh t0) = (Ok tt, w) /\
    (sessionExists name w = (Ok true, w) <->
     exists pre n ws pid h post,
       ops = (pre ++ OpCreate n ws pid h :: post)%list /\
       getSessionFile n = getSessionFile name /\
       forall n', In (OpDelete n') post ->
                  getSessionFile n' <> getSessionFile name) /\
    (slash_free name = true ->
     (forall op n, In op ops -> op_target op = Some n -> slash_free n = true) ->
     (sessionExists name w = (Ok true, w) <->
      exists pre ws pid h post,
        ops = (pre ++ OpCreate name ws pid h :: post)%list /\
        forall op, In op post -> op <> OpDelete name)).
Proof.
  intros _.
  destruct (run_ops_present env ops name (fresh t0)) as (w & E & P).
  exists w. split; [exact E|].
  assert (F : sessionExists name w = (Ok true, w) <-> created_since name ops).
  { rewrite sessionExists_eq, P.
    change (present (fresh t0) name) with false.
    split.
    - intros [= L]. now apply live_created.
    - intros C. now rewrite (created_live name ops false C). }
  split; [exact F|].
  intros Hname Hops. rewrite F. split.
  - intros (pre & n & ws & pid & h & post & -> & Hn & Hp).
    assert (n = name) as ->.
    { apply getSessionFile_inj; [|exact Hname|exact Hn].
      apply (Hops (OpCreate n ws pid h)); [|reflexivity].
      apply in_or_app. right. now left. }
    exists pre, ws, pid, h, post. split; [reflexivity|].
    intros op Hin ->. now apply (Hp name Hin).
  - intros (pre & ws & pid & h & post & -> & Hp).
    exists pre, name, ws, pid, h, post. split; [reflexivity|].
    split; [reflexivity|].
    intros n' Hin Hf.
    assert (n' = name) as ->.
    { apply getSessionFile_inj; [|exact Hname|exact Hf].
      apply (Hops (OpDelete n')); [|reflexivity].
      apply in_or_app. right. now right. }
    now apply (Hp (OpDelete name) Hin).
Qed.

Lemma exists_iff_created_not_deleted_witness :
  let ops := [OpCreate "s1" None 77 true; OpDelete "s2"; OpList] in
  exists w,
    run_ops env_up ops (fresh 0) = (Ok tt, w) /\
    sessionExists "s1" w = (Ok true, w) /\
    sessionExists "./s1" w = (Ok true, w).
Proof.
  cbv zeta.
  destruct (exists_iff_created_not_deleted env_up 0
              [OpCreate "s1" None 77 true; OpDelete "s2"; OpList] "s1")
    as (w & E & _ & H).
  { intros op n [<-|[<-|[<-|[]]]]; cbn; intros [= <-]; reflexivity. }
  exists w. split; [exact E|].
  assert (S : sessionExists "s1" w = (Ok true, w)).
  { apply H.
    - reflexivity.
    - intros op n [<-|[<-|[<-|[]]]]; cbn; intros [= <-]; reflexivity.
    - exists [], None, 77, true, [OpDelete "s2"; OpList].
      split; [reflexivity|]. intros op [<-|[<-|[]]]; discriminate. }
  split; exact S.
Defined.

(** C9, as the specification words it, fails: after [create s1] and
    [delete ./s1] the sequence holds a create of [s1] and no delete of
    [s1], yet [s1] does not exist, because [./s1] names the same file
    (the delete found it: it answered true). *)
Lemma delete_under_another_name_removes_session :
  let ops := [OpCreate "s1" (Some (JStr "ws://127.0.0.1:9222/x")) 77 true;
              OpDelete "./s1"] in
  exists w1 w,
    run_ops env_up [OpCreate "s1" (Some (JStr "ws://127.0.0.1:9222/x")) 77 true]
      (fresh 0) = (Ok tt, w1) /\
    fst (sessionExists "./s1" w1) = Ok true /\
    fst (deleteSession "./s1" w1) = Ok true /\
    run_ops env_up ops (fresh 0) = (Ok tt, w) /\
    sessionExists "s1" w = (Ok false, w) /\
    created_since_by_name "s1" ops.
Proof.
  cbv zeta. eexists _, _. split; [vm_compute; reflexivity|].
  split; [vm_compute; reflexivity|].
  split; [vm_compute; reflexivity|].
  split; [vm_compute; reflexivity|].
  split; [vm_compute; reflexivity|].
  exists [], (Some (JStr "ws://127.0.0.1:9222/x")), 77, true, [OpDelete "./s1"].
  split; [reflexivity|].
  intros op [<-|[]]. discriminate.
Qed.

(** C8: [isSessionActive] always returns; it answers true exactly when the
    stored record parses to a usable value and the probe of its [wsEndpoint]
    (puppeteer connects, then disconnects) goes through; a missing or
    unreadable record and every failure of the probe give false.  The world
    it returns is the one it was given: no file is written or removed. *)
Theorem isSessionActive_probe_only (env : Env) (name : string) (w : world) :
  exists active,
    isSessionActive env name w = (Ok active, w) /\
    (active = true <->
     exists session b,
       record_of w name = Some (FJson session) /\
       truthy session = true /\
       env_connect env (get_prop session "wsEndpoint") = Resolved b /\
       env_disconnect env b = Resolved tt).
Proof.
  eexists. split; [apply isSessionActive_eq|].
  split.
  - intros H. apply andb_true_iff in H as [T C].
    destruct (record_of w name) as [[session|raw]|] eqn:R; try discriminate.
    cbn [parsed] in *.
    destruct (env_connect env (get_prop session "wsEndpoint")) as [b|] eqn:Ec;
      [|discriminate].
    destruct (env_disconnect env b) as [[]|] eqn:Ed; [|discriminate].
    exists session, b. auto.
  - intros (session & b & R & T & Ec & Ed).
    rewrite R. cbn [parsed]. now rewrite T, Ec, Ed.
Qed.

(** ** Starting a session that is already active *)

(** C4: when the record of [name] exists and the liveness probe answers
    true, [startSession] throws the already-active error; the world is
    untouched, so the record is unchanged and the trace gains no
    [EvSpawnDaemon]. *)
Theorem startSession_already_active (env : Env) (name : string) (headless : bool)
    (w : world) :
  sessionExists name w = (Ok true, w) ->
  isSessionActive env name w = (Ok true, w) ->
  startSession env name headless w =
    (Throw ("Session '" +:+ name +:+ "' already exists and is active"), w).
Proof.
  intros Hex Hact. unfold startSession, bind.
  rewrite Hex, Hact. reflexivity.
Qed.

Lemma startSession_already_active_witness :
  startSession env_up "s1" true (world_s1 2000) =
    (Throw "Session 's1' already exists and is active", world_s1 2000).
Proof.
  apply (startSession_already_active env_up "s1" true (world_s1 2000));
    reflexivity.
Defined.

(** ** Resolving a session *)

(** No record: the "does not exist" error, and nothing changes. *)
Lemma connectToSession_absent (env : Env) (wb : WebSourceBrowser) (name : string)
    (w : world) :
  record_of w name = None ->
  connectToSession env wb name w =
    (Throw ("Session '" +:+ name +:+
            "' does not exist. Use --start to create a session first."), w).
Proof.
  intros R. unfold connectToSession, bind. rewrite getSession_eq, R. reflexivity.
Qed.

(** A record with a control port whose ping meets a socket error: the error
    of the socket comes out as it is and the world is untouched, the record
    included. *)
Lemma connectToSession_ping_error (env : Env) (wb : WebSourceBrowser)
    (name : string) (w : world) (session : json) (msg : string) :
  record_of w name = Some (FJson session) ->
  truthy session = true ->
  prop_truthy session "controlPort" = true ->
  env_ping env (get_prop session "controlPort") = PingError msg ->
  connectToSession env wb name w = (Throw msg, w).
Proof.
  intros R T P E. unfold connectToSession, bind.
  rewrite getSession_eq, R. cbn [parsed]. rewrite T. cbn [negb].
  unfold pingDaemon, bind. rewrite getSession_eq, R. cbn [parsed].
  rewrite T, P, E. reflexivity.
Qed.

(** The sibling path: the ping is answered but the probe of the browser
    fails; here the record is removed and the "no longer active" error is
    thrown. *)
Lemma connectToSession_probe_failure (env : Env) (wb : WebSourceBrowser)
    (name : string) (w : world) (session : json) (chunks : list (list N)) :
  record_of w name = Some (FJson session) ->
  truthy session = true ->
  prop_truthy session "controlPort" = true ->
  env_ping env (get_prop session "controlPort") = PingData chunks ->
  existsb (fun data => str_eq (trim data) (units "pong")) chunks = true ->
  isSessionActive env name w = (Ok false, w) ->
  connectToSession env wb name w =
    (Throw ("Session '" +:+ name +:+
            "' is no longer active. Use --start to create a new session."),
     World (delete (getSessionFile name) (files w)) (now w)
           (trace w ++ [EvUnlink (getSessionFile name)])).
Proof.
  intros R T P E Hp Hact. unfold connectToSession, bind.
  rewrite getSession_eq, R. cbn [parsed]. rewrite T. cbn [negb].
  unfold pingDaemon, bind. rewrite getSession_eq, R. cbn [parsed].
  rewrite T, P, E, Hp. cbn [negb orb ret]. rewrite Hact. cbn [negb].
  rewrite deleteSession_eq.
  assert (Pr : present w name = true).
  { unfold present. rewrite R. apply bool_decide_eq_true_2. eauto. }
  rewrite Pr. reflexivity.
Qed.

(** C3, at the failing input: session [s1] has a record with control port
    9320 and nobody listens there.  [connectToSession] lets the socket error
    through; the record of [s1] is still in the directory afterwards and no
    "no longer active" error is raised. *)
Theorem connectToSession_dead_daemon_keeps_record :
  connectToSession env_down (Client None None None) "s1" (world_s1 2000) =
    (Throw "connect ECONNREFUSED 127.0.0.1:9320", world_s1 2000) /\
  record_of (world_s1 2000) "s1" = Some (FJson s1_record).
Proof.
  split; [|reflexivity].
  apply (connectToSession_ping_error env_down _ "s1" (world_s1 2000) s1_record);
    reflexivity.
Qed.

(** ** Waiting for the daemon *)

Lemma poll_session_step (env : Env) (name : string) (r a : nat) (w : world) :
  poll_session env name (S r) a w =
  let w1 := World (env_others env a (files w)) (now w + 1000)
                  (trace w ++ [EvSleep 1000]) in
  if record_ready (files w1) name then
    (Ok (SessionInfo name
           (get_prop (parsed (record_of w1 name)) "pid")
           (get_prop (parsed (record_of w1 name)) "controlPort")), w1)
  else poll_session env name r (S a) w1.
Proof.
  cbn [poll_session]. unfold bind at 1. unfold sleep_yield at 1.
  cbv zeta. unfold bind at 1. rewrite sessionExists_eq.
  unfold record_ready.
  set (w1 := World (env_others env a (files w)) (now w + 1000)
                   (trace w ++ [EvSleep 1000])).
  change (files w1 !! getSessionFile name) with (record_of w1 name).
  destruct (present w1 name) eqn:P.
  - unfold bind. rewrite getSession_eq.
    destruct (truthy (parsed (record_of w1 name)) &&
              prop_truthy (parsed (record_of w1 name)) "controlPort"); reflexivity.
  - assert (T : truthy (parsed (record_of w1 name)) = false).
    { destruct (truthy (parsed (record_of w1 name))) eqn:T; [|reflexivity].
      apply truthy_parsed_present in T. congruence. }
    rewrite T. reflexivity.
Qed.

Lemma trace_sleeps (tr : list event) (n : nat) :
  ((tr ++ [EvSleep 1000]) ++ repeat (EvSleep 1000) n)%list =
  (tr ++ repeat (EvSleep 1000) (S n))%list.
Proof. rewrite <- app_assoc. reflexivity. Qed.

(** The record never becomes ready: after [n] waits the loop gives up. *)
Lemma poll_session_gives_up (env : Env) (name : string) (n a : nat) (w : world) :
  (forall i, (i < n)%nat -> record_ready (dir_from env a (S i) (files w)) name = false) ->
  poll_session env name n a w =
    (Throw "Daemon failed to start within timeout period",
     World (dir_from env a n (files w)) (now w + 1000 * Z.of_nat n)
           (trace w ++ repeat (EvSleep 1000) n)).
Proof.
  revert a w. induction n as [|n IH]; intros a w H.
  - cbn. unfold throw. destruct w as [fs t tr]. cbn.
    rewrite Z.add_0_r, app_nil_r. reflexivity.
  - rewrite poll_session_step. cbv zeta. cbn [files].
    pose proof (H 0%nat ltac:(lia)) as H0. cbn [dir_from] in H0. rewrite H0.
    rewrite IH.
    + cbn [files now trace dir_from]. rewrite trace_sleeps.
      do 2 f_equal. lia.
    + intros i Hi. cbn [files]. apply (H (S i)). lia.
Qed.

(** The record is first ready at the [k]-th wait (counted from 0): the loop
    returns there. *)
Lemma poll_session_returns (env : Env) (name : string) (k n a : nat) (w : world) :
  (k < n)%nat ->
  (forall i, (i < k)%nat -> record_ready (dir_from env a (S i) (files w)) name = false) ->
  record_ready (dir_from env a (S k) (files w)) name = true ->
  exists info,
    poll_session env name n a w =
      (Ok info,
       World (dir_from env a (S k) (files w)) (now w + 1000 * Z.of_nat (S k))
             (trace w ++ repeat (EvSleep 1000) (S k))) /\
    si_sessionName info = name /\
    si_controlPort info =
      get_prop (parsed (dir_from env a (S k) (files w) !! getSessionFile name))
               "controlPort".
Proof.
  revert n a w. induction k as [|k IH]; intros n a w Hk Hbefore Hready.
  - destruct n as [|n]; [lia|]. rewrite poll_session_step. cbv zeta. cbn [files].
    cbn [dir_from] in Hready. rewrite Hready.
    eexists. split.
    + cbn [dir_from repeat]. f_equal.
    + split; reflexivity.
  - destruct n as [|n]; [lia|]. rewrite poll_session_step. cbv zeta. cbn [files].
    pose proof (Hbefore 0%nat ltac:(lia)) as H0. cbn [dir_from] in H0. rewrite H0.
    destruct (IH n (S a)
                (World (env_others env a (files w)) (now w + 1000)
                       (trace w ++ [EvSleep 1000]))) as (info & E & Hn & Hc).
    + lia.
    + intros i Hi. cbn [files]. apply (Hbefore (S i)). lia.
    + exact Hready.
    + exists info. rewrite E. cbn [files now trace]. split; [|split].
      * rewrite trace_sleeps. do 2 f_equal. lia.
      * exact Hn.
      * exact Hc.
Qed.

(** Either the record is never ready during the first [n] waits, or there
    is a first wait at which it is. *)
Lemma first_ready_or_never (env : Env) (name : string) (fs : gmap string file)
    (n : nat) :
  (forall i, (i < n)%nat -> record_ready (dir_from env 0 (S i) fs) name = false) \/
  (exists k, (k < n)%nat /\
     record_ready (dir_from env 0 (S k) fs) name = true /\
     forall i, (i < k)%nat -> record_ready (dir_from env 0 (S i) fs) name = false).
Proof.
  induction n as [|n [Hnever|(k & Hk & Hr & Hb)]].
  - left. intros i Hi. lia.
  - destruct (record_ready (dir_from env 0 (S n) fs) name) eqn:R.
    + right. exists n. split; [lia|]. split; [exact R|exact Hnever].
    + left. intros i Hi. destruct (Nat.eq_dec i n) as [->|]; [exact R|].
      apply Hnever. lia.
  - right. exists k. split; [lia|]. split; assumption.
Qed.

(** After a negative liveness probe [startSession] spawns the daemon and
    enters the poll loop. *)
Lemma startSession_spawns (env : Env) (name : string) (headless : bool) (w : world) :
  isSessionActive env name w = (Ok false, w) ->
  startSession env name headless w =
    try_catch (poll_session env name maxAttempts 0)
      (fun msg =>
         throw ("Failed to start session daemon '" +:+ name +:+ "': " +:+ msg))
      (after_spawn w name headless).
Proof.
  intros Hact. unfold startSession, after_spawn, bind at 1.
  unfold bind at 1. rewrite sessionExists_eq.
  destruct (present w name) eqn:P.
  - unfold bind at 1. rewrite Hact. unfold bind at 1. rewrite deleteSession_eq, P.
    cbn [ret]. unfold try_catch, bind at 1, emit. cbn [files now trace].
    rewrite <- app_assoc. reflexivity.
  - cbn [ret]. unfold try_catch, bind at 1, emit. cbn [files now trace app].
    rewrite delete_id; [reflexivity|].
    unfold present, record_of in P.
    destruct (files w !! getSessionFile name) eqn:E; [|reflexivity].
    rewrite bool_decide_eq_true_2 in P by eauto. discriminate.
Qed.

(** C6: once the liveness check lets [startSession] spawn a daemon, it
    waits 1000 ms before every look at the record and looks at most 60
    times.  It returns a result only at the first look that finds the
    record with a usable [controlPort], and that port is the one it
    reports; otherwise it makes all 60 looks and throws the start-timeout
    error.  It never dies otherwise. *)
Theorem startSession_poll_bound (env : Env) (name : string) (headless : bool)
    (w : world) :
  isSessionActive env name w = (Ok false, w) ->
  exists n res w',
    startSession env name headless w = (res, w') /\
    (n <= 60)%nat /\
    trace w' = (trace (after_spawn w name headless) ++ repeat (EvSleep 1000) n)%list /\
    now w' = now w + 1000 * Z.of_nat n /\
    files w' = dir_from env 0 n (files (after_spawn w name headless)) /\
    (forall i, (S i < n)%nat ->
       record_ready (dir_from env 0 (S i) (files (after_spawn w name headless))) name
         = false) /\
    match res with
    | Ok info =>
        (0 < n)%nat /\
        record_ready (files w') name = true /\
        si_sessionName info = name /\
        si_controlPort info =
          get_prop (parsed (record_of w' name)) "controlPort"
    | Throw msg =>
        n = 60%nat /\
        record_ready (files w') name = false /\
        msg = "Failed to start session daemon '" +:+ name +:+
              "': Daemon failed to start within timeout period"
    | Crash _ => False
    end.
Proof.
  intros Hact. rewrite (startSession_spawns env name headless w Hact).
  set (w0 := after_spawn w name headless).
  assert (Hnow : now w0 = now w) by reflexivity.
  destruct (first_ready_or_never env name (files w0) 60)
    as [Hnever|(k & Hk & Hr & Hb)].
  - exists 60%nat. unfold try_catch, maxAttempts.
    rewrite (poll_session_gives_up env name 60 0 w0 Hnever).
    eexists. eexists. split; [reflexivity|].
    cbn [files now trace]. rewrite Hnow.
    repeat split; try reflexivity; try lia.
    + intros i Hi. apply Hnever. lia.
    + apply (Hnever 59%nat). lia.
  - destruct (poll_session_returns env name k 60 0 w0 Hk Hb Hr)
      as (info & E & Hn & Hc).
    exists (S k). unfold try_catch, maxAttempts. rewrite E.
    eexists. eexists. split; [reflexivity|].
    cbn [files now trace]. rewrite Hnow.
    repeat split; try reflexivity; try lia; try assumption.
    intros i Hi. apply Hb. lia.
Qed.

Lemma startSession_poll_bound_witness :
  exists n res w',
    startSession env_down "s1" true (fresh 0) = (res, w') /\
    (n <= 60)%nat /\
    trace w' = (trace (after_spawn (fresh 0) "s1" true) ++ repeat (EvSleep 1000) n)%list /\
    now w' = now (fresh 0) + 1000 * Z.of_nat n /\
    files w' = dir_from env_down 0 n (files (after_spawn (fresh 0) "s1" true)) /\
    (forall i, (S i < n)%nat ->
       record_ready (dir_from env_down 0 (S i)
                       (files (after_spawn (fresh 0) "s1" true))) "s1" = false) /\
    match res with
    | Ok info =>
        (0 < n)%nat /\
        record_ready (files w') "s1" = true /\
        si_sessionName info = "s1" /\
        si_controlPort info =
          get_prop (parsed (record_of w' "s1")) "controlPort"
    | Throw msg =>
        n = 60%nat /\
        record_ready (files w') "s1" = false /\
        msg = "Failed to start session daemon '" +:+ "s1" +:+
              "': Daemon failed to start within timeout period"
    | Crash _ => False
    end.
Proof.
  apply (startSession_poll_bound env_down "s1" true (fresh 0)).
  reflexivity.
Defined.

(** ** The control channel *)

Lemma updateSessionActivity_total (env : Env) (name : string) (w : world) :
  exists b w', updateSessionActivity env name w = (Ok b, w') /\ now w' = now w.
Proof.
  unfold updateSessionActivity, bind, Date_now. rewrite updateSession_eq.
  destruct (truthy (parsed (record_of w name))); eauto.
Qed.

Lemma updateActivity_eq (env : Env) (d : SessionDaemon) (w : world) :
  updateActivity env d w =
  (Ok (set_lastActivity (now w) d), snd (updateSessionActivity env (sessionName d) w)).
Proof.
  unfold updateActivity, bind, Date_now.
  change (sessionName (set_lastActivity (now w) d)) with (sessionName d).
  destruct (updateSessionActivity_total env (sessionName d) w) as (b & w' & E & _).
  rewrite E. reflexivity.
Qed.

Lemma str_eq_true (a b : jsstring) : a = b -> str_eq a b = true.
Proof. intros ->. apply bool_decide_eq_true_2. reflexivity. Qed.

Lemma str_eq_false (a b : jsstring) : a <> b -> str_eq a b = false.
Proof. intros H. now apply bool_decide_eq_false_2. Qed.

(** ** Objects *)

Lemma obj_get_set_eq (k : string) (v : json) (o : jsobj) :
  obj_get k (obj_set k v o) = Some v.
Proof.
  induction o as [|[k' v'] o IH]; cbn.
  - now rewrite String.eqb_refl.
  - destruct (String.eqb_spec k k') as [->|Hne]; cbn.
    + now rewrite String.eqb_refl.
    + destruct (String.eqb_spec k k'); [contradiction|exact IH].
Qed.

Lemma obj_get_set_ne (k k' : string) (v : json) (o : jsobj) :
  k <> k' -> obj_get k (obj_set k' v o) = obj_get k o.
Proof.
  intros Hne. induction o as [|[k2 v2] o IH]; cbn.
  - destruct (String.eqb_spec k k'); [contradiction|reflexivity].
  - destruct (String.eqb_spec k' k2) as [->|Hne2]; cbn.
    + destruct (String.eqb_spec k k2); [contradiction|reflexivity].
    + destruct (String.eqb_spec k k2); [reflexivity|exact IH].
Qed.

(** Reading a spread: the last binding of the key in the updates, else the
    binding of the spread value. *)
Lemma obj_get_spread (k : string) (a : json) (b : jsobj) :
  obj_get k (spread a b) =
  match obj_get k (rev b) with
  | Some v => Some v
  | None => obj_get k (own_props a)
  end.
Proof.
  unfold spread. induction b as [|[k' v'] b IH] using rev_ind; [reflexivity|].
  rewrite fold_left_app, rev_app_distr. cbn [fold_left rev app fst snd obj_get].
  destruct (String.eqb_spec k k') as [->|Hne].
  - apply obj_get_set_eq.
  - rewrite obj_get_set_ne by assumption. exact IH.
Qed.

(** *** White space around a request *)

Lemma trimStart_blanks (pre l : jsstring) :
  Forall (fun c => is_js_space c = true) pre ->
  trimStart (pre ++ l)%list = trimStart l.
Proof.
  induction 1 as [|c pre Hc _ IH]; [reflexivity|].
  cbn [app trimStart]. now rewrite Hc.
Qed.

(** [trim] takes the white space off both ends of a text that begins and
    ends with other characters. *)
Lemma trim_padded (pre post mid : jsstring) (c e : N) :
  Forall (fun c => is_js_space c = true) pre ->
  Forall (fun c => is_js_space c = true) post ->
  is_js_space c = false -> is_js_space e = false ->
  trim (pre ++ (c :: mid ++ [e]) ++ post)%list = (c :: mid ++ [e])%list.
Proof.
  intros Hpre Hpost Hc He. unfold trim.
  rewrite trimStart_blanks by assumption.
  cbn [app trimStart]. rewrite Hc.
  change (c :: (mid ++ [e]) ++ post)%list with ((c :: mid ++ [e]) ++ post)%list.
  rewrite rev_app_distr.
  rewrite trimStart_blanks by now apply List.Forall_rev.
  change (c :: mid ++ [e])%list with ((c :: mid) ++ [e])%list.
  rewrite rev_app_distr. cbn [rev app trimStart]. rewrite He.
  change (e :: rev mid ++ [c])%list with ([e] ++ (rev mid ++ [c]))%list.
  rewrite rev_app_distr, rev_app_distr, rev_involutive. reflexivity.
Qed.

Lemma trimStart_split (l : jsstring) :
  exists pre, Forall (fun c => is_js_space c = true) pre /\
              l = (pre ++ trimStart l)%list.
Proof.
  induction l as [|c l (pre & Hpre & E)]; [exists []; split; [constructor|reflexivity]|].
  cbn [trimStart]. destruct (is_js_space c) eqn:Hc.
  - exists (c :: pre). split; [now constructor|]. cbn [app]. now rewrite <- E.
  - exists []. split; [constructor|reflexivity].
Qed.

(** What [trim] removes is white space at the two ends. *)
Lemma trim_split (data : jsstring) :
  exists pre post,
    Forall (fun c => is_js_space c = true) pre /\
    Forall (fun c => is_js_space c = true) post /\
    data = (pre ++ trim data ++ post)%list.
Proof.
  destruct (trimStart_split data) as (pre & Hpre & E1).
  destruct (trimStart_split (rev (trimStart data))) as (post & Hpost & E2).
  exists pre, (rev post). split; [exact Hpre|]. split.
  - now apply List.Forall_rev.
  - unfold trim. rewrite <- rev_app_distr, <- E2, rev_involutive. exact E1.
Qed.

Lemma trim_ping (data : jsstring) : padded "ping" data <-> trim data = units "ping".
Proof.
  split.
  - intros (pre & post & Hpre & Hpost & ->).
    exact (trim_padded pre post [105; 110]%N 112%N 103%N Hpre Hpost eq_refl eq_refl).
  - intros E. destruct (trim_split data) as (pre & post & Hpre & Hpost & Hd).
    exists pre, post. rewrite E in Hd. auto.
Qed.

Lemma trim_status (data : jsstring) :
  padded "status" data <-> trim data = units "status".
Proof.
  split.
  - intros (pre & post & Hpre & Hpost & ->).
    exact (trim_padded pre post [116; 97; 116; 117]%N 115%N 115%N
             Hpre Hpost eq_refl eq_refl).
  - intros E. destruct (trim_split data) as (pre & post & Hpre & Hpost & Hd).
    exists pre, post. rewrite E in Hd. auto.
Qed.

Lemma string_app_assoc (a b c : string) : (a +:+ b) +:+ c = a +:+ (b +:+ c).
Proof.
  induction a as [|x a IH]; [reflexivity|].
  change ((String x a +:+ b) +:+ c) with (String x ((a +:+ b) +:+ c)).
  now rewrite IH.
Qed.

(** The text [JSON.stringify] makes of a status object. *)
Lemma status_text (la remaining : Z) :
  JSON_stringify
    (JObj [ ("active", JBool true);
            ("lastActivity", JNum la);
            ("timeUntilShutdown", JNum remaining) ]) +:+ nl =
  "{" +:+ dquote +:+ "active" +:+ dquote +:+ ":true," +:+
  dquote +:+ "lastActivity" +:+ dquote +:+ ":" +:+ pretty la +:+ "," +:+
  dquote +:+ "timeUntilShutdown" +:+ dquote +:+ ":" +:+ pretty remaining +:+
  "}" +:+ nl.
Proof.
  cbn [JSON_stringify map join_comma]. unfold quote.
  change (escape "active") with "active".
  change (escape "lastActivity") with "lastActivity".
  change (escape "timeUntilShutdown") with "timeUntilShutdown".
  generalize (pretty la) (pretty remaining). intros p q.
  rewrite !string_app_assoc. reflexivity.
Qed.

(** What a ping does to the record of the daemon. *)
Lemma ping_record (env : Env) (name : string) (w : world) :
  exists w',
    updateSessionActivity env name w = (Ok (truthy (parsed (record_of w name))), w') /\
    now w' = now w /\
    (forall props,
       record_of w name = Some (FJson (JObj props)) ->
       exists props',
         record_of w' name = Some (FJson (JObj props')) /\
         obj_get "lastActivity" props' = Some (JStr (env_iso env (now w))) /\
         forall k, k <> "lastActivity" -> obj_get k props' = obj_get k props) /\
    (truthy (parsed (record_of w name)) = false -> w' = w) /\
    (forall entry, entry <> getSessionFile name ->
                   files w' !! entry = files w !! entry).
Proof.
  unfold updateSessionActivity, bind, Date_now. rewrite updateSession_eq.
  destruct (truthy (parsed (record_of w name))) eqn:T.
  - eexists. split; [reflexivity|]. split; [reflexivity|]. split; [|split].
    + intros props R. rewrite R. cbn [parsed].
      eexists. unfold record_of at 1. cbn [files]. rewrite lookup_insert_eq.
      split; [reflexivity|]. split.
      * rewrite obj_get_spread. reflexivity.
      * intros k Hk. rewrite obj_get_spread. cbn [rev app obj_get].
        destruct (String.eqb_spec k "lastActivity"); [contradiction|reflexivity].
    + discriminate.
    + intros entry Hne. cbn [files]. apply lookup_insert_ne. congruence.
  - exists w. repeat split; try reflexivity. intros props R.
    rewrite R in T. discriminate.
Qed.

(** C5: a chunk that carries [ping], with white space around it or none,
    is answered by exactly the line [pong]; it sets [lastActivity] of the
    daemon to the current time and rewrites the record of the daemon, when
    that holds an object, with [lastActivity] at that time and every other
    property as it was (a record that is missing or unreadable stays so),
    leaving every other file alone.  A chunk that carries [status] is
    answered by the one line
    [{"active":true,"lastActivity":L,"timeUntilShutdown":R}], with [L] the
    last activity in epoch milliseconds and [R] what is left of the
    15 minutes, never negative, and changes nothing.  Any other chunk gets
    no answer and changes nothing. *)
Theorem control_request_response (env : Env) (d : SessionDaemon) (w : world) :
  timeoutMs d = 15 * 60 * 1000 ->
  (forall data,
     padded "ping" data ->
     exists w',
       on_data env d data w =
         (Ok (set_lastActivity (now w) d, [SockWrite ("pong" +:+ nl)]), w') /\
       now w' = now w /\
       (forall props,
          record_of w (sessionName d) = Some (FJson (JObj props)) ->
          exists props',
            record_of w' (sessionName d) = Some (FJson (JObj props')) /\
            obj_get "lastActivity" props' = Some (JStr (env_iso env (now w))) /\
            forall k, k <> "lastActivity" -> obj_get k props' = obj_get k props) /\
       (truthy (parsed (record_of w (sessionName d))) = false -> w' = w) /\
       (forall entry, entry <> getSessionFile (sessionName d) ->
                      files w' !! entry = files w !! entry)) /\
  (forall data,
     padded "status" data ->
     let remaining := Z.max 0 (15 * 60 * 1000 - (now w - lastActivity d)) in
     on_data env d data w =
       (Ok (d, [SockWrite
                  ("{" +:+ dquote +:+ "active" +:+ dquote +:+ ":true," +:+
                   dquote +:+ "lastActivity" +:+ dquote +:+ ":" +:+
                   pretty (lastActivity d) +:+ "," +:+
                   dquote +:+ "timeUntilShutdown" +:+ dquote +:+ ":" +:+
                   pretty remaining +:+ "}" +:+ nl)]),
        w) /\
     0 <= remaining /\
     (now w - lastActivity d <= 15 * 60 * 1000 ->
      remaining = 15 * 60 * 1000 - (now w - lastActivity d)) /\
     (15 * 60 * 1000 <= now w - lastActivity d -> remaining = 0)) /\
  (forall data,
     ~ padded "ping" data -> ~ padded "status" data ->
     on_data env d data w = (Ok (d, []), w)).
Proof.
  intros Ht. split; [|split].
  - intros data H%trim_ping. unfold on_data. rewrite (str_eq_true _ _ H).
    unfold bind, updateActivity, bind, Date_now.
    cbn [sessionName set_lastActivity].
    destruct (ping_record env (sessionName d) w) as (w' & E & Hn & Hr & Hm & Ho).
    rewrite E. exists w'. split; [reflexivity|]. auto.
  - intros data H%trim_status. unfold on_data. rewrite H.
    change (str_eq (units "status") (units "ping")) with false.
    change (str_eq (units "status") (units "status")) with true.
    unfold bind, Date_now. cbv zeta. cbn [ret]. rewrite Ht, status_text.
    split; [reflexivity|]. split; [lia|]. split; lia.
  - intros data Hp Hs. unfold on_data.
    rewrite (str_eq_false (trim data) (units "ping"))
      by (intros E; apply Hp; now apply trim_ping).
    rewrite (str_eq_false (trim data) (units "status"))
      by (intros E; apply Hs; now apply trim_status).
    reflexivity.
Qed.

Lemma control_request_response_witness :
  (exists w' props',
     on_data env_up daemon_s1 (units ("ping" +:+ nl)) (world_s1 61000) =
       (Ok (set_lastActivity 61000 daemon_s1, [SockWrite ("pong" +:+ nl)]), w') /\
     record_of w' "s1" = Some (FJson (JObj props')) /\
     obj_get "lastActivity" props' = Some (JStr (env_iso env_up 61000)) /\
     obj_get "controlPort" props' = obj_get "controlPort" (own_props s1_record)) /\
  on_data env_up daemon_s1 (units ("  status" +:+ nl)) (world_s1 61000) =
    (Ok (daemon_s1,
         [SockWrite
            ("{" +:+ dquote +:+ "active" +:+ dquote +:+ ":true," +:+
             dquote +:+ "lastActivity" +:+ dquote +:+ ":1000," +:+
             dquote +:+ "timeUntilShutdown" +:+ dquote +:+ ":840000}" +:+ nl)]),
     world_s1 61000) /\
  on_data env_up daemon_s1 (units ("pingping" +:+ nl)) (world_s1 61000) =
    (Ok (daemon_s1, []), world_s1 61000).
Proof.
  destruct (control_request_response env_up daemon_s1 (world_s1 61000) eq_refl)
    as (Hping & Hstatus & Hother).
  split; [|split].
  - destruct (Hping (units ("ping" +:+ nl))) as (w' & E & _ & Hr & _).
    { exists [], [10%N]. repeat split; repeat constructor. }
    destruct (Hr (own_props s1_record) eq_refl) as (props' & R & L & K).
    exists w', props'. split; [exact E|]. split; [exact R|]. split; [exact L|].
    apply K. discriminate.
  - destruct (Hstatus (units ("  status" +:+ nl))) as (E & _).
    { exists [32%N; 32%N], [10%N]. repeat split; repeat constructor. }
    exact E.
  - apply Hother.
    + intros H%trim_ping. vm_compute in H. discriminate.
    + intros H%trim_status. vm_compute in H. discriminate.
Defined.

(** The answer to [status] as it goes over the wire. *)
Example status_line :
  fst (on_data env_up daemon_s1 (units ("status" +:+ nl)) (world_s1 61000)) =
  Ok (daemon_s1,
      [SockWrite
         ("{" +:+ dquote +:+ "active" +:+ dquote +:+ ":true," +:+
          dquote +:+ "lastActivity" +:+ dquote +:+ ":1000," +:+
          dquote +:+ "timeUntilShutdown" +:+ dquote +:+ ":840000}" +:+ nl)]).
Proof. vm_compute. reflexivity. Qed.

(** The line the daemon answers a ping with is the one [pingDaemon] waits
    for. *)
Example pong_is_accepted :
  str_eq (trim (units ("pong" +:+ nl))) (units "pong") = true.
Proof. vm_compute. reflexivity. Qed.

(** Trimming also removes the carriage return of a CRLF line end and
    leading blanks. *)
Example ping_with_blanks :
  trim (units ("  ping" +:+ String (ascii_of_nat 13) nl)) = units "ping".
Proof. vm_compute. reflexivity. Qed.

Lemma on_data_total (env : Env) (d : SessionDaemon) (data : jsstring) (w : world) :
  exists d' out w',
    on_data env d data w = (Ok (d', out), w') /\
    length out = (if recognised data then 1%nat else 0%nat) /\
    ~ In SockEnd out.
Proof.
  unfold on_data, recognised.
  destruct (str_eq (trim data) (units "ping")) eqn:Ep.
  - unfold bind. rewrite updateActivity_eq.
    eexists _, _, _. split; [reflexivity|]. split; [reflexivity|].
    intros [H|[]]. discriminate.
  - destruct (str_eq (trim data) (units "status")) eqn:Es.
    + unfold bind, Date_now.
      eexists _, _, _. split; [reflexivity|]. split; [reflexivity|].
      intros [H|[]]. discriminate.
    + eexists _, _, _. split; [reflexivity|]. split; [reflexivity|].
      intros [].
Qed.

Lemma on_data_answer (env : Env) (d : SessionDaemon) (data : jsstring) (w : world) :
  exists d' out w',
    on_data env d data w = (Ok (d', out), w') /\
    timeoutMs d' = timeoutMs d /\
    (lastActivity d' = lastActivity d \/
     padded "ping" data /\ lastActivity d' = now w) /\
    ((padded "ping" data -> out = [SockWrite ("pong" +:+ nl)]) /\
     (padded "status" data ->
      out =
        [SockWrite
           (JSON_stringify
              (JObj [ ("active", JBool true);
                      ("lastActivity", JNum (lastActivity d));
                      ("timeUntilShutdown",
                       JNum (Z.max 0 (timeoutMs d - (now w - lastActivity d)))) ])
            +:+ nl)]) /\
     (~ padded "ping" data -> ~ padded "status" data -> out = [])) /\
    ~ In SockEnd out.
Proof.
  unfold on_data.
  destruct (str_eq (trim data) (units "ping")) eqn:Ep.
  - apply bool_decide_eq_true_1 in Ep.
    unfold bind. rewrite updateActivity_eq.
    eexists _, _, _. split; [reflexivity|]. split; [reflexivity|].
    split; [right; split; [now apply trim_ping|reflexivity]|].
    split; [|intros [H|[]]; discriminate].
    split; [reflexivity|]. split.
    + intros H%trim_status. rewrite Ep in H. discriminate.
    + intros H. exfalso. apply H. now apply trim_ping.
  - apply bool_decide_eq_false_1 in Ep.
    destruct (str_eq (trim data) (units "status")) eqn:Es.
    + apply bool_decide_eq_true_1 in Es. unfold bind, Date_now.
      eexists _, _, _. split; [reflexivity|]. split; [reflexivity|].
      split; [now left|].
      split; [|intros [H|[]]; discriminate].
      split; [intros H%trim_ping; contradiction|].
      split; [reflexivity|].
      intros _ H. exfalso. apply H. now apply trim_status.
    + apply bool_decide_eq_false_1 in Es.
      eexists _, _, _. split; [reflexivity|]. split; [reflexivity|].
      split; [now left|].
      split; [|intros []].
      split; [intros H%trim_ping; contradiction|].
      split; [intros H%trim_status; contradiction|reflexivity].
Qed.

(** C7 (as the code has it): on one connection the daemon handles every
    chunk that arrives, in order of arrival and however many there are: what
    it writes to the socket is, chunk after chunk, the line [pong] for a
    chunk that carries [ping], one status line for a chunk that carries
    [status] (with the time left at the arrival of the chunk, counted from
    the last activity it reports: that of the daemon before the connection
    or the arrival of a [ping] chunk of the connection), and nothing for any
    other chunk; it never ends the socket itself. *)
Theorem connection_answers_every_request (env : Env) (d : SessionDaemon)
    (chunks : list (Z * jsstring)) (w : world) :
  exists d' out w' answers,
    serve_connection env d chunks w = (Ok (d', out), w') /\
    out = concat answers /\
    Forall2
      (fun chunk answer =>
         (padded "ping" (snd chunk) -> answer = [SockWrite ("pong" +:+ nl)]) /\
         (padded "status" (snd chunk) ->
          exists la,
            (la = lastActivity d \/
             exists t data, In (t, data) chunks /\ padded "ping" data /\ la = t) /\
            answer =
              [SockWrite
                 (JSON_stringify
                    (JObj [ ("active", JBool true);
                            ("lastActivity", JNum la);
                            ("timeUntilShutdown",
                             JNum (Z.max 0 (timeoutMs d - (fst chunk - la)))) ])
                  +:+ nl)]) /\
         (~ padded "ping" (snd chunk) -> ~ padded "status" (snd chunk) ->
          answer = []))
      chunks answers /\
    ~ In SockEnd out.
Proof.
  revert d w. induction chunks as [|[t data] rest IH]; intros d w.
  - exists d, [], w, []. split; [reflexivity|]. split; [reflexivity|].
    split; [constructor|intros []].
  - cbn [serve_connection]. unfold bind at 1, at_time.
    destruct (on_data_answer env d data (World (files w) t (trace w)))
      as (d1 & out1 & w1 & E1 & T1 & L1 & (Ap & As & Ao) & N1).
    rewrite E1. unfold bind at 1.
    destruct (IH d1 w1) as (d2 & out2 & w2 & answers & E2 & -> & F2 & N2).
    rewrite E2. exists d2, (out1 ++ concat answers)%list, w2, (out1 :: answers).
    split; [reflexivity|]. split; [reflexivity|]. split.
    + constructor.
      * cbn [fst snd now] in *. split; [exact Ap|]. split; [|exact Ao].
        intros Hs. exists (lastActivity d). split; [now left|]. now apply As.
      * eapply Forall2_impl; [exact F2|].
        intros [t' data'] answer (Bp & Bs & Bo). cbn [fst snd] in *.
        split; [exact Bp|]. split; [|exact Bo].
        intros Hs. destruct (Bs Hs) as (la & Hla & ->).
        exists la. rewrite T1. split; [|reflexivity].
        destruct Hla as [->|(t2 & data2 & Hin & Hp & ->)].
        -- destruct L1 as [->|[Hp ->]]; [now left|].
           right. exists t, data. cbn [now]. split; [now left|]. auto.
        -- right. exists t2, data2. split; [now right|]. auto.
    + intros [H|H]%in_app_or; auto.
Qed.

(** C7, counterexample: two pings arrive on the same connection; both are
    answered and the daemon does not end the socket. *)
Lemma second_request_on_connection_is_served :
  exists d' w',
    serve_connection env_up daemon_s1
      [ (2000, units ("ping" +:+ nl)); (3000, units ("ping" +:+ nl)) ]
      (world_s1 2000)
    = (Ok (d', [SockWrite ("pong" +:+ nl); SockWrite ("pong" +:+ nl)]), w').
Proof. eexists. eexists. vm_compute. reflexivity. Qed.

(** ** Daemon start-up *)

Example constructor_at_1000 :
  SessionDaemon_new "s1" true (fresh 1000) = (Ok daemon_s1_new, fresh 1000).
Proof. reflexivity. Qed.




(** ** Idle timeout *)

Lemma shutdown_total (env : Env) (d : SessionDaemon) (w : world) :
  exists d' w',
    shutdown env d w = (Ok d', w') /\
    exited d' = true /\
    record_of w' (sessionName d) = None.
Proof.
  unfold shutdown. unfold bind at 1.
  assert (H1 : exists w1,
             (match controlServer d with
              | Some _ => emit EvServerClosed
              | None => ret tt
              end) w = (Ok tt, w1) /\ files w1 = files w).
  { destruct (controlServer d); eexists; split; reflexivity. }
  destruct H1 as (w1 & -> & F1). unfold bind at 1.
  assert (H2 : exists w2,
             (match this_browser d with
              | Some b => try_catch (ask (env_close env b);; emit EvBrowserClosed)
                                    (fun _ => ret tt)
              | None => ret tt
              end) w1 = (Ok tt, w2) /\ files w2 = files w1).
  { destruct (this_browser d) as [b|]; [|eexists; split; reflexivity].
    unfold try_catch, bind, ask.
    destruct (env_close env b) as [[]|msg]; eexists; split; reflexivity. }
  destruct H2 as (w2 & -> & F2). unfold bind at 1.
  rewrite deleteSession_eq.
  destruct (present w2 (sessionName d)) eqn:P.
  - eexists _, _. split; [reflexivity|]. split; [reflexivity|].
    unfold record_of. cbn [files]. apply lookup_delete_eq.
  - eexists _, _. split; [reflexivity|]. split; [reflexivity|].
    cbn [files]. unfold present in P.
    destruct (record_of w2 (sessionName d)) eqn:R; [|exact R].
    rewrite bool_decide_eq_true_2 in P by eauto. discriminate.
Qed.

(** A tick at [t]: past the deadline it shuts the daemon down, up to the
    deadline it leaves it alone. *)
Lemma monitor_tick_at (env : Env) (d : SessionDaemon) (t : Z) (w : world) :
  (deadline d < t ->
     exists d' w', at_time t (monitor_tick env d) w = (Ok d', w') /\
                   exited d' = true /\ record_of w' (sessionName d) = None) /\
  (t <= deadline d ->
     at_time t (monitor_tick env d) w = (Ok d, World (files w) t (trace w))).
Proof.
  unfold at_time, monitor_tick, bind, Date_now, deadline. cbn [now]. split.
  - intros H.
    replace (t - lastActivity d >? timeoutMs d) with true
      by (symmetry; apply Z.gtb_lt; lia).
    apply shutdown_total.
  - intros H.
    replace (t - lastActivity d >? timeoutMs d) with false; [reflexivity|].
    symmetry. rewrite Z.gtb_ltb. apply Z.ltb_ge. lia.
Qed.

(** With [n + 1] ticks to go and the deadline less than [n + 1] intervals
    away, one of the ticks shuts the daemon down, and it is the first one
    past the deadline. *)
Lemma monitor_run_fires (env : Env) (d : SessionDaemon) (n : nat) :
  exited d = false ->
  timer_armed d = true ->
  0 < checkInterval d ->
  forall (tm : Z) (w : world),
    tm <= deadline d ->
    deadline d - tm < (Z.of_nat n + 1) * checkInterval d ->
    exists t d' w',
      monitor_run env (S n) tm d w = (Ok (d', Some t), w') /\
      exited d' = true /\
      record_of w' (sessionName d) = None /\
      deadline d < t /\ t <= deadline d + checkInterval d /\
      exists k, 0 < k /\ t = tm + k * checkInterval d.
Proof.
  intros Hrun Harmed Hpos. induction n as [|n IH]; intros tm w Hle Hlt.
  - cbn [monitor_run]. rewrite Harmed. unfold bind at 1.
    destruct (proj1 (monitor_tick_at env d (tm + checkInterval d) w))
      as (d' & w' & E & Hex & Hrec); [lia|].
    rewrite E, Hex. exists (tm + checkInterval d), d', w'.
    repeat split; try assumption; try lia. exists 1. lia.
  - change (monitor_run env (S (S n)) tm d w) with
      ((if timer_armed d then
          let! d' := at_time (tm + checkInterval d) (monitor_tick env d) in
          if exited d' then ret (d', Some (tm + checkInterval d))
          else monitor_run env (S n) (tm + checkInterval d) d'
        else ret (d, None)) w).
    rewrite Harmed. unfold bind at 1.
    destruct (Z_lt_le_dec (deadline d) (tm + checkInterval d)) as [Hpast|Hnot].
    + destruct (proj1 (monitor_tick_at env d (tm + checkInterval d) w) Hpast)
        as (d' & w' & E & Hex & Hrec).
      rewrite E, Hex. exists (tm + checkInterval d), d', w'.
      repeat split; try assumption; try lia. exists 1. lia.
    + rewrite (proj2 (monitor_tick_at env d (tm + checkInterval d) w) Hnot).
      rewrite Hrun.
      destruct (IH (tm + checkInterval d)
                   (World (files w) (tm + checkInterval d) (trace w)))
        as (t & d' & w' & E & Hex & Hrec & H1 & H2 & k & Hk & Ht); [lia|lia|].
      exists t, d', w'. repeat split; try assumption.
      exists (k + 1). split; [lia|]. rewrite Ht. ring.
Qed.

(** C2: [startMonitoring] arms the timer of the daemon.  From then on, when
    the last activity was at [T0] (a time at most 15 min before the timer
    was armed, or later) and only ticks of that timer follow, one of them
    shuts the daemon down: it comes after [T0] + 15 min and at most 60 s
    after it, a whole number of 60 s periods after the arming, and it
    removes the record.  A chunk that carries [ping] handled before that,
    at time [T], sets the last activity to [T] and so the deadline to
    [T] + 15 min. *)
Theorem idle_timeout_and_keepalive (env : Env) (d0 : SessionDaemon)
    (w0 : world) (T0 : Z) :
  timeoutMs d0 = 15 * 60 * 1000 ->
  checkInterval d0 = 60 * 1000 ->
  exited d0 = false ->
  now w0 <= T0 + 15 * 60 * 1000 ->
  exists d1 w1,
    startMonitoring d0 w0 = (Ok d1, w1) /\
    (forall w, exists n t d' w',
       run_timer env n (set_lastActivity T0 d1) w = (Ok (d', Some t), w') /\
       exited d' = true /\
       record_of w' (sessionName d0) = None /\
       T0 + 15 * 60 * 1000 < t /\
       t <= T0 + 15 * 60 * 1000 + 60 * 1000 /\
       exists k, 0 < k /\ t = now w0 + k * (60 * 1000)) /\
    (forall (data : jsstring) (w : world),
       padded "ping" data ->
       exists out w',
         on_data env (set_lastActivity T0 d1) data w =
           (Ok (set_lastActivity (now w) d1, out), w') /\
         deadline (set_lastActivity (now w) d1) = now w + 15 * 60 * 1000).
Proof.
  intros Ht Hi Hrun Hle.
  unfold startMonitoring, bind, Date_now, emit. cbn [ret].
  eexists _, _. split; [reflexivity|]. split.
  - intros w. unfold run_timer. cbn [monitorTimer set_lastActivity set_monitorTimer].
    set (d := set_lastActivity T0 (set_monitorTimer (now w0) d0)).
    fold d.
    assert (D : deadline d = T0 + 15 * 60 * 1000)
      by (unfold deadline, d; cbn [lastActivity timeoutMs set_lastActivity
                                     set_monitorTimer]; lia).
    assert (I : checkInterval d = 60 * 1000) by exact Hi.
    set (n := Z.to_nat ((deadline d - now w0) / checkInterval d)).
    destruct (monitor_run_fires env d n Hrun eq_refl ltac:(lia) (now w0) w)
      as (t & d' & w' & E & Hex & Hrec & H1 & H2 & k & Hk & Hkt).
    + lia.
    + subst n. rewrite Z2Nat.id by (apply Z.div_pos; lia).
      pose proof (Z.mul_succ_div_gt (deadline d - now w0) (checkInterval d)
                    ltac:(lia)).
      lia.
    + exists (S n), t, d', w'. split; [exact E|].
      split; [exact Hex|]. split; [exact Hrec|].
      split; [lia|]. split; [lia|]. exists k. split; [exact Hk|]. lia.
  - intros data w Hping. apply trim_ping in Hping. unfold on_data.
    rewrite (str_eq_true _ _ Hping). unfold bind. rewrite updateActivity_eq.
    eexists _, _. split; [reflexivity|].
    unfold deadline. cbn [lastActivity timeoutMs set_lastActivity set_monitorTimer].
    lia.
Qed.

Lemma idle_timeout_and_keepalive_witness :
  exists d1 w1,
    startMonitoring daemon_s1_new (fresh 1000) = (Ok d1, w1) /\
    (forall w, exists n t d' w',
       run_timer env_up n (set_lastActivity 1000 d1) w = (Ok (d', Some t), w') /\
       exited d' = true /\
       record_of w' (sessionName daemon_s1_new) = None /\
       1000 + 15 * 60 * 1000 < t /\
       t <= 1000 + 15 * 60 * 1000 + 60 * 1000 /\
       exists k, 0 < k /\ t = now (fresh 1000) + k * (60 * 1000)) /\
    (forall (data : jsstring) (w : world),
       padded "ping" data ->
       exists out w',
         on_data env_up (set_lastActivity 1000 d1) data w =
           (Ok (set_lastActivity (now w) d1, out), w') /\
         deadline (set_lastActivity (now w) d1) = now w + 15 * 60 * 1000).
Proof.
  apply (idle_timeout_and_keepalive env_up daemon_s1_new (fresh 1000) 1000);
    [reflexivity|reflexivity|reflexivity|vm_compute; discriminate].
Defined.

(** The daemon of [s1] as its constructor leaves it has no timer: nothing
    ever shuts it down. *)
Example no_timer_without_startMonitoring :
  run_timer env_up 1000 daemon_s1_new (world_s1 1000)
    = (Ok (daemon_s1_new, None), world_s1 1000).
Proof. reflexivity. Qed.

(** The daemon of [s1], idle since 1000 with its monitor armed at 1000:
    the ticks at 61000, ..., 901000 pass, the sixteenth at 961000 shuts it
    down. *)
Example idle_s1_shuts_down_at_961000 :
  fst (monitor_run env_up 15 1000 daemon_s1 (world_s1 1000)) = Ok (daemon_s1, None) /\
  exists d', fst (monitor_run env_up 16 1000 daemon_s1 (world_s1 1000))
             = Ok (d', Some 961000).
Proof. split; [vm_compute; reflexivity|]. eexists. vm_compute. reflexivity. Qed.

(** * Further properties of the code *)

(** ** More about the session store *)

(** X1: whatever the directory held for [name] before, after
    [createSession] the session exists and [getSession] returns exactly the
    object [createSession] returned: the given name, endpoint, pid and
    headless flag, [created] and [lastActivity] both at the time of the
    call, a null [currentUrl], and no [controlPort] (an undefined endpoint
    leaves the object without [wsEndpoint]). *)
Theorem createSession_then_getSession (env : Env) (name : string)
    (ws : option json) (pid : Z) (headless : bool) (w : world) :
  exists data w',
    createSession env name ws pid headless w = (Ok data, w') /\
    getSession name w' = (Ok (JObj data), w') /\
    sessionExists name w' = (Ok true, w') /\
    obj_get "name" data = Some (JStr name) /\
    obj_get "wsEndpoint" data = ws /\
    obj_get "pid" data = Some (JNum pid) /\
    obj_get "headless" data = Some (JBool headless) /\
    obj_get "created" data = Some (JStr (env_iso env (now w))) /\
    obj_get "lastActivity" data = Some (JStr (env_iso env (now w))) /\
    obj_get "currentUrl" data = Some JNull /\
    obj_get "controlPort" data = None.
Proof.
  unfold createSession, bind, Date_now, writeFileSync. cbn [ret].
  eexists _, _. split; [reflexivity|].
  rewrite getSession_eq, sessionExists_eq. unfold present, record_of.
  cbn [files]. rewrite lookup_insert_eq.
  destruct ws; repeat split; reflexivity.
Qed.

Lemma run_op_record_other (env : Env) (op : store_op) (w : world) (other : string) :
  (forall n, op_target op = Some n ->
             getSessionFile n <> getSessionFile other) ->
  exists w', run_op env op w = (Ok tt, w') /\
             record_of w' other = record_of w other.
Proof.
  intros K.
  destruct op as [n|n ws pid h|n|n u|n|n| |n]; cbn [run_op]; unfold bind.
  - rewrite sessionExists_eq. eauto.
  - unfold createSession, bind, Date_now, writeFileSync. cbn.
    eexists. split; [reflexivity|]. unfold record_of. cbn [files].
    apply lookup_insert_ne. now apply K.
  - rewrite getSession_eq. eauto.
  - rewrite updateSession_eq.
    destruct (truthy (parsed (record_of w n))); [|eauto].
    eexists. split; [reflexivity|]. unfold record_of at 1. cbn [files].
    apply lookup_insert_ne. now apply K.
  - unfold updateSessionActivity, bind, Date_now. rewrite updateSession_eq.
    destruct (truthy (parsed (record_of w n))); [|eauto].
    eexists. split; [reflexivity|]. unfold record_of at 1. cbn [files].
    apply lookup_insert_ne. now apply K.
  - rewrite deleteSession_eq. destruct (present w n); [|eauto].
    eexists. split; [reflexivity|]. unfold record_of at 1. cbn [files].
    apply lookup_delete_ne. now apply K.
  - destruct (listSessions_frame w) as [l ->]. eauto.
  - rewrite isSessionActive_eq. eauto.
Qed.

(** X2: store operations are local to their session file: after any
    sequence of operations on sessions whose files lie in the sessions
    directory itself, none of which names a session whose file is the
    session file of [other], the record of [other] is what it was (listing
    touches no record at all). *)
Theorem store_ops_leave_other_sessions (env : Env) (ops : list store_op)
    (w : world) (other : string) :
  (forall op n, In op ops -> op_target op = Some n ->
                slash_free (getSessionFile n) = true) ->
  (forall op n, In op ops -> op_target op = Some n ->
                getSessionFile n <> getSessionFile other) ->
  exists w', run_ops env ops w = (Ok tt, w') /\
             record_of w' other = record_of w other.
Proof.
  intros _. revert w. induction ops as [|op rest IH]; intros w H.
  - exists w. split; reflexivity.
  - destruct (run_op_record_other env op w other) as (w1 & E1 & R1).
    { intros n. apply H. now left. }
    destruct (IH w1) as (w2 & E2 & R2).
    { intros op' n Hin. apply H. now right. }
    exists w2. split.
    + cbn [run_ops]. unfold bind. now rewrite E1.
    + now rewrite R2.
Qed.

Lemma store_ops_leave_other_sessions_witness :
  exists w',
    run_ops env_up
      [ OpDelete "s2"; OpCreate "s2" None 7 false;
        OpUpdate "s2" [("currentUrl", JStr "about:blank")]; OpList ]
      (world_s1 5) = (Ok tt, w') /\
    record_of w' "s1" = record_of (world_s1 5) "s1".
Proof.
  apply (store_ops_leave_other_sessions env_up
           [ OpDelete "s2"; OpCreate "s2" None 7 false;
             OpUpdate "s2" [("currentUrl", JStr "about:blank")]; OpList ]
           (world_s1 5) "s1").
  - intros op n [<-|[<-|[<-|[<-|[]]]]]; cbn; intros [= <-]; reflexivity.
  - intros op n [<-|[<-|[<-|[<-|[]]]]]; cbn; intros [= <-]; vm_compute; discriminate.
Defined.

(** X3: on a record that parses to an object, [updateSession] returns true
    and merges: afterwards a property named in the updates has the updates'
    value (the last one if it is named twice), every other property has the
    value it had, and nothing else is added. *)
Theorem updateSession_merges (name : string) (updates : jsobj) (w : world)
    (props : jsobj) :
  record_of w name = Some (FJson (JObj props)) ->
  exists w',
    updateSession name updates w = (Ok true, w') /\
    exists props',
      getSession name w' = (Ok (JObj props'), w') /\
      forall k, obj_get k props' =
                match obj_get k (rev updates) with
                | Some v => Some v
                | None => obj_get k props
                end.
Proof.
  intros R. rewrite updateSession_eq, R. cbn [parsed truthy].
  eexists. split; [reflexivity|].
  eexists. rewrite getSession_eq. unfold record_of. cbn [files].
  rewrite lookup_insert_eq. cbn [parsed]. split; [reflexivity|].
  intros k. apply (obj_get_spread k (JObj props) updates).
Qed.

Lemma updateSession_merges_witness :
  exists w',
    updateSession "s1" [("currentUrl", JStr "https://example.com")] (world_s1 5)
      = (Ok true, w') /\
    exists props',
      getSession "s1" w' = (Ok (JObj props'), w') /\
      forall k, obj_get k props' =
                match obj_get k (rev [("currentUrl", JStr "https://example.com")]) with
                | Some v => Some v
                | None => obj_get k (own_props s1_record)
                end.
Proof.
  apply (updateSession_merges "s1" [("currentUrl", JStr "https://example.com")]
           (world_s1 5) (own_props s1_record)).
  reflexivity.
Defined.

(** X4: [deleteSession] answers whether there was a file to remove,
    whatever its content; afterwards the session does not exist, and a
    second [deleteSession] answers false and changes nothing. *)
Theorem deleteSession_once (name : string) (w : world) :
  exists w',
    deleteSession name w = (Ok (present w name), w') /\
    sessionExists name w' = (Ok false, w') /\
    getSession name w' = (Ok JNull, w') /\
    deleteSession name w' = (Ok false, w').
Proof.
  rewrite deleteSession_eq. destruct (present w name) eqn:P.
  - eexists. split; [reflexivity|].
    set (w' := World (delete (getSessionFile name) (files w)) (now w)
                     (trace w ++ [EvUnlink (getSessionFile name)])).
    assert (R : record_of w' name = None) by apply lookup_delete_eq.
    assert (P' : present w' name = false).
    { unfold present. rewrite R. reflexivity. }
    rewrite sessionExists_eq, getSession_eq, deleteSession_eq, P', R.
    repeat split; reflexivity.
  - exists w. split; [reflexivity|].
    assert (R : record_of w name = None).
    { unfold present in P. destruct (record_of w name); [|reflexivity].
      rewrite bool_decide_eq_true_2 in P by eauto. discriminate. }
    rewrite sessionExists_eq, getSession_eq, deleteSession_eq, P, R.
    repeat split; reflexivity.
Qed.

(** *** Listing *)

Lemma substring_skip_app (a b : string) (m : nat) :
  substring (String.length a) m (a +:+ b) = substring 0 m b.
Proof.
  induction a as [|c a IH]; [reflexivity|].
  change (String c a +:+ b) with (String c (a +:+ b)). cbn. exact IH.
Qed.

Lemma substring_take_app (a b : string) :
  substring 0 (String.length a) (a +:+ b) = a.
Proof.
  induction a as [|c a IH]; [now destruct b|].
  change (String c a +:+ b) with (String c (a +:+ b)). cbn. now rewrite IH.
Qed.

Lemma substring_nothing (n : nat) (s : string) :
  (String.length s <= n)%nat -> substring n 0 s = EmptyString.
Proof.
  revert s. induction n as [|n IH]; intros s H.
  - now destruct s.
  - destruct s as [|c s]; [reflexivity|]. cbn in *. apply IH. lia.
Qed.

Lemma string_app_empty_r (s : string) : s +:+ EmptyString = s.
Proof.
  induction s as [|c s IH]; [reflexivity|].
  change (String c s +:+ EmptyString) with (String c (s +:+ EmptyString)).
  now rewrite IH.
Qed.

Lemma endsWith_json (name : string) :
  endsWith (name +:+ ".json") ".json" = true.
Proof.
  unfold endsWith. rewrite string_length_app.
  change (String.length ".json") with 5%nat.
  replace (String.length name + 5 - 5)%nat with (String.length name) by lia.
  rewrite substring_skip_app.
  replace (5 <=? String.length name + 5)%nat with true
    by (symmetry; apply Nat.leb_le; lia).
  reflexivity.
Qed.

Lemma index_json_dotless (name : string) :
  dotless name = true ->
  index 0 ".json" (name +:+ ".json") = Some (String.length name).
Proof.
  induction name as [|c name IH]; intros H.
  - reflexivity.
  - cbn [dotless] in H. apply andb_true_iff in H as [Hc Hrest].
    change (String c name +:+ ".json") with (String c (name +:+ ".json")).
    assert (Hp : String.prefix ".json" (String c (name +:+ ".json")) = false).
    { change (String.prefix ".json" (String c (name +:+ ".json")))
        with (match ascii_dec "." c with
              | left _ => String.prefix "json" (name +:+ ".json")
              | right _ => false
              end).
      destruct (ascii_dec "." c) as [<-|Hne]; [discriminate|reflexivity]. }
    cbn [index]. rewrite Hp, (IH Hrest). reflexivity.
Qed.

(** The name of a session without a full stop comes back from its file
    name. *)
Lemma replace_first_json (name : string) :
  dotless name = true ->
  replace_first ".json" EmptyString (name +:+ ".json") = name.
Proof.
  intros H. unfold replace_first. rewrite (index_json_dotless name H).
  rewrite substring_take_app, string_length_app.
  change (String.length ".json") with 5%nat.
  replace (String.length name + 5 - (String.length name + 5))%nat with 0%nat by lia.
  rewrite substring_nothing
    by (rewrite string_length_app; cbn; lia).
  change (EmptyString +:+ EmptyString) with EmptyString.
  apply string_app_empty_r.
Qed.

Lemma listSessions_loop_eq (entries : list string) (acc : list json) (w : world) :
  listSessions_loop entries acc w =
    (Ok (acc ++ flat_map (entry_sessions w) entries)%list, w).
Proof.
  revert acc. induction entries as [|e rest IH]; intros acc; cbn [listSessions_loop flat_map].
  - unfold ret. now rewrite app_nil_r.
  - unfold entry_sessions at 1. destruct (endsWith e ".json").
    + unfold bind. rewrite getSession_eq. cbv zeta.
      destruct (truthy (parsed (record_of w (replace_first ".json" EmptyString e)))).
      * rewrite IH. now rewrite <- app_assoc.
      * rewrite IH. reflexivity.
    + rewrite IH. reflexivity.
Qed.

(** The entries [readdirSync] lists are the stored files whose key is an
    entry name, that is the files of the sessions directory itself. *)
Lemma readdir_entries (w : world) (entry : string) :
  In entry (List.filter slash_free (map fst (map_to_list (files w)))) <->
  is_Some (files w !! entry) /\ slash_free entry = true.
Proof.
  rewrite filter_In, in_map_iff. split.
  - intros [([e f] & <- & Hin) Hs]. apply list_elem_of_In in Hin.
    apply elem_of_map_to_list in Hin. cbn. eauto.
  - intros [[f Hf] Hs]. split; [|exact Hs].
    exists (entry, f). split; [reflexivity|].
    apply list_elem_of_In. now apply elem_of_map_to_list.
Qed.

(** X5: [listSessions] changes nothing and returns exactly this: for every
    file of the sessions directory (a stored file whose key is an entry
    name, without a separator) whose name ends in [.json], the record that
    [getSession] finds under the entry name with its first [.json] removed,
    when that record is usable. *)
Theorem listSessions_contents (w : world) :
  exists sessions,
    listSessions w = (Ok sessions, w) /\
    forall session,
      In session sessions <->
      exists entry,
        is_Some (files w !! entry) /\
        slash_free entry = true /\
        endsWith entry ".json" = true /\
        session = parsed (record_of w (replace_first ".json" EmptyString entry)) /\
        truthy session = true.
Proof.
  unfold listSessions, bind, readdirSync. rewrite listSessions_loop_eq.
  eexists. split; [reflexivity|].
  intros session. cbn [app]. rewrite in_flat_map. split.
  - intros (entry & Hin & Hs). exists entry.
    apply readdir_entries in Hin. unfold entry_sessions in Hs.
    destruct (endsWith entry ".json"); [|contradiction].
    cbv zeta in Hs.
    destruct (truthy (parsed (record_of w (replace_first ".json" EmptyString entry))))
      eqn:T; [|contradiction].
    destruct Hs as [<-|[]]. destruct Hin. auto.
  - intros (entry & Hin & Hsf & He & -> & T). exists entry. split.
    + now apply readdir_entries.
    + unfold entry_sessions. rewrite He. cbv zeta. rewrite T. now left.
Qed.

(** X6: a usable record stored under a session name without a full stop
    and without a separator is in the list. *)
Theorem listSessions_has_session (name : string) (w : world) (session : json) :
  dotless name = true ->
  slash_free name = true ->
  record_of w name = Some (FJson session) ->
  truthy session = true ->
  exists sessions, listSessions w = (Ok sessions, w) /\ In session sessions.
Proof.
  intros Hd Hs R T.
  unfold listSessions, bind, readdirSync. rewrite listSessions_loop_eq.
  eexists. split; [reflexivity|].
  cbn [app]. apply in_flat_map. exists (name +:+ ".json"). split.
  - apply readdir_entries. unfold record_of in R.
    rewrite (getSessionFile_slash_free name Hs) in R. split; [eauto|].
    rewrite slash_free_app, Hs. reflexivity.
  - unfold entry_sessions. rewrite endsWith_json.
    rewrite (replace_first_json name Hd), R. cbn [parsed].
    rewrite T. now left.
Qed.

Lemma listSessions_has_session_witness :
  exists sessions,
    listSessions (world_s1 5) = (Ok sessions, world_s1 5) /\ In s1_record sessions.
Proof.
  apply (listSessions_has_session "s1" (world_s1 5) s1_record); reflexivity.
Defined.

(** A session whose name contains [.json] before its end is stored and
    found by [getSession], but the listing looks for it under another
    name and leaves it out. *)
Example listSessions_misses_a_json_b :
  exists w,
    run_ops env_up [OpCreate "a.jsonb" None 1 true] (fresh 0) = (Ok tt, w) /\
    present w "a.jsonb" = true /\
    fst (listSessions w) = Ok [].
Proof. eexists. split; [reflexivity|]. split; vm_compute; reflexivity. Qed.

(** ** More about the daemon *)

Lemma start_success (env : Env) (d : SessionDaemon) (w : world)
    (ws : option json) (b : browser) :
  start_steps_ok env ws b ->
  exists tr,
    start env d w =
      (Ok (started_daemon d b (now w + 2000),
           StartResult (Some 9320) (9220 + env_random100 env) ws),
       World (<[getSessionFile (sessionName d) :=
                  FJson (JObj (started_record env d ws (now w + 2000)))]> (files w))
             (now w + 2000) (trace w ++ tr)).
Proof.
  intros (Ef & (path & Ep & Es) & Eu & Ec & El).
  unfold start, try_catch. unfold bind at 1. unfold findAvailablePort.
  rewrite Ef. cbn [ret]. unfold bind at 1, ask. rewrite Ep.
  unfold bind at 1, spawn_chrome, bind at 1, emit. cbn [files now trace].
  rewrite Es. cbn [ret].
  unfold bind at 1, sleep. cbn [files now trace].
  unfold bind at 1, try_catch, ask. rewrite Eu.
  unfold bind at 1. rewrite Ec.
  unfold bind at 1. cbn [files now trace].
  unfold bind at 1, startControlServer.
  cbn [controlPort set_browser set_controlPort]. rewrite El.
  unfold bind at 1, emit. cbn [files now trace ret].
  unfold bind at 1, startMonitoring, bind at 1, Date_now, bind at 1, emit.
  cbn [files now trace ret].
  unfold bind at 1, createSession, bind at 1, Date_now, bind at 1, writeFileSync.
  cbn [files now trace ret sessionName set_monitorTimer set_controlServer
       options_headless].
  unfold bind at 1. rewrite updateSession_eq. unfold record_of.
  cbn [files now trace]. rewrite lookup_insert_eq. cbn [parsed truthy].
  unfold bind at 1, emit. cbn [files now trace ret].
  rewrite insert_insert_eq. rewrite <- !app_assoc.
  eexists. unfold started_daemon, started_record.
  destruct ws as [ws|]; reflexivity.
Qed.

(** A branch of [start] that ends at a failed step: walk to it with the
    answers of the oracles at hand. *)
Ltac use_answers :=
  repeat match goal with
         | H : _ = _ |- _ => rewrite H
         end.

Ltac start_fails :=
  unfold start, try_catch; unfold bind at 1; unfold findAvailablePort;
  use_answers; cbn [ret]; try (unfold bind at 1, ask); use_answers;
  try (unfold bind at 1, spawn_chrome, bind at 1, emit); cbn [files now trace];
  use_answers; cbn [ret];
  try (unfold bind at 1, sleep); cbn [files now trace];
  try (unfold bind at 1, try_catch, ask); use_answers;
  try (unfold bind at 1); use_answers;
  try (unfold bind at 1); cbn [files now trace];
  try (unfold bind at 1, startControlServer);
  cbn [controlPort set_browser set_controlPort]; use_answers;
  unfold throw; cbv beta iota; cbn [fst]; try reflexivity.

(** An awaited call rejects: [start] throws its cause behind the prefix. *)
Lemma start_rejects (env : Env) (d : SessionDaemon) (w : world) (cause : string) :
  start_rejected env cause ->
  fst (start env d w) =
    Throw ("Failed to start session daemon '" +:+ sessionName d +:+ "': " +:+ cause).
Proof.
  intros (Ef & [Ep|(path & Ep & Es & [(e & Eu & ->)|(ws & Eu & Ec)])]);
    start_fails.
Qed.

(** An 'error' event without a listener: the process dies. *)
Lemma start_crashes (env : Env) (d : SessionDaemon) (w : world) (msg : string) :
  start_dies env msg ->
  fst (start env d w) = Crash msg.
Proof.
  intros [(Ef & ->)|(Ef & path & Ep & [(Es & ->)|(Es & ws & b & Eu & Ec & El & ->)])];
    start_fails.
Qed.

(** The answers of the oracles fall under exactly one of the three. *)
Lemma start_env_cases (env : Env) :
  (exists ws b, start_steps_ok env ws b) \/
  (exists cause, start_rejected env cause) \/
  (exists msg, start_dies env msg).
Proof.
  destruct (env_port_free env 9320) eqn:Ef;
    [|right; right; exists "listen EADDRINUSE"; left; auto].
  destruct (env_executablePath env) as [path|msg] eqn:Ep;
    [|right; left; exists msg; split; auto].
  destruct (env_spawn_ok env path) eqn:Es;
    [|right; right; eexists; right; split; [assumption|];
      exists path; split; [assumption|]; left; split; [assumption|reflexivity]].
  destruct (env_debugger_url env (9220 + env_random100 env)) as [ws|msg] eqn:Eu;
    [|right; left; eexists; split; [assumption|]; right;
      exists path; split; [assumption|]; split; [assumption|];
      left; exists msg; split; [assumption|reflexivity]].
  destruct (env_connect env ws) as [b|msg] eqn:Ec;
    [|right; left; exists msg; split; [assumption|]; right;
      exists path; split; [assumption|]; split; [assumption|];
      right; exists ws; split; assumption].
  destruct (env_listen_ok env 9320) eqn:El.
  - left. exists ws, b. unfold start_steps_ok. eauto 10.
  - right; right. exists "listen EADDRINUSE". right. split; [assumption|].
    exists path. split; [assumption|]. right. split; [assumption|].
    exists ws, b. auto.
Qed.

(** How [start] can end. *)
Lemma start_cases (env : Env) (d : SessionDaemon) (w : world) :
  match fst (start env d w) with
  | Ok _ => exists ws b, start_steps_ok env ws b
  | Throw msg =>
      exists cause,
        msg = "Failed to start session daemon '" +:+ sessionName d +:+ "': " +:+ cause /\
        start_rejected env cause
  | Crash msg => start_dies env msg
  end.
Proof.
  destruct (start_env_cases env) as [(ws & b & H)|[(cause & H)|(msg & H)]].
  - destruct (start_success env d w ws b H) as [tr ->]. cbn [fst]. eauto.
  - rewrite (start_rejects env d w cause H). eauto.
  - now rewrite (start_crashes env d w msg H).
Qed.

(** X7: how [start] ends is decided by the answers it gets.  It resolves
    exactly when the probe of port 9320, the Chrome path, the spawn of
    Chrome, the debugging endpoint, the puppeteer connection and the bind of
    the control server on 9320 all go through.  It throws exactly when one
    of the awaited calls rejects, and the message is the prefix naming the
    session followed by the error of that call: the error of
    [executablePath], the error of the endpoint request behind
    [Failed to get Chrome debugging endpoint: ], or the error of
    [puppeteer.connect].  The process dies on an unhandled 'error' event
    exactly when port 9320 cannot be bound (no other port is tried) or
    Chrome cannot be spawned. *)
Theorem start_outcome (env : Env) (d : SessionDaemon) (w : world) :
  ((exists res, fst (start env d w) = Ok res) <->
   (exists ws b, start_steps_ok env ws b)) /\
  (forall msg, fst (start env d w) = Throw msg <->
     exists cause,
       msg = "Failed to start session daemon '" +:+ sessionName d +:+ "': " +:+ cause /\
       start_rejected env cause) /\
  (forall msg, fst (start env d w) = Crash msg <-> start_dies env msg).
Proof.
  pose proof (start_cases env d w) as C.
  split; [split|split; intros msg; split].
  - intros [res Hres]. now rewrite Hres in C.
  - intros (ws & b & H). destruct (start_success env d w ws b H) as [tr ->].
    eexists. reflexivity.
  - intros Hm. now rewrite Hm in C.
  - intros (cause & -> & H). now apply start_rejects.
  - intros Hm. now rewrite Hm in C.
  - apply start_crashes.
Qed.

(** With a Chrome binary that cannot be started the daemon dies while it
    waits for Chrome, before any record is written. *)
Example start_dies_without_chrome :
  let env := {| env_iso := env_iso env_up; env_pid := 1; env_random100 := 7;
                env_port_free := fun _ => true; env_listen_ok := fun _ => true;
                env_any_port := 40001;
                env_executablePath := Resolved "/opt/chrome";
                env_spawn_ok := fun _ => false;
                env_debugger_url := env_debugger_url env_up;
                env_connect := env_connect env_up;
                env_disconnect := env_disconnect env_up;
                env_close := env_close env_up;
                env_first_page := env_first_page env_up;
                env_newPage := env_newPage env_up;
                env_location := env_location env_up;
                env_ping := env_ping env_up;
                env_others := env_others env_up |} in
  start env daemon_s1_new (fresh 1000) =
    (Crash "spawn /opt/chrome ENOENT",
     World (files (fresh 1000)) 1000 [EvSpawnChrome 9227 true]).
Proof. reflexivity. Qed.

(** What [shutdown] does, step by step. *)
Lemma shutdown_eq (env : Env) (d : SessionDaemon) (w : world) :
  exists tr,
    shutdown env d w =
      (Ok (set_runtime
             (match monitorTimer d with Some _ => false | None => timer_armed d end)
             (match controlServer d with Some _ => false | None => accepting d end)
             true d),
       World (delete (getSessionFile (sessionName d)) (files w)) (now w)
             (trace w ++ tr ++ [EvExit 0])).
Proof.
  unfold shutdown. unfold bind at 1.
  assert (H1 : exists tr1,
             (match controlServer d with
              | Some _ => emit EvServerClosed
              | None => ret tt
              end) w = (Ok tt, World (files w) (now w) (trace w ++ tr1))).
  { destruct (controlServer d).
    - exists [EvServerClosed]. reflexivity.
    - exists []. rewrite app_nil_r. now destruct w. }
  destruct H1 as (tr1 & ->). unfold bind at 1.
  set (w1 := World (files w) (now w) (trace w ++ tr1)).
  assert (H2 : exists tr2,
             (match this_browser d with
              | Some b => try_catch (ask (env_close env b);; emit EvBrowserClosed)
                                    (fun _ => ret tt)
              | None => ret tt
              end) w1 = (Ok tt, World (files w) (now w) (trace w ++ tr1 ++ tr2))).
  { destruct (this_browser d) as [b|].
    - unfold try_catch, bind, ask.
      destruct (env_close env b) as [[]|msg].
      + exists [EvBrowserClosed]. unfold emit, w1. cbn [files now trace].
        now rewrite <- app_assoc.
      + exists []. unfold ret, w1. now rewrite app_nil_r.
    - exists []. unfold ret, w1. now rewrite app_nil_r. }
  destruct H2 as (tr2 & ->). unfold bind at 1.
  rewrite deleteSession_eq.
  set (w2 := World (files w) (now w) (trace w ++ tr1 ++ tr2)).
  destruct (present w2 (sessionName d)) eqn:P.
  - exists (tr1 ++ tr2 ++ [EvUnlink (getSessionFile (sessionName d))])%list.
    unfold bind, emit, ret, w2. cbn [files now trace].
    rewrite <- !app_assoc. reflexivity.
  - exists (tr1 ++ tr2)%list.
    unfold bind, emit, ret, w2. cbn [files now trace].
    rewrite <- !app_assoc. rewrite delete_id; [reflexivity|].
    unfold present, record_of, w2 in P. cbn [files] in P.
    destruct (files w !! getSessionFile (sessionName d)) eqn:E; [|reflexivity].
    rewrite bool_decide_eq_true_2 in P by eauto. discriminate.
Qed.

(** X9: [shutdown] always runs to the end, also when closing the browser
    fails: the daemon's own record is removed and no other entry of the
    directory changes, the timer it had armed is cleared, the control
    server it had started no longer accepts, and its last act is
    [process.exit(0)]. *)
Theorem shutdown_removes_own_record_only (env : Env) (d : SessionDaemon) (w : world) :
  exists d' w' tr,
    shutdown env d w = (Ok d', w') /\
    files w' = delete (getSessionFile (sessionName d)) (files w) /\
    trace w' = (trace w ++ tr ++ [EvExit 0])%list /\
    exited d' = true /\
    (is_Some (monitorTimer d) -> timer_armed d' = false) /\
    (is_Some (controlServer d) -> accepting d' = false).
Proof.
  destruct (shutdown_eq env d w) as [tr ->].
  eexists _, _, tr. split; [reflexivity|].
  cbn [files trace exited timer_armed accepting set_runtime].
  repeat split.
  - intros [t ->]. reflexivity.
  - intros [p ->]. reflexivity.
Qed.

(** X8: a daemon that started and then shuts down leaves the directory as
    it was without a record of its session: the record [start] wrote is
    gone and every other entry is untouched; and it ends with the timer
    cleared, the control server closed and the process exited. *)
Theorem start_then_shutdown (env : Env) (d : SessionDaemon) (w : world)
    (d1 : SessionDaemon) (r : start_result) (w1 : world) :
  start env d w = (Ok (d1, r), w1) ->
  record_of w1 (sessionName d) <> None /\
  exists d2 w2,
    shutdown env d1 w1 = (Ok d2, w2) /\
    files w2 = delete (getSessionFile (sessionName d)) (files w) /\
    timer_armed d2 = false /\ accepting d2 = false /\ exited d2 = true.
Proof.
  intros Hs. pose proof (start_cases env d w) as Hc. rewrite Hs in Hc.
  cbn [fst] in Hc. destruct Hc as (ws & b & Hok).
  destruct (start_success env d w ws b Hok) as [tr E].
  rewrite E in Hs. injection Hs as <- <- <-.
  split.
  - unfold record_of. cbn [files]. rewrite lookup_insert_eq. discriminate.
  - destruct (shutdown_eq env (started_daemon d b (now w + 2000))
                (World (<[getSessionFile (sessionName d) :=
                            FJson (JObj (started_record env d ws (now w + 2000)))]>
                          (files w))
                       (now w + 2000) (trace w ++ tr))) as [tr2 ->].
    eexists _, _. split; [reflexivity|].
    cbn [files sessionName started_daemon monitorTimer controlServer set_runtime
         timer_armed accepting exited].
    rewrite delete_insert_eq. repeat split.
Qed.

Lemma start_then_shutdown_witness :
  record_of (snd (start env_up daemon_s1_new (fresh 1000))) "s1" <> None /\
  exists d2 w2,
    shutdown env_up (started_daemon daemon_s1_new 1%N 3000)
             (snd (start env_up daemon_s1_new (fresh 1000))) = (Ok d2, w2) /\
    files w2 = delete (getSessionFile "s1") (files (fresh 1000)) /\
    timer_armed d2 = false /\ accepting d2 = false /\ exited d2 = true.
Proof.
  apply (start_then_shutdown env_up daemon_s1_new (fresh 1000)
           (started_daemon daemon_s1_new 1%N 3000)
           (StartResult (Some 9320) 9227
              (Some (JStr "ws://127.0.0.1:9227/devtools/browser/abc")))
           (snd (start env_up daemon_s1_new (fresh 1000)))).
  vm_compute. reflexivity.
Defined.

(** While no tick comes after the deadline the monitor leaves the daemon
    and the directory alone. *)
Lemma monitor_run_quiet (env : Env) (d : SessionDaemon) (n : nat) :
  exited d = false ->
  0 <= checkInterval d ->
  forall (tm : Z) (w : world),
    tm + Z.of_nat n * checkInterval d <= deadline d ->
    exists w',
      monitor_run env n tm d w = (Ok (d, None), w') /\
      files w' = files w /\ trace w' = trace w.
Proof.
  intros Hrun Hpos. induction n as [|n IH]; intros tm w H.
  - exists w. repeat split.
  - cbn [monitor_run]. destruct (timer_armed d); [|exists w; repeat split].
    unfold bind at 1.
    rewrite (proj2 (monitor_tick_at env d (tm + checkInterval d) w)) by nia.
    rewrite Hrun.
    destruct (IH (tm + checkInterval d)
                 (World (files w) (tm + checkInterval d) (trace w)))
      as (w' & E & Hf & Ht); [nia|].
    exists w'. repeat split; assumption.
Qed.

(** X10: the monitor never shuts a running daemon down early: as long as
    the ticks made so far all come at or before [lastActivity + timeoutMs],
    the daemon is as it was, nothing is written or removed, and no event
    happens. *)
Theorem monitor_never_early (env : Env) (d : SessionDaemon) (n : nat) (tm : Z)
    (w : world) :
  exited d = false ->
  0 <= checkInterval d ->
  tm + Z.of_nat n * checkInterval d <= lastActivity d + timeoutMs d ->
  exists w',
    monitor_run env n tm d w = (Ok (d, None), w') /\
    files w' = files w /\ trace w' = trace w.
Proof.
  intros Hrun Hpos H. now apply monitor_run_quiet.
Qed.

Lemma monitor_never_early_witness :
  exists w',
    monitor_run env_up 15 1000 daemon_s1 (world_s1 1000) = (Ok (daemon_s1, None), w') /\
    files w' = files (world_s1 1000) /\ trace w' = trace (world_s1 1000).
Proof.
  apply (monitor_never_early env_up daemon_s1 15 1000 (world_s1 1000));
    [reflexivity|vm_compute; discriminate|vm_compute; discriminate].
Defined.

(** X11: a ping handled at time [T] keeps a running daemon alive for the
    next 15 minutes whatever its last activity was before: every tick up to
    [T + timeoutMs] finds it running, with [lastActivity] equal to [T]. *)
Theorem ping_keeps_alive (env : Env) (d : SessionDaemon) (data : jsstring)
    (T : Z) (w : world) (n : nat) (tm : Z) :
  trim data = units "ping" ->
  exited d = false ->
  0 <= checkInterval d ->
  tm + Z.of_nat n * checkInterval d <= T + timeoutMs d ->
  exists d1 out w1 w2,
    at_time T (on_data env d data) w = (Ok (d1, out), w1) /\
    monitor_run env n tm d1 w1 = (Ok (d1, None), w2) /\
    lastActivity d1 = T /\ exited d1 = false.
Proof.
  intros Hping Hrun Hpos H.
  unfold at_time, on_data. rewrite (str_eq_true _ _ Hping).
  unfold bind. rewrite updateActivity_eq. cbn [now].
  set (d1 := set_lastActivity T d).
  set (w1 := snd (updateSessionActivity env (sessionName d)
                    (World (files w) T (trace w)))).
  destruct (monitor_run_quiet env d1 n Hrun Hpos tm w1) as (w2 & E & _ & _).
  { unfold deadline. exact H. }
  exists d1, [SockWrite ("pong" +:+ nl)], w1, w2. repeat split; assumption.
Qed.

Lemma ping_keeps_alive_witness :
  exists d1 out w1 w2,
    at_time 2000000 (on_data env_up daemon_s1 (units ("ping" +:+ nl))) (world_s1 1000)
      = (Ok (d1, out), w1) /\
    monitor_run env_up 15 2000000 d1 w1 = (Ok (d1, None), w2) /\
    lastActivity d1 = 2000000 /\ exited d1 = false.
Proof.
  apply (ping_keeps_alive env_up daemon_s1 (units ("ping" +:+ nl)) 2000000
           (world_s1 1000) 15 2000000);
    [reflexivity|reflexivity|vm_compute; discriminate|vm_compute; discriminate].
Defined.

(** X12: a ping on a daemon whose record is in place rewrites that record
    with [lastActivity] set to the time of the ping (as an ISO string) and
    every other property, [controlPort] and [wsEndpoint] among them, as it
    was; every file other than the session file of the daemon is
    untouched. *)
Theorem ping_refreshes_record (env : Env) (d : SessionDaemon) (data : jsstring)
    (w : world) (props : jsobj) :
  trim data = units "ping" ->
  record_of w (sessionName d) = Some (FJson (JObj props)) ->
  exists d' w' props',
    on_data env d data w = (Ok (d', [SockWrite ("pong" +:+ nl)]), w') /\
    record_of w' (sessionName d) = Some (FJson (JObj props')) /\
    obj_get "lastActivity" props' = Some (JStr (env_iso env (now w))) /\
    (forall k, k <> "lastActivity" -> obj_get k props' = obj_get k props) /\
    (forall entry, entry <> getSessionFile (sessionName d) ->
                   files w' !! entry = files w !! entry).
Proof.
  intros Hping R. unfold on_data. rewrite (str_eq_true _ _ Hping).
  unfold bind. rewrite updateActivity_eq.
  unfold updateSessionActivity, bind, Date_now. rewrite updateSession_eq, R.
  cbn [parsed truthy snd].
  eexists _, _, _. split; [reflexivity|].
  unfold record_of at 1. cbn [files]. rewrite lookup_insert_eq.
  split; [reflexivity|]. split; [|split].
  - rewrite obj_get_spread. reflexivity.
  - intros k Hk. rewrite obj_get_spread. cbn [rev app obj_get].
    destruct (String.eqb_spec k "lastActivity"); [contradiction|reflexivity].
  - intros entry Hne. cbn [files].
    apply lookup_insert_ne. congruence.
Qed.

Lemma ping_refreshes_record_witness :
  exists d' w' props',
    on_data env_up daemon_s1 (units ("ping" +:+ nl)) (world_s1 61000)
      = (Ok (d', [SockWrite ("pong" +:+ nl)]), w') /\
    record_of w' (sessionName daemon_s1) = Some (FJson (JObj props')) /\
    obj_get "lastActivity" props' = Some (JStr (env_iso env_up (now (world_s1 61000)))) /\
    (forall k, k <> "lastActivity" -> obj_get k props' = obj_get k (own_props s1_record)) /\
    (forall entry, entry <> getSessionFile (sessionName daemon_s1) ->
       files w' !! entry = files (world_s1 61000) !! entry).
Proof.
  apply (ping_refreshes_record env_up daemon_s1 (units ("ping" +:+ nl))
           (world_s1 61000) (own_props s1_record)); reflexivity.
Defined.

(** X13: a ping on a daemon whose record is missing or unreadable (a client
    removed it) is still answered with [pong] and still moves
    [lastActivity], but the directory stays as it is: the record is not
    written back. *)
Theorem ping_does_not_restore_record (env : Env) (d : SessionDaemon)
    (data : jsstring) (w : world) :
  trim data = units "ping" ->
  truthy (parsed (record_of w (sessionName d))) = false ->
  on_data env d data w =
    (Ok (set_lastActivity (now w) d, [SockWrite ("pong" +:+ nl)]), w).
Proof.
  intros Hping T. unfold on_data. rewrite (str_eq_true _ _ Hping).
  unfold bind. rewrite updateActivity_eq.
  unfold updateSessionActivity, bind, Date_now. rewrite updateSession_eq, T.
  reflexivity.
Qed.

Lemma ping_does_not_restore_record_witness :
  on_data env_up daemon_s1 (units ("ping" +:+ nl)) (fresh 61000) =
    (Ok (set_lastActivity (now (fresh 61000)) daemon_s1,
         [SockWrite ("pong" +:+ nl)]), fresh 61000).
Proof.
  apply (ping_does_not_restore_record env_up daemon_s1 (units ("ping" +:+ nl))
           (fresh 61000)); reflexivity.
Defined.

Lemma on_data_not_ping (env : Env) (d : SessionDaemon) (data : jsstring) (w : world) :
  str_eq (trim data) (units "ping") = false ->
  exists out,
    on_data env d data w = (Ok (d, out), w) /\
    length out = (if recognised data then 1%nat else 0%nat).
Proof.
  intros Hp. unfold on_data, recognised. rewrite Hp. cbn [orb].
  destruct (str_eq (trim data) (units "status")).
  - unfold bind, Date_now. eexists. split; reflexivity.
  - eexists. split; reflexivity.
Qed.

(** X14: requests other than [ping] are not activity: a connection that
    carries no ping, however many [status] requests it makes, leaves the
    daemon object (so its deadline) and the sessions directory exactly as
    they were, while every [status] is answered. *)
Theorem status_is_not_activity (env : Env) (d : SessionDaemon)
    (chunks : list (Z * jsstring)) (w : world) :
  forallb (fun c => negb (str_eq (trim (snd c)) (units "ping"))) chunks = true ->
  exists out w',
    serve_connection env d chunks w = (Ok (d, out), w') /\
    files w' = files w /\ trace w' = trace w /\
    length out = length (List.filter (fun c => recognised (snd c)) chunks).
Proof.
  revert w. induction chunks as [|[t data] rest IH]; intros w H.
  - exists [], w. repeat split.
  - cbn [forallb snd] in H. apply andb_true_iff in H as [Hd Hrest].
    apply negb_true_iff in Hd.
    cbn [serve_connection]. unfold bind at 1, at_time.
    destruct (on_data_not_ping env d data (World (files w) t (trace w)) Hd)
      as (out1 & -> & L1).
    unfold bind at 1.
    destruct (IH (World (files w) t (trace w)) Hrest) as (out2 & w' & -> & Hf & Ht & L2).
    exists (out1 ++ out2)%list, w'. split; [reflexivity|].
    split; [exact Hf|]. split; [exact Ht|].
    rewrite length_app, L1, L2. cbn [List.filter snd].
    destruct (recognised data); reflexivity.
Qed.

Lemma status_is_not_activity_witness :
  exists out w',
    serve_connection env_up daemon_s1
      [ (2000, units ("status" +:+ nl)); (3000, units "hello");
        (4000, units ("status" +:+ nl)) ] (world_s1 2000)
      = (Ok (daemon_s1, out), w') /\
    files w' = files (world_s1 2000) /\ trace w' = trace (world_s1 2000) /\
    length out =
      length (List.filter (fun c => recognised (snd c))
                [ (2000, units ("status" +:+ nl)); (3000, units "hello");
                  (4000, units ("status" +:+ nl)) ]).
Proof.
  apply (status_is_not_activity env_up daemon_s1
           [ (2000, units ("status" +:+ nl)); (3000, units "hello");
             (4000, units ("status" +:+ nl)) ] (world_s1 2000)).
  reflexivity.
Defined.

(** ** More about the client *)

(** The graceful-close attempt of [stopSession] never fails and never
    touches the directory. *)
Lemma graceful_close (env : Env) (v : option json) (w : world) :
  exists tr,
    try_catch
      (let! b := ask (env_connect env v) in
       ask (env_close env b);;
       emit EvBrowserClosed)
      (fun _ => ret tt) w
    = (Ok tt, World (files w) (now w) (trace w ++ tr)).
Proof.
  unfold try_catch, bind, ask, emit, ret.
  destruct (env_connect env v) as [b|msg].
  - destruct (env_close env b) as [[]|msg].
    + exists [EvBrowserClosed]. reflexivity.
    + exists []. rewrite app_nil_r. now destruct w.
  - exists []. rewrite app_nil_r. now destruct w.
Qed.

Lemma stopSession_cases (env : Env) (wb : WebSourceBrowser) (name : string)
    (w : world) :
  (truthy (parsed (record_of w name)) = true /\
   exists w',
     stopSession env wb name w =
       (Ok (if current_is wb name then Client None None None else wb, name), w') /\
     files w' = delete (getSessionFile name) (files w)) \/
  (truthy (parsed (record_of w name)) = false /\
   stopSession env wb name w =
     (Throw ("Session '" +:+ name +:+ "' does not exist"), w)).
Proof.
  destruct (truthy (parsed (record_of w name))) eqn:T; [left|right];
    (split; [reflexivity|]);
    unfold stopSession; unfold bind at 1; rewrite getSession_eq, T.
  - cbn [negb]. unfold bind at 1.
    destruct (graceful_close env (get_prop (parsed (record_of w name)) "wsEndpoint") w)
      as [tr ->].
    unfold bind at 1. rewrite deleteSession_eq.
    assert (P : present (World (files w) (now w) (trace w ++ tr)) name = true).
    { apply truthy_parsed_present. exact T. }
    rewrite P. eexists. split; reflexivity.
  - reflexivity.
Qed.

(** X15: [stopSession] on a usable record always succeeds, whether or not
    the browser can still be reached and closed: the record is removed, no
    other entry changes, and the client forgets its browser, page and
    session exactly when the stopped session is its current one.  On a
    missing record, and on one that cannot be parsed, it throws "does not
    exist" and changes nothing, so an unparsable file stays. *)
Theorem stopSession_outcome (env : Env) (wb : WebSourceBrowser) (name : string)
    (w : world) :
  (truthy (parsed (record_of w name)) = true ->
     exists w',
       stopSession env wb name w =
         (Ok (if current_is wb name then Client None None None else wb, name), w') /\
       files w' = delete (getSessionFile name) (files w)) /\
  (truthy (parsed (record_of w name)) = false ->
     stopSession env wb name w =
       (Throw ("Session '" +:+ name +:+ "' does not exist"), w)).
Proof.
  destruct (stopSession_cases env wb name w) as [[T H]|[T H]]; rewrite T; split;
    intros; try discriminate; assumption.
Qed.

Lemma stopSession_outcome_witness :
  (truthy (parsed (record_of (world_s1 5) "s1")) = true ->
     exists w',
       stopSession env_down (Client None None None) "s1" (world_s1 5) =
         (Ok (if current_is (Client None None None) "s1"
              then Client None None None else Client None None None, "s1"), w') /\
       files w' = delete (getSessionFile "s1") (files (world_s1 5))) /\
  (truthy (parsed (record_of (world_s1 5) "s1")) = false ->
     stopSession env_down (Client None None None) "s1" (world_s1 5) =
       (Throw ("Session '" +:+ "s1" +:+ "' does not exist"), world_s1 5)).
Proof.
  exact (stopSession_outcome env_down (Client None None None) "s1" (world_s1 5)).
Defined.

(** X16: once [stopSession] has succeeded the session is gone for every
    client: resolving it fails with the "does not exist" error and changes
    nothing, and [startSession] no longer refuses the name. *)
Theorem stopped_session_is_absent (env env' : Env) (wb wb' : WebSourceBrowser)
    (name : string) (headless : bool) (w w' : world) (res : WebSourceBrowser * string) :
  stopSession env wb name w = (Ok res, w') ->
  connectToSession env' wb' name w' =
    (Throw ("Session '" +:+ name +:+
            "' does not exist. Use --start to create a session first."), w') /\
  fst (startSession env' name headless w') <>
    Throw ("Session '" +:+ name +:+ "' already exists and is active").
Proof.
  intros Hs.
  assert (R : record_of w' name = None).
  { destruct (stopSession_cases env wb name w) as [(T & w1 & E & Hf)|[T E]].
    - rewrite E in Hs. injection Hs as _ <-.
      unfold record_of. rewrite Hf. apply lookup_delete_eq.
    - rewrite E in Hs. discriminate. }
  split.
  - unfold connectToSession, bind. rewrite getSession_eq, R. reflexivity.
  - unfold startSession. unfold bind at 1. unfold bind at 1.
    rewrite sessionExists_eq. unfold present. rewrite R.
    rewrite bool_decide_eq_false_2 by (intros [x Hx]; discriminate).
    unfold ret at 1. unfold try_catch.
    destruct ((emit (EvSpawnDaemon name headless);;
               poll_session env' name maxAttempts 0) w') as [[a|msg|msg] w2];
      cbn [fst]; discriminate.
Qed.

Lemma stopped_session_is_absent_witness :
  connectToSession env_up (Client None None None) "s1"
    (snd (stopSession env_down (Client None None None) "s1" (world_s1 5))) =
    (Throw ("Session '" +:+ "s1" +:+
            "' does not exist. Use --start to create a session first."),
     snd (stopSession env_down (Client None None None) "s1" (world_s1 5))) /\
  fst (startSession env_up "s1" true
         (snd (stopSession env_down (Client None None None) "s1" (world_s1 5)))) <>
    Throw ("Session '" +:+ "s1" +:+ "' already exists and is active").
Proof.
  apply (stopped_session_is_absent env_down env_up (Client None None None)
           (Client None None None) "s1" true (world_s1 5)
           (snd (stopSession env_down (Client None None None) "s1" (world_s1 5)))
           (Client None None None, "s1")).
  vm_compute. reflexivity.
Defined.

(** What [pingDaemon] does, by cases. *)
Lemma pingDaemon_eq (env : Env) (name : string) (w : world) :
  pingDaemon env name w =
  let session := parsed (record_of w name) in
  if negb (truthy session) || negb (prop_truthy session "controlPort") then
    (Throw ("Session '" +:+ name +:+ "' has no control port"), w)
  else
    match env_ping env (get_prop session "controlPort") with
    | PingError msg => (Throw msg, w)
    | PingData chunks =>
        if existsb (fun data => str_eq (trim data) (units "pong")) chunks
        then (Ok tt, w)
        else (Throw "Daemon ping timeout",
              World (files w) (now w + 5000) (trace w ++ [EvSleep 5000]))
    end.
Proof.
  unfold pingDaemon, bind. rewrite getSession_eq. cbv zeta.
  destruct (negb (truthy (parsed (record_of w name))) ||
            negb (prop_truthy (parsed (record_of w name)) "controlPort"));
    [reflexivity|].
  destruct (env_ping env _) as [msg|chunks]; [reflexivity|].
  destruct (existsb (fun data => str_eq (trim data) (units "pong")) chunks);
    reflexivity.
Qed.

Lemma trim_pong (data : jsstring) : padded "pong" data <-> trim data = units "pong".
Proof.
  split.
  - intros (pre & post & Hpre & Hpost & ->).
    exact (trim_padded pre post [111; 110]%N 112%N 103%N Hpre Hpost eq_refl eq_refl).
  - intros E. destruct (trim_split data) as (pre & post & Hpre & Hpost & Hd).
    exists pre, post. rewrite E in Hd. auto.
Qed.

Lemma existsb_pong (chunks : list jsstring) :
  existsb (fun data => str_eq (trim data) (units "pong")) chunks = true <->
  exists data, In data chunks /\ padded "pong" data.
Proof.
  rewrite existsb_exists. split; intros (data & Hin & H); exists data; split; auto.
  - apply trim_pong. now apply bool_decide_eq_true_1 in H.
  - apply str_eq_true. now apply trim_pong.
Qed.

(** X17: how [pingDaemon] ends, case by case; it never writes or removes a
    file.  Without a usable record, or with a record that has no
    [controlPort], it throws "Session '<name>' has no control port" at once
    and nothing has changed.  With a control port: a socket error is thrown
    as it is, at once and with nothing changed; when one of the chunks that
    come back within 5 s carries [pong] (with white space around it or
    none) it resolves, at once and with nothing changed; when none does
    (silence, or other text only) it throws "Daemon ping timeout" after the
    5000 ms of its timer, the directory as it was. *)
Theorem pingDaemon_outcome (env : Env) (name : string) (w : world) :
  let session := parsed (record_of w name) in
  (truthy session = false \/ prop_truthy session "controlPort" = false ->
   pingDaemon env name w =
     (Throw ("Session '" +:+ name +:+ "' has no control port"), w)) /\
  (truthy session = true -> prop_truthy session "controlPort" = true ->
   (forall msg,
      env_ping env (get_prop session "controlPort") = PingError msg ->
      pingDaemon env name w = (Throw msg, w)) /\
   (forall chunks,
      env_ping env (get_prop session "controlPort") = PingData chunks ->
      ((exists data, In data chunks /\ padded "pong" data) ->
       pingDaemon env name w = (Ok tt, w)) /\
      ((forall data, In data chunks -> ~ padded "pong" data) ->
       pingDaemon env name w =
         (Throw "Daemon ping timeout",
          World (files w) (now w + 5000) (trace w ++ [EvSleep 5000]))))).
Proof.
  cbv zeta. rewrite pingDaemon_eq. cbv zeta. split.
  - intros [->| ->]; [reflexivity|].
    now rewrite orb_true_r.
  - intros -> ->. cbn [negb orb]. split.
    + intros msg ->. reflexivity.
    + intros chunks ->. split.
      * intros H%existsb_pong. now rewrite H.
      * intros H.
        destruct (existsb (fun data => str_eq (trim data) (units "pong")) chunks)
          eqn:X; [|reflexivity].
        apply existsb_pong in X as (data & Hin & Hp). now destruct (H data Hin).
Qed.

Lemma pingDaemon_outcome_witness :
  pingDaemon env_up "s1" (world_s1 2000) = (Ok tt, world_s1 2000) /\
  pingDaemon env_down "s1" (world_s1 2000) =
    (Throw "connect ECONNREFUSED 127.0.0.1:9320", world_s1 2000) /\
  pingDaemon env_up "s1" (fresh 2000) =
    (Throw "Session 's1' has no control port", fresh 2000).
Proof.
  split; [|split].
  - destruct (pingDaemon_outcome env_up "s1" (world_s1 2000)) as [_ H].
    destruct (H eq_refl eq_refl) as [_ Hd].
    apply (Hd [units ("pong" +:+ nl)] eq_refl).
    exists (units ("pong" +:+ nl)). split; [now left|].
    exists [], [10%N]. repeat split; repeat constructor.
  - destruct (pingDaemon_outcome env_down "s1" (world_s1 2000)) as [_ H].
    destruct (H eq_refl eq_refl) as [He _].
    apply He. reflexivity.
  - destruct (pingDaemon_outcome env_up "s1" (fresh 2000)) as [H _].
    apply H. left. reflexivity.
Defined.

(** A daemon that answers with anything but [pong] is waited for in vain:
    the client gives up after 5 s. *)
Example pingDaemon_times_out_on_other_text :
  let env := {| env_iso := env_iso env_up; env_pid := 1; env_random100 := 7;
                env_port_free := fun _ => true; env_listen_ok := fun _ => true;
                env_any_port := 40001;
                env_executablePath := env_executablePath env_up;
                env_spawn_ok := env_spawn_ok env_up;
                env_debugger_url := env_debugger_url env_up;
                env_connect := env_connect env_up;
                env_disconnect := env_disconnect env_up;
                env_close := env_close env_up;
                env_first_page := env_first_page env_up;
                env_newPage := env_newPage env_up;
                env_location := env_location env_up;
                env_ping := fun _ => PingData [units "pongpong"];
                env_others := env_others env_up |} in
  pingDaemon env "s1" (world_s1 2000) =
    (Throw "Daemon ping timeout",
     World (files (world_s1 2000)) 7000 [EvSleep 5000]) /\
  pingDaemon env_up "s1" (world_s1 2000) = (Ok tt, world_s1 2000) /\
  pingDaemon env_down "s1" (world_s1 2000) =
    (Throw "connect ECONNREFUSED 127.0.0.1:9320", world_s1 2000).
Proof. repeat split; vm_compute; reflexivity. Qed.

(** X18: the two ends of the control channel agree: whatever the daemon
    answers to the line [ping], a client whose ping receives that answer
    resolves. *)
Theorem ping_round_trip (envd envc : Env) (d : SessionDaemon) (wd wc : world)
    (name : string) :
  truthy (parsed (record_of wc name)) = true ->
  prop_truthy (parsed (record_of wc name)) "controlPort" = true ->
  exists d' answer wd',
    on_data envd d (units ("ping" +:+ nl)) wd = (Ok (d', [SockWrite answer]), wd') /\
    (env_ping envc (get_prop (parsed (record_of wc name)) "controlPort")
       = PingData [units answer] ->
     pingDaemon envc name wc = (Ok tt, wc)).
Proof.
  intros T P. unfold on_data.
  change (str_eq (trim (units ("ping" +:+ nl))) (units "ping")) with true.
  unfold bind. rewrite updateActivity_eq.
  eexists _, _, _. split; [reflexivity|].
  intros E. rewrite pingDaemon_eq. cbv zeta. rewrite T, P, E. reflexivity.
Qed.

Lemma ping_round_trip_witness :
  exists d' answer wd',
    on_data env_up daemon_s1 (units ("ping" +:+ nl)) (world_s1 2000)
      = (Ok (d', [SockWrite answer]), wd') /\
    (env_ping env_up (get_prop (parsed (record_of (world_s1 2000) "s1")) "controlPort")
       = PingData [units answer] ->
     pingDaemon env_up "s1" (world_s1 2000) = (Ok tt, world_s1 2000)).
Proof.
  apply (ping_round_trip env_up env_up daemon_s1 (world_s1 2000) (world_s1 2000) "s1");
    reflexivity.
Defined.

(** X19: what [connectToSession] can do to the world.  When it resolves,
    nothing was written, removed or waited for, and the client holds a
    browser, a page and, as current session, the record it read.  When it
    throws, the directory is either untouched or has lost exactly the record
    of this session, and the latter only together with the "no longer
    active" or the "Failed to connect" error.  It never creates or rewrites
    a record. *)
Theorem connectToSession_effects (env : Env) (wb : WebSourceBrowser)
    (name : string) (w : world) :
  match connectToSession env wb name w with
  | (Ok (wb', r), w') =>
      r = true /\ w' = w /\
      is_Some (wb_browser wb') /\ is_Some (wb_page wb') /\
      wb_currentSession wb' = Some (parsed (record_of w name)) /\
      truthy (parsed (record_of w name)) = true
  | (Throw msg, w') =>
      files w' = files w \/
      (files w' = delete (getSessionFile name) (files w) /\
       (msg = "Session '" +:+ name +:+
              "' is no longer active. Use --start to create a new session." \/
        exists e, msg = "Failed to connect to session '" +:+ name +:+ "': " +:+ e))
  | (Crash _, _) => False
  end.
Proof.
  unfold connectToSession. unfold bind at 1. rewrite getSession_eq.
  destruct (truthy (parsed (record_of w name))) eqn:T; cbn [negb];
    [|now left].
  unfold bind at 1. rewrite pingDaemon_eq. cbv zeta. rewrite T. cbn [negb orb].
  destruct (prop_truthy (parsed (record_of w name)) "controlPort"); cbn [negb];
    [|now left].
  destruct (env_ping env _) as [msg|chunks]; [now left|].
  destruct (existsb (fun data => str_eq (trim data) (units "pong")) chunks);
    [|now left].
  unfold bind at 1. rewrite isSessionActive_eq. rewrite T. cbn [andb].
  assert (P : present w name = true) by now apply truthy_parsed_present.
  destruct (env_connect env (get_prop (parsed (record_of w name)) "wsEndpoint"))
    as [b|msg] eqn:Ec.
  2:{ cbn [negb]. unfold bind at 1. rewrite deleteSession_eq, P.
      unfold throw. right. split; [reflexivity|]. now left. }
  destruct (env_disconnect env b) as [[]|msg].
  2:{ cbn [negb]. unfold bind at 1. rewrite deleteSession_eq, P.
      unfold throw. right. split; [reflexivity|]. now left. }
  cbn [negb]. unfold try_catch. unfold bind at 1, ask.
  unfold bind at 1.
  destruct (env_first_page env b) as [[p|]|msg].
  - unfold bind at 1, ret at 1. unfold bind at 1, try_catch, bind, ask.
    destruct (env_location env p); unfold ret; cbn [wb_browser wb_page wb_currentSession];
      repeat split; eauto.
  - unfold bind at 1.
    destruct (env_newPage env b) as [p|msg].
    + unfold bind at 1, try_catch, bind, ask.
      destruct (env_location env p); unfold ret; cbn [wb_browser wb_page wb_currentSession];
        repeat split; eauto.
    + unfold bind at 1. rewrite deleteSession_eq, P. unfold throw.
      right. split; [reflexivity|]. right. eauto.
  - unfold bind at 1. rewrite deleteSession_eq, P. unfold throw.
    right. split; [reflexivity|]. right. eauto.
Qed.

Lemma with_active_eq (env : Env) (sessions : list json) (w : world) :
  with_active env sessions w =
    (Ok (map (fun session =>
                spread session
                  [("active",
                    JBool (match fst (isSessionActive env
                                        (template (get_prop session "name")) w) with
                           | Ok a => a
                           | _ => false
                           end))]) sessions), w).
Proof.
  induction sessions as [|s rest IH]; [reflexivity|].
  cbn [with_active map]. unfold bind at 1. rewrite isSessionActive_eq.
  unfold bind at 1. rewrite IH. reflexivity.
Qed.

(** X20: the client's [listSessions] only reads.  It returns one object
    per session listed by the store, in the same order: the stored record
    with a boolean [active] that is the answer of the liveness probe for the
    record's [name], every other property unchanged. *)
Theorem listSessions_with_status_reads_only (env : Env) (w : world) :
  exists sessions listed,
    listSessions w = (Ok sessions, w) /\
    listSessions_with_status env w = (Ok listed, w) /\
    Forall2
      (fun session entry =>
         (exists active,
            isSessionActive env (template (get_prop session "name")) w
              = (Ok active, w) /\
            obj_get "active" entry = Some (JBool active)) /\
         forall k, k <> "active" -> obj_get k entry = obj_get k (own_props session))
      sessions listed.
Proof.
  destruct (listSessions_frame w) as [sessions E].
  unfold listSessions_with_status, bind. rewrite E, with_active_eq.
  eexists _, _. split; [reflexivity|]. split; [reflexivity|].
  clear E. induction sessions as [|s rest IH]; cbn [map]; constructor; [|exact IH].
  split.
  - rewrite isSessionActive_eq. cbn [fst]. eexists. split; [reflexivity|].
    rewrite obj_get_spread. reflexivity.
  - intros k Hk. rewrite obj_get_spread. cbn [rev app obj_get].
    destruct (String.eqb_spec k "active"); [contradiction|reflexivity].
Qed.

(** ** Navigation *)

(** X21: a client that is already attached to the session does not go
    back to the daemon: [navigate] sends no ping and makes no liveness
    probe, so its result does not depend on any answer the daemon, the
    control port or puppeteer's connect would give. *)
Theorem navigate_attached_asks_nobody (env env' : Env) (penv : PageEnv)
    (wb : WebSourceBrowser) (url name : string) (waitTime : Z) (w : world) :
  must_connect wb name = false ->
  navigate env penv wb url name waitTime w =
  navigate env' penv wb url name waitTime w.
Proof.
  intros H. unfold navigate, require_session. rewrite H. reflexivity.
Qed.

Lemma navigate_attached_asks_nobody_witness :
  navigate env_up page_up client_s1 "https://example.com" "s1" 2000 (world_s1 5) =
  navigate env_down page_up client_s1 "https://example.com" "s1" 2000 (world_s1 5).
Proof.
  apply (navigate_attached_asks_nobody env_up env_down page_up client_s1
           "https://example.com" "s1" 2000 (world_s1 5)).
  reflexivity.
Defined.

(** X22: [navigate] on an attached client with a page.  If it resolves,
    the client is unchanged, the result is the page data of the loaded
    document, the wait was [waitTime] when that is positive, and a usable
    record now has [currentUrl] equal to the final URL of the page with all
    its other properties as before (a missing record is not created).  If
    it throws, the message is "Failed to navigate to <url>: " followed by
    the error of the step that failed (the load of the URL, or else the
    scan of the loaded document), and the directory is untouched. *)
Theorem navigate_attached_outcome (env : Env) (penv : PageEnv)
    (wb : WebSourceBrowser) (p : page) (url name : string) (waitTime : Z)
    (w : world) :
  must_connect wb name = false ->
  wb_page wb = Some p ->
  match navigate env penv wb url name waitTime w with
  | (Ok (wb', data), w') =>
      wb' = wb /\
      pe_goto penv p url = Resolved tt /\
      (exists doc, pe_document penv p = Resolved doc /\ data = page_data doc) /\
      now w' = now w + Z.max 0 waitTime /\
      (forall props,
         record_of w name = Some (FJson (JObj props)) ->
         exists props',
           record_of w' name = Some (FJson (JObj props')) /\
           obj_get "currentUrl" props' = Some (JStr (pi_url (fst data))) /\
           forall k, k <> "currentUrl" -> obj_get k props' = obj_get k props) /\
      (truthy (parsed (record_of w name)) = false -> files w' = files w)
  | (Throw msg, w') =>
      files w' = files w /\
      exists cause,
        msg = "Failed to navigate to " +:+ url +:+ ": " +:+ cause /\
        (pe_goto penv p url = Rejected cause \/
         pe_goto penv p url = Resolved tt /\ pe_document penv p = Rejected cause)
  | (Crash _, _) => False
  end.
Proof.
  intros Hc Hp. unfold navigate, require_session. rewrite Hc.
  unfold bind at 1, ret at 1. rewrite Hp.
  unfold try_catch. unfold bind at 1, ask.
  destruct (pe_goto penv p url) as [[]|e]; [|unfold throw; split; eauto].
  unfold bind at 1.
  assert (Hw : exists tr,
             (if waitTime >? 0 then sleep waitTime else ret tt) w =
             (Ok tt, World (files w) (now w + Z.max 0 waitTime) (trace w ++ tr))).
  { destruct (Z.gtb_spec waitTime 0).
    - exists [EvSleep waitTime]. unfold sleep. do 3 f_equal. lia.
    - exists []. unfold ret. rewrite app_nil_r.
      replace (now w + Z.max 0 waitTime) with (now w) by lia. now destruct w. }
  destruct Hw as [tr ->].
  unfold bind at 1.
  destruct (pe_document penv p) as [doc|e]; [|unfold throw; split; eauto].
  unfold bind at 1. rewrite updateSession_eq.
  set (w1 := World (files w) (now w + Z.max 0 waitTime) (trace w ++ tr)).
  change (record_of w1 name) with (record_of w name).
  destruct (truthy (parsed (record_of w name))) eqn:T.
  - unfold ret. cbn [now].
    split; [reflexivity|]. split; [reflexivity|].
    split; [eauto|]. split; [reflexivity|]. split.
    + intros props R. rewrite R. cbn [parsed].
      eexists. unfold record_of at 1. cbn [files]. rewrite lookup_insert_eq.
      split; [reflexivity|]. split.
      * rewrite obj_get_spread. reflexivity.
      * intros k Hk. rewrite obj_get_spread. cbn [rev app obj_get].
        destruct (String.eqb_spec k "currentUrl"); [contradiction|reflexivity].
    + discriminate.
  - unfold ret. cbn [now].
    split; [reflexivity|]. split; [reflexivity|].
    split; [eauto|]. split; [reflexivity|]. split.
    + intros props R. rewrite R in T. discriminate.
    + reflexivity.
Qed.

Lemma navigate_attached_outcome_witness :
  match navigate env_up page_up client_s1 "https://example.com" "s1" 2000 (world_s1 5) with
  | (Ok (wb', data), w') =>
      wb' = client_s1 /\
      pe_goto page_up 1%N "https://example.com" = Resolved tt /\
      (exists doc, pe_document page_up 1%N = Resolved doc /\ data = page_data doc) /\
      now w' = now (world_s1 5) + Z.max 0 2000 /\
      (forall props,
         record_of (world_s1 5) "s1" = Some (FJson (JObj props)) ->
         exists props',
           record_of w' "s1" = Some (FJson (JObj props')) /\
           obj_get "currentUrl" props' = Some (JStr (pi_url (fst data))) /\
           forall k, k <> "currentUrl" -> obj_get k props' = obj_get k props) /\
      (truthy (parsed (record_of (world_s1 5) "s1")) = false ->
       files w' = files (world_s1 5))
  | (Throw msg, w') =>
      files w' = files (world_s1 5) /\
      exists cause,
        msg = "Failed to navigate to " +:+ "https://example.com" +:+ ": " +:+ cause
  | (Crash _, _) => False
  end.
Proof.
  apply (navigate_attached_outcome env_up page_up client_s1 1%N
           "https://example.com" "s1" 2000 (world_s1 5)); reflexivity.
Defined.

(** X23: after [cleanup] the client still counts as attached to its
    session but has no page: [navigate] to that session does not reconnect,
    it throws "No active page. Session may have been corrupted." and
    changes nothing. *)
Theorem navigate_after_cleanup (env env' : Env) (penv : PageEnv)
    (wb : WebSourceBrowser) (b : browser) (url name : string) (waitTime : Z)
    (w : world) :
  wb_browser wb = Some b ->
  env_close env b = Resolved tt ->
  must_connect wb name = false ->
  exists wb' w',
    cleanup env wb w = (Ok wb', w') /\
    files w' = files w /\
    navigate env' penv wb' url name waitTime w' =
      (Throw "No active page. Session may have been corrupted.", w').
Proof.
  intros Hb Hclose Hc. unfold cleanup. rewrite Hb.
  unfold bind, ask, emit, ret. rewrite Hclose.
  eexists _, _. split; [reflexivity|]. split; [reflexivity|].
  unfold navigate, require_session.
  change (must_connect (Client None None (wb_currentSession wb)) name)
    with (must_connect wb name).
  rewrite Hc. reflexivity.
Qed.

Lemma navigate_after_cleanup_witness :
  exists wb' w',
    cleanup env_up client_s1 (world_s1 5) = (Ok wb', w') /\
    files w' = files (world_s1 5) /\
    navigate env_up page_up wb' "https://example.com" "s1" 2000 w' =
      (Throw "No active page. Session may have been corrupted.", w').
Proof.
  apply (navigate_after_cleanup env_up env_up page_up client_s1 1%N
           "https://example.com" "s1" 2000 (world_s1 5)); reflexivity.
Defined.

(** ** The scan of the page *)

Lemma lex_leb_total (a b : list N) : lex_leb a b = true \/ lex_leb b a = true.
Proof.
  revert b. induction a as [|x a IH]; intros b.
  - left. reflexivity.
  - destruct b as [|y b]; [right; reflexivity|]. cbn.
    destruct (N.ltb_spec x y); [now left|].
    destruct (N.ltb_spec y x); [now right|].
    apply IH.
Qed.

Lemma insert_sorted_perm (x : list N) (l : list (list N)) :
  Permutation (x :: l) (insert_sorted x l).
Proof.
  induction l as [|y l IH]; cbn; [reflexivity|].
  destruct (lex_leb x y); [reflexivity|].
  rewrite perm_swap. now constructor.
Qed.

Lemma insert_sorted_sorted (x : list N) (l : list (list N)) :
  Sorted lex_le l -> Sorted lex_le (insert_sorted x l).
Proof.
  induction l as [|y l IH]; intros Hs; cbn.
  - repeat constructor.
  - destruct (lex_leb x y) eqn:E.
    + constructor; [exact Hs|]. constructor. exact E.
    + inversion Hs as [|? ? Hs' Hhd]; subst.
      constructor; [now apply IH|].
      assert (Hyx : lex_le y x).
      { destruct (lex_leb_total x y); [congruence|assumption]. }
      destruct l as [|z l]; cbn.
      * constructor. exact Hyx.
      * destruct (lex_leb x z); constructor; [exact Hyx|].
        now inversion Hhd.
Qed.

Lemma js_sort_perm (l : list (list N)) : Permutation l (js_sort l).
Proof.
  induction l as [|x l IH]; cbn; [reflexivity|].
  rewrite <- insert_sorted_perm. now constructor.
Qed.

Lemma js_sort_sorted (l : list (list N)) : Sorted lex_le (js_sort l).
Proof.
  induction l as [|x l IH]; cbn; [constructor|].
  now apply insert_sorted_sorted.
Qed.

Lemma existsb_str_eq (s : list N) (l : list (list N)) :
  existsb (str_eq s) l = true <-> In s l.
Proof.
  rewrite existsb_exists. split.
  - intros (x & Hin & E). unfold str_eq in E.
    apply bool_decide_eq_true_1 in E. now subst.
  - intros Hin. exists s. split; [exact Hin|]. now apply str_eq_true.
Qed.

Lemma NoDup_snoc (x : list N) (l : list (list N)) :
  List.NoDup l -> ~ In x l -> List.NoDup (l ++ [x])%list.
Proof.
  induction l as [|y l IH]; intros Hnd Hx; cbn.
  - constructor; [intros []|constructor].
  - inversion Hnd as [|? ? Hy Hl]; subst. constructor.
    + rewrite in_app_iff. intros [H|[H|[]]]; [now apply Hy|].
      subst. apply Hx. now left.
    + apply IH; [exact Hl|]. intros H. apply Hx. now right.
Qed.

Lemma add_classes_spec (tokens : list (list N)) (acc : list (list N)) :
  List.NoDup acc ->
  List.NoDup (fold_left add_class tokens acc) /\
  forall s, In s (fold_left add_class tokens acc) <->
            In s acc \/ In s (flat_map token_selector tokens).
Proof.
  revert acc. induction tokens as [|cls rest IH]; intros acc Hnd.
  - cbn. split; [exact Hnd|]. intros s. tauto.
  - cbn [fold_left flat_map].
    assert (H1 : List.NoDup (add_class acc cls) /\
                 forall s, In s (add_class acc cls) <->
                           In s acc \/ In s (token_selector cls)).
    { unfold add_class, token_selector.
      destruct (nonempty (trim cls)); [|split; [exact Hnd|cbn; tauto]].
      cbv zeta.
      destruct (existsb (str_eq (46%N :: trim cls)) acc) eqn:E.
      - apply existsb_str_eq in E. split; [exact Hnd|].
        intros s. cbn. split; [tauto|]. intros [H|[<-|[]]]; assumption.
      - split.
        + apply NoDup_snoc; [exact Hnd|].
          intros Hin. apply existsb_str_eq in Hin. congruence.
        + intros s. rewrite in_app_iff. reflexivity. }
    destruct H1 as [Hnd1 Hin1].
    destruct (IH (add_class acc cls) Hnd1) as [Hnd2 Hin2].
    split; [exact Hnd2|].
    intros s. rewrite Hin2, Hin1, in_app_iff. tauto.
Qed.

Lemma scan_element_classes (st : scan) (el : element) :
  List.NoDup (classes_found st) ->
  List.NoDup (classes_found (scan_element st el)) /\
  forall s, In s (classes_found (scan_element st el)) <->
            In s (classes_found st) \/ In s (element_classes el).
Proof.
  intros Hnd. unfold scan_element, element_classes. cbn [classes_found].
  destruct (el_className el) as [cn|]; [|split; [exact Hnd|cbn; tauto]].
  destruct cn as [|c cn]; [split; [exact Hnd|cbn; tauto]|].
  cbn [nonempty]. now apply add_classes_spec.
Qed.

Lemma scan_classes (els : list element) (st : scan) :
  List.NoDup (classes_found st) ->
  List.NoDup (classes_found (fold_left scan_element els st)) /\
  forall s, In s (classes_found (fold_left scan_element els st)) <->
            In s (classes_found st) \/ In s (flat_map element_classes els).
Proof.
  revert st. induction els as [|el els IH]; intros st Hnd.
  - cbn. split; [exact Hnd|]. intros s. tauto.
  - cbn [fold_left flat_map].
    destruct (scan_element_classes st el Hnd) as [Hnd1 Hin1].
    destruct (IH (scan_element st el) Hnd1) as [Hnd2 Hin2].
    split; [exact Hnd2|].
    intros s. rewrite Hin2, Hin1, in_app_iff. tauto.
Qed.

Lemma scan_ids (els : list element) (st : scan) :
  ids_found (fold_left scan_element els st) =
  (ids_found st ++ flat_map element_id els)%list.
Proof.
  revert st. induction els as [|el els IH]; intros st.
  - cbn. now rewrite app_nil_r.
  - cbn [fold_left flat_map]. rewrite IH. unfold scan_element, element_id.
    cbn [ids_found]. destruct (nonempty (el_id el)).
    + now rewrite <- app_assoc.
    + reflexivity.
Qed.

Lemma scan_counts (els : list element) (st : scan) (tag : list N) :
  default 0%nat (tagCounts (fold_left scan_element els st) !! tag) =
  (default 0%nat (tagCounts st !! tag) +
   length (List.filter (fun el => str_eq (el_tag el) tag) els))%nat.
Proof.
  revert st. induction els as [|el els IH]; intros st.
  - cbn. lia.
  - cbn [fold_left List.filter]. rewrite IH. unfold scan_element.
    cbn [tagCounts]. unfold str_eq at 2.
    destruct (decide (el_tag el = tag)) as [->|Hne].
    + rewrite lookup_insert_eq, bool_decide_eq_true_2 by reflexivity. cbn. lia.
    + rewrite lookup_insert_ne by assumption.
      rewrite bool_decide_eq_false_2 by assumption. reflexivity.
Qed.

(** X24: the class selectors [navigate] reports are sorted, contain no
    selector twice, and are exactly the selectors [.token] for the
    non-blank, trimmed tokens that the space-separated [className] strings
    of the page's elements contain. *)
Theorem classSelectors_spec (doc : document) :
  let found := classSelectors (snd (page_data doc)) in
  Sorted lex_le found /\
  List.NoDup found /\
  forall s,
    In s found <->
    exists el className cls,
      In el (doc_elements doc) /\
      el_className el = Some className /\
      In cls (split_on 32 className []) /\
      nonempty (trim cls) = true /\
      s = 46%N :: trim cls.
Proof.
  cbv zeta. unfold page_data. cbn [snd classSelectors].
  destruct (scan_classes (doc_elements doc) (Scan ∅ [] [])) as [Hnd Hin];
    [constructor|].
  split; [apply js_sort_sorted|]. split.
  - eapply Permutation_NoDup; [apply js_sort_perm|exact Hnd].
  - intros s. rewrite <- (Permutation_in' (eq_refl s) (js_sort_perm _)).
    rewrite Hin. cbn [classes_found]. rewrite in_flat_map. split.
    + intros [[]|(el & Hel & Hs)]. unfold element_classes in Hs.
      destruct (el_className el) as [cn|] eqn:Ecn; [|contradiction].
      apply in_flat_map in Hs as (cls & Hcls & Hs).
      unfold token_selector in Hs.
      destruct (nonempty (trim cls)) eqn:Ene; [|contradiction].
      destruct Hs as [<-|[]]. exists el, cn, cls. auto.
    + intros (el & cn & cls & Hel & Ecn & Hcls & Ene & ->).
      right. exists el. split; [exact Hel|].
      unfold element_classes. rewrite Ecn. apply in_flat_map.
      exists cls. split; [exact Hcls|]. unfold token_selector. rewrite Ene. now left.
Qed.

(** X25: the id selectors [navigate] reports are the selectors [#id] of
    the elements that have an id, one per such element (an id used twice is
    reported twice), sorted. *)
Theorem idSelectors_spec (doc : document) :
  let found := idSelectors (snd (page_data doc)) in
  Sorted lex_le found /\
  Permutation (flat_map element_id (doc_elements doc)) found.
Proof.
  cbv zeta. unfold page_data. cbn [snd idSelectors].
  split; [apply js_sort_sorted|].
  rewrite scan_ids. cbn [ids_found app]. apply js_sort_perm.
Qed.

(** X26: [totalElements] is the number of elements, and [commonSelectors]
    is the fixed list of 29 tags, in its order, cut down to the tags that at
    least one element of the page has. *)
Theorem commonSelectors_spec (doc : document) :
  totalElements (snd (page_data doc)) = length (doc_elements doc) /\
  commonSelectors (snd (page_data doc)) =
    List.filter
      (fun tag => existsb (fun el => str_eq (el_tag el) tag) (doc_elements doc))
      common_tags.
Proof.
  unfold page_data. cbn [snd totalElements commonSelectors].
  split; [reflexivity|].
  apply filter_ext. intros tag. rewrite scan_counts.
  cbn [tagCounts]. rewrite lookup_empty. cbn [default Nat.add].
  induction (doc_elements doc) as [|el els IH]; [reflexivity|].
  cbn [List.filter existsb].
  destruct (str_eq (el_tag el) tag); [reflexivity|exact IH].
Qed.

(** The page of the sample: [dark] and [card] are each reported once, the
    id [main] twice, and the tags come in the order of the fixed list. *)
Example page_up_selectors :
  match pe_document page_up 1%N with
  | Resolved doc =>
      snd (page_data doc) =
        Selectors 5
          [units "body"; units "div"]
          [units "#main"; units "#main"]
          [units ".card"; units ".dark"; units ".home"]
  | Rejected _ => False
  end.
Proof. vm_compute. reflexivity. Qed.

(** ** Screenshot names *)

Lemma dashes_clean (s : string) :
  String.length (dashes s) = String.length s /\
  forall c, In c (list_ascii_of_string (dashes s)) ->
            c <> ":"%char /\ c <> "."%char.
Proof.
  induction s as [|a s [IHl IHc]]; cbn [dashes String.length list_ascii_of_string].
  - split; [reflexivity|]. intros c [].
  - split; [now rewrite IHl|].
    intros c [<-|Hin]; [|now apply IHc].
    destruct (Ascii.eqb_spec a ":") as [->|H1]; cbn [orb]; [split; discriminate|].
    destruct (Ascii.eqb_spec a ".") as [->|H2]; [split; discriminate|].
    split; assumption.
Qed.

(** Character by character: a colon or a full stop becomes a dash, any
    other character stays. *)
Lemma dashes_pointwise (s : string) :
  Forall2 (fun i o => ((i = ":" \/ i = ".") -> o = "-") /\
                      (i <> ":" -> i <> "." -> o = i))%char
          (list_ascii_of_string s) (list_ascii_of_string (dashes s)).
Proof.
  induction s as [|a s IH]; cbn [dashes list_ascii_of_string]; constructor;
    [|exact IH].
  destruct (Ascii.eqb_spec a ":") as [->|H1]; cbn [orb].
  - split; [reflexivity|]. intros H. now destruct H.
  - destruct (Ascii.eqb_spec a ".") as [->|H2].
    + split; [reflexivity|]. intros _ H. now destruct H.
    + split; [|reflexivity]. intros [H|H]; contradiction.
Qed.

(** X27: without a file name (none given, or the empty string)
    [takeScreenshot] names the file
    [websource-browser-screenshot-<stamp>.png], where the stamp is the ISO
    time of the call, character by character, with every colon and every
    full stop replaced by a dash and every other character kept; so the
    stamp has the length of the ISO string and contains neither a colon nor
    a full stop.  A non-empty file name is used as it is. *)
Theorem screenshot_filename_spec (env : Env) (filename : option string) (w : world) :
  (filename = None \/ filename = Some EmptyString ->
   exists stamp,
     screenshot_filename env filename w =
       (Ok ("websource-browser-screenshot-" +:+ stamp +:+ ".png"), w) /\
     Forall2 (fun i o => ((i = ":" \/ i = ".") -> o = "-") /\
                         (i <> ":" -> i <> "." -> o = i))%char
             (list_ascii_of_string (env_iso env (now w)))
             (list_ascii_of_string stamp) /\
     String.length stamp = String.length (env_iso env (now w)) /\
     forall c, In c (list_ascii_of_string stamp) -> c <> ":"%char /\ c <> "."%char) /\
  (forall f, filename = Some f -> f <> EmptyString ->
     screenshot_filename env filename w = (Ok f, w)).
Proof.
  split.
  - intros H. exists (dashes (env_iso env (now w))).
    split; [destruct H as [->| ->]; reflexivity|].
    split; [apply dashes_pointwise|apply dashes_clean].
  - intros f -> Hf. unfold screenshot_filename.
    destruct (String.eqb_spec f EmptyString); [contradiction|reflexivity].
Qed.

Lemma screenshot_filename_spec_witness :
  exists stamp,
    screenshot_filename env_up None (fresh 1700000000000) =
      (Ok ("websource-browser-screenshot-" +:+ stamp +:+ ".png"),
       fresh 1700000000000) /\
    Forall2 (fun i o => ((i = ":" \/ i = ".") -> o = "-") /\
                        (i <> ":" -> i <> "." -> o = i))%char
            (list_ascii_of_string (env_iso env_up (now (fresh 1700000000000))))
            (list_ascii_of_string stamp) /\
    String.length stamp = String.length (env_iso env_up (now (fresh 1700000000000))) /\
    forall c, In c (list_ascii_of_string stamp) -> c <> ":"%char /\ c <> "."%char.
Proof.
  apply (proj1 (screenshot_filename_spec env_up None (fresh 1700000000000))).
  left. reflexivity.
Defined.

(** The file name of a screenshot taken at 2023-11-14T22:13:20.000Z. *)
Example screenshot_filename_at :
  let env := {| env_iso := fun _ => "2023-11-14T22:13:20.000Z";
                env_pid := 1; env_random100 := 7;
                env_port_free := fun _ => true; env_listen_ok := fun _ => true;
                env_any_port := 40001;
                env_executablePath := env_executablePath env_up;
                env_spawn_ok := env_spawn_ok env_up;
                env_debugger_url := env_debugger_url env_up;
                env_connect := env_connect env_up;
                env_disconnect := env_disconnect env_up;
                env_close := env_close env_up;
                env_first_page := env_first_page env_up;
                env_newPage := env_newPage env_up;
                env_location := env_location env_up;
                env_ping := env_ping env_up;
                env_others := env_others env_up |} in
  fst (screenshot_filename env None (fresh 1700000000000)) =
    Ok "websource-browser-screenshot-2023-11-14T22-13-20-000Z.png".
Proof. reflexivity. Qed.

(** ** The session tools of the MCP server *)

(** The [startSession] tool turns an error of [startSession] into a reply
    with [isError] and enters the name in [activeSessions] only when the
    session started. *)
Lemma tool_startSession_outcome (env : Env) (active : gmap string bool)
    (sessionName : option string) (headless : option bool) (w : world) :
  let name := name_or_default sessionName in
  let h := match headless with Some b => b | None => true end in
  match startSession env name h w with
  | (Ok info, w') =>
      exists text,
        tool_startSession env active sessionName headless w =
          (Ok (ToolReply text false, <[name := h]> active), w')
  | (Throw msg, w') =>
      tool_startSession env active sessionName headless w =
        (Ok (ToolReply ("Error starting session: " +:+ msg) true, active), w')
  | (Crash msg, w') =>
      tool_startSession env active sessionName headless w = (Crash msg, w')
  end.
Proof.
  cbv zeta. unfold tool_startSession, try_catch, bind.
  destruct (startSession env (name_or_default sessionName) _ w) as [[info|msg|msg] w'];
    [eexists|..]; reflexivity.
Qed.

(** X28: the [stopSession] tool never throws.  When the record is
    usable the session is stopped, its name leaves [activeSessions] and the
    record leaves the directory; otherwise the reply is the error "Error
    stopping session: Session '<name>' does not exist" and the client, the
    map and the directory are as before. *)
Theorem tool_stopSession_outcome (env : Env) (wb : WebSourceBrowser)
    (active : gmap string bool) (sessionName : option string) (w : world) :
  let name := name_or_default sessionName in
  if truthy (parsed (record_of w name)) then
    exists wb' w',
      tool_stopSession env wb active sessionName w =
        (Ok (ToolReply ("Session '" +:+ name +:+ "' stopped successfully") false,
             wb', delete name active), w') /\
      record_of w' name = None
  else
    tool_stopSession env wb active sessionName w =
      (Ok (ToolReply ("Error stopping session: Session '" +:+ name +:+
                      "' does not exist") true, wb, active), w).
Proof.
  cbv zeta.
  destruct (stopSession_cases env wb (name_or_default sessionName) w)
    as [(T & w' & E & Hf)|[T E]]; rewrite T;
    unfold tool_stopSession, try_catch, bind; rewrite E.
  - eexists _, _. split; [reflexivity|].
    unfold record_of. rewrite Hf. apply lookup_delete_eq.
  - reflexivity.
Qed.

(** ** Refreshing the page *)

Lemma updateSession_files (name : string) (updates : jsobj) (w : world) :
  exists b w',
    updateSession name updates w = (Ok b, w') /\
    now w' = now w /\
    (truthy (parsed (record_of w name)) = false -> files w' = files w) /\
    (forall props,
       record_of w name = Some (FJson (JObj props)) ->
       exists props',
         record_of w' name = Some (FJson (JObj props')) /\
         forall k, obj_get k props' =
                   match obj_get k (rev updates) with
                   | Some v => Some v
                   | None => obj_get k props
                   end).
Proof.
  rewrite updateSession_eq.
  destruct (truthy (parsed (record_of w name))) eqn:T.
  - eexists _, _. split; [reflexivity|]. split; [reflexivity|].
    split; [discriminate|].
    intros props R. rewrite R. cbn [parsed]. eexists.
    unfold record_of at 1. cbn [files]. rewrite lookup_insert_eq.
    split; [reflexivity|]. intros k. apply (obj_get_spread k (JObj props) updates).
  - eexists _, _. split; [reflexivity|]. split; [reflexivity|].
    split; [reflexivity|].
    intros props R. rewrite R in T. discriminate.
Qed.

(** X29: [refreshPage] on an attached client with a page.  It first tries
    the reload that waits for the network to go idle; whatever fails in that
    attempt is not reported, a plain reload is tried instead.  So when it
    resolves, the page info is that of the first attempt, or of the second
    one after a failure in the first, and a usable record has [currentUrl]
    set to the URL of that page info; when it throws, the message is
    "Failed to refresh page: " followed by what failed in the second
    attempt, and the directory is untouched. *)
Theorem refreshPage_attached_outcome (env : Env) (penv : PageEnv)
    (wb : WebSourceBrowser) (p : page) (name : string) (waitTime : Z) (w : world) :
  must_connect wb name = false ->
  wb_page wb = Some p ->
  match refreshPage env penv wb name waitTime w with
  | (Ok (wb', info), w') =>
      wb' = wb /\
      (exists fallback doc,
         pe_reload penv p (negb fallback) = Resolved tt /\
         pe_reloaded penv p (negb fallback) = Resolved doc /\
         info = PageInfo (doc_href doc) (doc_title doc) (doc_complete doc) /\
         (fallback = true ->
          (exists e, pe_reload penv p true = Rejected e) \/
          (exists e, pe_reloaded penv p true = Rejected e))) /\
      (forall props,
         record_of w name = Some (FJson (JObj props)) ->
         exists props',
           record_of w' name = Some (FJson (JObj props')) /\
           obj_get "currentUrl" props' = Some (JStr (pi_url info)) /\
           forall k, k <> "currentUrl" -> obj_get k props' = obj_get k props)
  | (Throw msg, w') =>
      files w' = files w /\
      exists cause,
        msg = "Failed to refresh page: " +:+ cause /\
        (pe_reload penv p false = Rejected cause \/
         pe_reloaded penv p false = Rejected cause)
  | (Crash _, _) => False
  end.
Proof.
  intros Hc Hp. unfold refreshPage, require_session. rewrite Hc.
  unfold bind at 1, ret at 1. rewrite Hp.
  (* the second attempt, from any world with the same directory *)
  assert (Second : forall w1,
    files w1 = files w ->
    ((exists e, pe_reload penv p true = Rejected e) \/
     (exists e, pe_reloaded penv p true = Rejected e)) ->
    match
      try_catch
        (ask (pe_reload penv p false);;
         sleep (Z.max 0 waitTime);;
         let! doc := ask (pe_reloaded penv p false) in
         let pageInfo := PageInfo (doc_href doc) (doc_title doc) (doc_complete doc) in
         updateSession name [("currentUrl", JStr (pi_url pageInfo))];;
         ret (wb, pageInfo))
        (fun msg => throw ("Failed to refresh page: " +:+ msg)) w1
    with
    | (Ok (wb', info), w') =>
        wb' = wb /\
        (exists fallback doc,
           pe_reload penv p (negb fallback) = Resolved tt /\
           pe_reloaded penv p (negb fallback) = Resolved doc /\
           info = PageInfo (doc_href doc) (doc_title doc) (doc_complete doc) /\
           (fallback = true ->
            (exists e, pe_reload penv p true = Rejected e) \/
            (exists e, pe_reloaded penv p true = Rejected e))) /\
        (forall props,
           record_of w name = Some (FJson (JObj props)) ->
           exists props',
             record_of w' name = Some (FJson (JObj props')) /\
             obj_get "currentUrl" props' = Some (JStr (pi_url info)) /\
             forall k, k <> "currentUrl" -> obj_get k props' = obj_get k props)
    | (Throw msg, w') =>
        files w' = files w /\
        exists cause,
          msg = "Failed to refresh page: " +:+ cause /\
          (pe_reload penv p false = Rejected cause \/
           pe_reloaded penv p false = Rejected cause)
    | (Crash _, _) => False
    end).
  { intros w1 Hf Hfirst. unfold try_catch. unfold bind at 1, ask.
    destruct (pe_reload penv p false) as [[]|e] eqn:Er;
      [|unfold throw; split; [exact Hf|eauto]].
    unfold bind at 1, sleep. unfold bind at 1.
    destruct (pe_reloaded penv p false) as [doc|e] eqn:Ed;
      [|unfold throw; cbn [files]; split; [exact Hf|eauto]].
    unfold bind at 1. cbv zeta. cbn [pi_url].
    set (w2 := World (files w1) (now w1 + Z.max 0 waitTime)
                     (trace w1 ++ [EvSleep (Z.max 0 waitTime)])).
    destruct (updateSession_files name [("currentUrl", JStr (doc_href doc))] w2)
      as (b & w3 & -> & _ & _ & Hrec).
    unfold ret. split; [reflexivity|]. split.
    - exists true, doc. cbn [negb]. auto.
    - intros props R.
      assert (R2 : record_of w2 name = Some (FJson (JObj props))).
      { unfold record_of, w2. cbn [files]. rewrite Hf. exact R. }
      destruct (Hrec props R2) as (props' & R' & Hk).
      exists props'. split; [exact R'|]. split.
      + rewrite Hk. reflexivity.
      + intros k Hne. rewrite Hk. cbn [rev app obj_get].
        destruct (String.eqb_spec k "currentUrl"); [contradiction|reflexivity]. }
  unfold try_catch at 1. unfold bind at 1, ask at 1.
  destruct (pe_reload penv p true) as [[]|e] eqn:Er1.
  2:{ apply Second; [reflexivity|]. left. eauto. }
  unfold bind at 1.
  assert (Hw : exists w1,
             (if waitTime >? 0 then sleep waitTime else ret tt) w = (Ok tt, w1) /\
             files w1 = files w).
  { destruct (waitTime >? 0); eexists; split; reflexivity. }
  destruct Hw as (w1 & -> & Hf1).
  unfold bind at 1, ask at 1.
  destruct (pe_reloaded penv p true) as [doc|e] eqn:Ed1.
  2:{ apply Second; [exact Hf1|]. right. eauto. }
  unfold bind at 1. cbv zeta. cbn [pi_url].
  destruct (updateSession_files name [("currentUrl", JStr (doc_href doc))] w1)
    as (b & w3 & -> & _ & _ & Hrec).
  unfold ret. split; [reflexivity|]. split.
  - exists false, doc. cbn [negb]. repeat split; try assumption. discriminate.
  - intros props R.
    assert (R2 : record_of w1 name = Some (FJson (JObj props))).
    { unfold record_of. rewrite Hf1. exact R. }
    destruct (Hrec props R2) as (props' & R' & Hk).
    exists props'. split; [exact R'|]. split.
    + rewrite Hk. reflexivity.
    + intros k Hne. rewrite Hk. cbn [rev app obj_get].
      destruct (String.eqb_spec k "currentUrl"); [contradiction|reflexivity].
Qed.

Lemma refreshPage_attached_outcome_witness :
  match refreshPage env_up page_up client_s1 "s1" 2000 (world_s1 5) with
  | (Ok (wb', info), w') =>
      wb' = client_s1 /\
      (exists fallback doc,
         pe_reload page_up 1%N (negb fallback) = Resolved tt /\
         pe_reloaded page_up 1%N (negb fallback) = Resolved doc /\
         info = PageInfo (doc_href doc) (doc_title doc) (doc_complete doc) /\
         (fallback = true ->
          (exists e, pe_reload page_up 1%N true = Rejected e) \/
          (exists e, pe_reloaded page_up 1%N true = Rejected e))) /\
      (forall props,
         record_of (world_s1 5) "s1" = Some (FJson (JObj props)) ->
         exists props',
           record_of w' "s1" = Some (FJson (JObj props')) /\
           obj_get "currentUrl" props' = Some (JStr (pi_url info)) /\
           forall k, k <> "currentUrl" -> obj_get k props' = obj_get k props)
  | (Throw msg, w') =>
      files w' = files (world_s1 5) /\
      exists cause,
        msg = "Failed to refresh page: " +:+ cause /\
        (pe_reload page_up 1%N false = Rejected cause \/
         pe_reloaded page_up 1%N false = Rejected cause)
  | (Crash _, _) => False
  end.
Proof.
  apply (refreshPage_attached_outcome env_up page_up client_s1 1%N "s1" 2000
           (world_s1 5)); reflexivity.
Defined.

(** The sample page refuses the first reload; the plain one goes through
    and the record of [s1] gets the URL. *)
Example refresh_s1_falls_back :
  exists w',
    refreshPage env_up page_up client_s1 "s1" 2000 (world_s1 5) =
      (Ok (client_s1, PageInfo "https://example.com/" "Example Domain" true), w') /\
    get_prop (parsed (record_of w' "s1")) "currentUrl"
      = Some (JStr "https://example.com/").
Proof. eexists. split; vm_compute; reflexivity. Qed.
